(** * Crop-yield blending, forecast fallback and recommendation ranking

    A shallow embedding of the decision logic of the crop production
    prediction system:

    - [src/models/ensemble_model.py]   ([EnsembleYieldPredictor.predict_yield],
      [EnsembleYieldPredictor._prepare_input],
      [EnsembleYieldPredictor.predict_production_trends]),
    - [src/models/arima_model.py]      ([prepare_time_series], [ARIMAForecaster.predict],
      [ARIMAForecaster.find_optimal_order]),
    - [src/models/prophet_model.py]    ([ProphetForecaster.predict]),
    - [src/utils/profitability_calculator.py],
    - [src/api/Agriculture_Crop_Production_Prediction_System.py]
      ([get_recommendations], [calculate_profitability]),
    - [src/utils/preprocessing.py]     ([FeatureEncoder]),
    - [src/clustering/kmeans_clustering.py] ([find_optimal_clusters]).

    Conventions of the embedding.

    - Python floats are read as real numbers ([R]); rounding error of the
      binary representation is not modelled.  Where the code itself can
      produce NaN from well-formed data (the mean of an empty column) the
      value is an [option R] and [None] stands for NaN.
    - A call that may raise returns an [option], [None] being "an exception
      was raised", or a [result] carrying the message of the [ValueError].
    - The fitted estimators (scikit-learn, XGBoost, statsmodels, Prophet)
      are external: they appear as functions carried by records, about
      which nothing is assumed. *)

From Stdlib Require Import String DecimalString DecimalZ.
From Stdlib Require Import Reals Lra Lia ZArith List Bool.
From Stdlib Require Import Sorting.Permutation Sorting.Sorted.
Import ListNotations.

Local Open Scope R_scope.

(* ================================================================== *)
(** * Numeric helpers (numpy / builtins) *)
(* ================================================================== *)

Module Numeric.

(** [sum(l)] *)
Fixpoint Rsum (l : list R) : R :=
  match l with
  | [] => 0
  | x :: t => x + Rsum t
  end.

(** [np.mean(l)] for a non-empty [l] *)
Definition np_mean (l : list R) : R := Rsum l / INR (length l).

(** element-wise product of two arrays *)
Fixpoint mul_arrays (a w : list R) : list R :=
  match a, w with
  | x :: a', y :: w' => x * y :: mul_arrays a' w'
  | _, _ => []
  end.

(** [np.average(a, weights=w)]: sum(a*w) / sum(w) *)
Definition np_average (a w : list R) : R := Rsum (mul_arrays a w) / Rsum w.

(** [np.std(l)] with its default [ddof=0]: the square root of the mean
    of the squared deviations from the mean. *)
Definition np_std (l : list R) : R :=
  sqrt (np_mean (map (fun x => Rsqr (x - np_mean l)) l)).

(** [pandas.Series.mean()]: NaN ([None]) on an empty column. *)
Definition series_mean (l : list R) : option R :=
  match l with
  | [] => None
  | _ => Some (np_mean l)
  end.

(** Round half to even, the rule of Python's [round]. *)
Definition round_half_even (x : R) : Z :=
  let n := Zfloor x in
  let f := x - IZR n in
  if Rlt_dec f (1/2) then n
  else if Rlt_dec (1/2) f then (n + 1)%Z
  else if Z.even n then n else (n + 1)%Z.

(** [round(x, 2)] *)
Definition round2 (x : R) : R := IZR (round_half_even (x * 100)) / 100.

(** [', '.join(names)] *)
Definition join (sep : string) (l : list string) : string := String.concat sep l.

(** Python slice [l[:n]] for an integer [n] ([None] is [l[:None]]). *)
Definition slice_to {A} (l : list A) (n : option Z) : list A :=
  match n with
  | None => l
  | Some k =>
      if (0 <=? k)%Z then firstn (Z.to_nat k) l
      else firstn (Z.to_nat (Z.of_nat (length l) + k)) l
  end.

End Numeric.
Import Numeric.

(* ================================================================== *)
(** * The blending engine: [EnsembleYieldPredictor.predict_yield] *)
(* ================================================================== *)

Module Ensemble.

(** The arguments of one yield request. *)
Record Features := mkFeatures {
  f_crop : string;
  f_state : string;
  f_season : string;
  f_year : Z;
  f_cost : R
}.

(** A loaded tree model ([RandomForestYieldPredictor] or
    [XGBoostYieldPredictor]).  [predict] stands for
    [model.predict(self._prepare_input(...))[0]]; [None] is any exception
    raised while the input frame is built or the model is evaluated. *)
Record Estimator := mkEstimator {
  is_trained : bool;
  predict : Features -> option R
}.

(** The fields of [EnsembleYieldPredictor] the prediction reads;
    [None] is Python's [None] (model file not found). *)
Record EnsembleYieldPredictor := mkPredictor {
  rf_model : option Estimator;
  xgb_model : option Estimator
}.

(** [self.weights], set once in [__init__]. *)
Definition weights : list (string * R) :=
  [ ("random_forest"%string, 0.5);
    ("xgboost"%string, 0.5);
    ("arima"%string, 0.2);
    ("prophet"%string, 0.2) ].

(** [d.get(name, default)] on an association list *)
Fixpoint dict_get {V} (d : list (string * V)) (name : string) (default : V) : V :=
  match d with
  | [] => default
  | (k, v) :: d' => if String.eqb k name then v else dict_get d' name default
  end.

(** the heuristic table of the fallback branch *)
Definition base_yield_table : list (string * R) :=
  [ ("Rice"%string, 40); ("Wheat"%string, 35); ("Cotton"%string, 12);
    ("Soybean"%string, 10); ("Sugarcane"%string, 70); ("Maize"%string, 25);
    ("Groundnut"%string, 15); ("Pulses"%string, 8); ("Oilseeds"%string, 12);
    ("Jute"%string, 20) ].

Definition base_yield (crop : string) : R := dict_get base_yield_table crop 20.

(** One guarded model call:
    [if m and m.is_trained: try: ... predictions.append(p); model_names.append(name)
     except: print(...)]. *)
Definition try_model (m : option Estimator) (name : string) (x : Features)
           (acc : list R * list string) : list R * list string :=
  match m with
  | Some e =>
      if is_trained e then
        match predict e x with
        | Some p => (fst acc ++ [p], snd acc ++ [name])
        | None => acc
        end
      else acc
  | None => acc
  end.

(** [predictions] and [model_names] after the two model blocks. *)
Definition contributions (self : EnsembleYieldPredictor) (x : Features)
  : list R * list string :=
  try_model (xgb_model self) "xgboost" x
    (try_model (rf_model self) "random_forest" x ([], [])).

(** [predictions], [model_names] after the [len(predictions) == 0] test. *)
Definition with_fallback (crop : string) (c : list R * list string)
  : list R * list string :=
  if (length (fst c) =? 0)%nat then ([base_yield crop], ["heuristic"%string]) else c.

Record YieldResult := mkYieldResult {
  predicted_yield : R;
  lower : R;
  upper : R;
  model_names : list string;
  model_used : string;
  individual_predictions : list (string * R)
}.

(** the normalised weight vector of lines 129-130 *)
Definition blend_weights (predictions : list R) (names : list string) : list R :=
  let ws := map (fun name => dict_get weights name (1 / INR (length predictions))) names in
  map (fun w => w / Rsum ws) ws.

(** [ensemble_pred] *)
Definition ensemble_pred (predictions : list R) (names : list string) : R :=
  np_average predictions (blend_weights predictions names).

(** [std_pred] *)
Definition std_pred (predictions : list R) (names : list string) : R :=
  if (1 <? length predictions)%nat then np_std predictions
  else ensemble_pred predictions names * 0.1.

Definition predict_yield (self : EnsembleYieldPredictor)
           (crop state season : string) (year : Z) (cost : R) : YieldResult :=
  let x := mkFeatures crop state season year cost in
  let '(predictions, names) := with_fallback crop (contributions self x) in
  let e := ensemble_pred predictions names in
  let s := std_pred predictions names in
  {| predicted_yield := Rmax 0 e;
     lower := Rmax 0 (e - 1.96 * s);
     upper := e + 1.96 * s;
     model_names := names;
     model_used := ("Ensemble (" ++ join ", " names ++ ")")%string;
     individual_predictions := combine names predictions |}.

(** ** Auxiliary notions used to state the properties *)

(** [contributes m x]: the guarded block of model [m] appends a value. *)
Definition contributes (m : option Estimator) (x : Features) : bool :=
  match m with
  | Some e => is_trained e && match predict e x with Some _ => true | None => false end
  | None => false
  end.

(** The four shapes [predictions, model_names] can have after the two blocks. *)
Inductive shape : list R * list string -> Prop :=
| shape_none : shape ([], [])
| shape_rf a : shape ([a], ["random_forest"%string])
| shape_xgb b : shape ([b], ["xgboost"%string])
| shape_both a b : shape ([a; b], ["random_forest"%string; "xgboost"%string]).

(** The record [predict_yield] builds from the final [predictions] and
    [model_names]. *)
Definition blend (predictions : list R) (names : list string) : YieldResult :=
  let e := ensemble_pred predictions names in
  let s := std_pred predictions names in
  {| predicted_yield := Rmax 0 e;
     lower := Rmax 0 (e - 1.96 * s);
     upper := e + 1.96 * s;
     model_names := names;
     model_used := ("Ensemble (" ++ join ", " names ++ ")")%string;
     individual_predictions := combine names predictions |}.

(** a predictor with no model file loaded *)
Definition no_models : EnsembleYieldPredictor :=
  {| rf_model := None; xgb_model := None |}.

(** a predictor whose only model, XGBoost, returns [v] for every input *)
Definition xgb_only (v : R) : EnsembleYieldPredictor :=
  {| rf_model := None;
     xgb_model := Some {| is_trained := true; predict := fun _ => Some v |} |}.

(** a predictor whose two models return [a] (Random Forest) and [b] (XGBoost) *)
Definition two_models (a b : R) : EnsembleYieldPredictor :=
  {| rf_model := Some {| is_trained := true; predict := fun _ => Some a |};
     xgb_model := Some {| is_trained := true; predict := fun _ => Some b |} |}.

(** The sample standard deviation (divisor n - 1), as the specification
    words the interval of two or more contributing models. *)
Definition sample_std (l : list R) : R :=
  sqrt (Rsum (map (fun x => Rsqr (x - np_mean l)) l) / (INR (length l) - 1)).

(** The interval rule as the specification states it: value -/+ 1.96 times
    the sample standard deviation (lower bound floored at 0) for two or more
    contributing models, value -/+ 1.96 * (0.1 * value) otherwise. *)
Definition interval_rule_as_specified : Prop :=
  forall (self : EnsembleYieldPredictor) (crop state season : string)
         (year : Z) (cost : R),
    let r := predict_yield self crop state season year cost in
    let contributing := fst (contributions self (mkFeatures crop state season year cost)) in
    ((2 <= length contributing)%nat ->
     lower r = Rmax 0 (predicted_yield r - 1.96 * sample_std contributing) /\
     upper r = predicted_yield r + 1.96 * sample_std contributing) /\
    ((length contributing < 2)%nat ->
     lower r = predicted_yield r - 1.96 * (0.1 * predicted_yield r) /\
     upper r = predicted_yield r + 1.96 * (0.1 * predicted_yield r)).

End Ensemble.

(* ================================================================== *)
(** * The historical dataset *)
(* ================================================================== *)

Module Data.

(** One record of the tabular dataset (the columns the core reads). *)
Record Row := mkRow {
  Crop : string;
  State : string;
  Season : string;
  Year : Z;
  Quantity : R;
  Production : R;
  Cost : R
}.

Definition DataFrame := list Row.

(** [df[(df['Crop'] == crop) & (df['State'] == state)]] *)
Definition select (df : DataFrame) (crop state : string) : DataFrame :=
  filter (fun r => String.eqb (Crop r) crop && String.eqb (State r) state) df.

(** [Series.unique()]: the distinct values in order of first appearance. *)
Fixpoint unique (l : list string) : list string :=
  match l with
  | [] => []
  | x :: t => x :: filter (fun y => negb (String.eqb y x)) (unique t)
  end.

(** [range(a, b)] *)
Definition py_range (a b : Z) : list Z :=
  map (fun i => (a + Z.of_nat i)%Z) (seq 0 (Z.to_nat (b - a))).

End Data.

(* ================================================================== *)
(** * Time-series forecasters *)
(* ================================================================== *)

Module Trend.
Import Data.

(** A yearly series: (index, value) pairs ordered by index. *)
Definition Series := list (Z * R).

(** One forecast dictionary.  [predicted_production] is [None] for NaN;
    [bounds] is [None] when the keys [lower_bound]/[upper_bound] are absent. *)
Record TrendPoint := mkPoint {
  year : Z;
  predicted_production : option R;
  bounds : option (R * R);
  unit : string
}.

(** insertion of a group key into the sorted key list *)
Fixpoint insert_year (y : Z) (l : list Z) : list Z :=
  match l with
  | [] => [y]
  | z :: t =>
      if (y <? z)%Z then y :: l
      else if (y =? z)%Z then l
      else z :: insert_year y t
  end.

(** the keys of [groupby('Year')], sorted *)
Definition group_keys (l : list Z) : list Z := fold_right insert_year [] l.

(** [prepare_time_series(df, crop, state)]; [None] is the [ValueError]
    raised when no row matches. *)
Definition prepare_time_series (df : DataFrame) (crop state : string) : option Series :=
  let filtered := select df crop state in
  if (length filtered =? 0)%nat then None
  else Some (map (fun y =>
                    (y, np_mean (map Production
                                   (filter (fun r => (Year r =? y)%Z) filtered))))
                 (group_keys (map Year filtered))).

(** [int(series.index[-1])]; [None] is the [IndexError] on an empty series. *)
Definition last_index (s : Series) : option Z :=
  match rev s with
  | [] => None
  | (y, _) :: _ => Some y
  end.

(** One row of the frame returned by Prophet: the year of [ds], [yhat],
    [yhat_lower], [yhat_upper]. *)
Record ProphetRow := mkProphetRow {
  ds_year : Z;
  yhat : R;
  yhat_lower : R;
  yhat_upper : R
}.

(** The external fitting libraries.  [*_fit s = false]: fitting on [s]
    raised.  [*_forecast s n = None]: forecasting [n] steps with the model
    fitted on [s] raised; otherwise the rows the library returned. *)
Record Backend := mkBackend {
  prophet_fit : Series -> bool;
  prophet_forecast : Series -> Z -> option (list ProphetRow);
  arima_fit : Series -> bool;
  arima_forecast : Series -> Z -> option (list (R * R * R))
}.

(** [DataFrame.tail(n)] for [n > 0] *)
Definition tail {A} (n : Z) (l : list A) : list A :=
  skipn (length l - Z.to_nat n) l.

Module Prophet.

(** the forecaster object; only [is_trained] is observable here *)
Record ProphetForecaster := mkForecaster { is_trained : bool }.

(** [ProphetForecaster()] *)
Definition new : ProphetForecaster := {| is_trained := false |}.

(** [train]: [None] when [self.model.fit] raises *)
Definition train (B : Backend) (self : ProphetForecaster) (s : Series)
  : option ProphetForecaster :=
  if prophet_fit B s then Some {| is_trained := true |} else None.

Definition to_point (r : ProphetRow) : TrendPoint :=
  {| year := ds_year r;
     predicted_production := Some (yhat r);
     bounds := Some (yhat_lower r, yhat_upper r);
     unit := "Tons" |}.

(** [ProphetForecaster.predict(series, start_year, end_year)] *)
Definition predict (B : Backend) (self : ProphetForecaster) (s : Series)
           (start_year end_year : Z) : option (list TrendPoint) :=
  match (if is_trained self then Some self else train B self s) with
  | None => None
  | Some _ =>
      match last_index s with
      | None => None
      | Some last_year =>
          let periods := (end_year - last_year)%Z in
          if (periods <=? 0)%Z then Some []
          else
            match prophet_forecast B s periods with
            | None => None
            | Some forecast_df =>
                let future_forecast := tail periods forecast_df in
                Some (map to_point
                        (filter (fun r => (start_year <=? ds_year r)%Z
                                          && (ds_year r <=? end_year)%Z)
                                future_forecast))
            end
      end
  end.

End Prophet.

Module Arima.

Record ARIMAForecaster := mkForecaster { is_trained : bool }.

Definition new : ARIMAForecaster := {| is_trained := false |}.

(** [train]: [None] when order selection or the fit raises *)
Definition train (B : Backend) (self : ARIMAForecaster) (s : Series)
  : option ARIMAForecaster :=
  if arima_fit B s then Some {| is_trained := true |} else None.

Definition to_point (y : Z) (r : R * R * R) : TrendPoint :=
  let '(f, lo, hi) := r in
  {| year := y;
     predicted_production := Some f;
     bounds := Some (lo, hi);
     unit := "Tons" |}.

(** the loop [for i, year in enumerate(range(...))], reading row [i] of
    the forecast arrays; [None] is the [IndexError] of a short array *)
Fixpoint collect (years : list Z) (rows : list (R * R * R)) : option (list TrendPoint) :=
  match years with
  | [] => Some []
  | y :: ys =>
      match rows with
      | [] => None
      | r :: rs =>
          match collect ys rs with
          | None => None
          | Some ps => Some (to_point y r :: ps)
          end
      end
  end.

(** [ARIMAForecaster.predict(series, start_year, end_year)] *)
Definition predict (B : Backend) (self : ARIMAForecaster) (s : Series)
           (start_year end_year : Z) : option (list TrendPoint) :=
  match (if is_trained self then Some self else train B self s) with
  | None => None
  | Some _ =>
      match last_index s with
      | None => None
      | Some last_year =>
          let steps := (end_year - last_year)%Z in
          if (steps <=? 0)%Z then Some []
          else
            match arima_forecast B s steps with
            | None => None
            | Some rows => collect (py_range (last_year + 1) (end_year + 1)) rows
            end
      end
  end.

End Arima.

Record TrendResult := mkTrendResult {
  forecast : list TrendPoint;
  trend : string;
  model_used : string
}.

(** [a > b] on floats; any comparison with NaN is false *)
Definition float_gt (a b : option R) : bool :=
  match a, b with
  | Some x, Some y => if Rlt_dec y x then true else false
  | _, _ => false
  end.

(** the dictionary returned by a successful model attempt
    (lines 237-241 and 251-255); [first] is [predictions[0]] *)
Definition model_result (first : TrendPoint) (rest : list TrendPoint) (name : string)
  : TrendResult :=
  let predictions := first :: rest in
  {| forecast := predictions;
     trend := if float_gt (predicted_production (List.last predictions first))
                          (predicted_production first)
              then "increasing" else "decreasing";
     model_used := name |}.

(** the Prophet block: [None] when it raised or fell through [if predictions:] *)
Definition prophet_attempt (B : Backend) (s : Series) (start_year end_year : Z)
  : option TrendResult :=
  match Prophet.train B Prophet.new s with
  | None => None
  | Some prophet =>
      match Prophet.predict B prophet s start_year end_year with
      | Some (p :: ps) => Some (model_result p ps "Prophet")
      | _ => None
      end
  end.

(** the ARIMA block *)
Definition arima_attempt (B : Backend) (s : Series) (start_year end_year : Z)
  : option TrendResult :=
  match Arima.train B Arima.new s with
  | None => None
  | Some arima =>
      match Arima.predict B arima s start_year end_year with
      | Some (p :: ps) => Some (model_result p ps "ARIMA")
      | _ => None
      end
  end.

(** [avg_production] of the fallback (lines 263-265) *)
Definition avg_production (df : DataFrame) (crop state : string) : option R :=
  match series_mean (map Production (select df crop state)) with
  | Some m => Some m
  | None => series_mean (map Production df)
  end.

(** the fallback block (lines 262-279) *)
Definition linear_extrapolation (df : DataFrame) (crop state : string)
           (start_year end_year : Z) : TrendResult :=
  let avg := avg_production df crop state in
  {| forecast := map (fun y => {| year := y;
                                 predicted_production := avg;
                                 bounds := None;
                                 unit := "Tons" |})
                     (py_range start_year (end_year + 1));
     trend := "stable";
     model_used := "Linear Extrapolation" |}.

(** [EnsembleYieldPredictor.predict_production_trends] *)
Definition predict_production_trends (B : Backend) (crop state : string)
           (start_year end_year : Z) (df : DataFrame) : TrendResult :=
  let attempt :=
    match prepare_time_series df crop state with
    | None => None
    | Some series =>
        match prophet_attempt B series start_year end_year with
        | Some r => Some r
        | None => arima_attempt B series start_year end_year
        end
    end in
  match attempt with
  | Some r => r
  | None => linear_extrapolation df crop state start_year end_year
  end.

(** ** Auxiliary notions used to state the properties *)

(** the points the Prophet block obtains: [[]] when it raised *)
Definition prophet_points (B : Backend) (s : Series) (start_year end_year : Z)
  : list TrendPoint :=
  match Prophet.train B Prophet.new s with
  | None => []
  | Some prophet =>
      match Prophet.predict B prophet s start_year end_year with
      | Some predictions => predictions
      | None => []
      end
  end.

(** the points the ARIMA block obtains: [[]] when it raised *)
Definition arima_points (B : Backend) (s : Series) (start_year end_year : Z)
  : list TrendPoint :=
  match Arima.train B Arima.new s with
  | None => []
  | Some arima =>
      match Arima.predict B arima s start_year end_year with
      | Some predictions => predictions
      | None => []
      end
  end.

(** the point of the flat fallback forecast for year [y] *)
Definition flat_point (avg : option R) (y : Z) : TrendPoint :=
  {| year := y; predicted_production := avg; bounds := None; unit := "Tons" |}.

(** a backend in which every fit raises (all trend models disabled) *)
Definition failing_backend : Backend :=
  {| prophet_fit := fun _ => false;
     prophet_forecast := fun _ _ => None;
     arima_fit := fun _ => false;
     arima_forecast := fun _ _ => None |}.

(** a backend whose Prophet fit raises and whose ARIMA forecast is the
    constant row (100, 90, 110) for each requested step *)
Definition arima_backend : Backend :=
  {| prophet_fit := fun _ => false;
     prophet_forecast := fun _ _ => None;
     arima_fit := fun _ => true;
     arima_forecast := fun _ steps => Some (repeat (100, 90, 110) (Z.to_nat steps)) |}.

(** Rice in Punjab, one record per year from [first_year] to [last_year],
    each with production 1,000,000 *)
Definition rice_punjab (first_year last_year : Z) : DataFrame :=
  map (fun y => mkRow "Rice" "Punjab" "Kharif" y 40 1000000 50000)
      (py_range first_year (last_year + 1)).

(** The window rule as the specification states it: a request that ends at
    or before the last historical year gets no forecast points. *)
Definition observed_years_rule_as_specified : Prop :=
  forall (B : Backend) (crop state : string) (start_year end_year : Z)
         (df : DataFrame) (s : Series) (last_year : Z),
    prepare_time_series df crop state = Some s ->
    last_index s = Some last_year ->
    (start_year <= end_year)%Z ->
    (end_year <= last_year)%Z ->
    forecast (predict_production_trends B crop state start_year end_year df) = [].

(** The trend rule as the specification states it, on a list of values. *)
Definition three_way_trend (first last : R) : string :=
  if Rlt_dec first last then "increasing"
  else if Rlt_dec last first then "decreasing"
  else "stable".

(** Rice in Punjab with two records for 2013 (production 100 and 200) and
    one record for 2014 (production 600): the yearly series is
    2013 -> 150, 2014 -> 600 *)
Definition uneven_years : DataFrame :=
  [ mkRow "Rice" "Punjab" "Kharif" 2013 40 100 50000;
    mkRow "Rice" "Punjab" "Rabi" 2013 40 200 50000;
    mkRow "Rice" "Punjab" "Kharif" 2014 40 600 50000 ].

(** The flat value as the specification states it: when neither model gives
    a point, every point of the forecast carries the mean of the values of
    the (crop, state) series. *)
Definition series_mean_rule_as_specified : Prop :=
  forall (B : Backend) (crop state : string) (start_year end_year : Z)
         (df : DataFrame) (s : Series),
    prepare_time_series df crop state = Some s ->
    prophet_points B s start_year end_year = [] ->
    arima_points B s start_year end_year = [] ->
    Forall (fun p => predicted_production p = Some (np_mean (map snd s)))
           (forecast (predict_production_trends B crop state start_year end_year df)).

(** The frame of [ProphetForecaster.forecast(periods, freq='Y')] after a fit
    on [s], whose dates are 1 January of each year of the index: the
    in-sample rows, followed by [periods] future rows dated at the year
    ends (31 December) that follow the last training date, that is of the
    years last, last + 1, ..., last + periods - 1.  [value] is what the
    fitted model predicts for a year. *)
Definition year_end_frame (value : Z -> R) (s : Series) (periods : Z)
  : option (list ProphetRow) :=
  match last_index s with
  | None => None
  | Some last_year =>
      Some (map (fun y => mkProphetRow y (value y) (value y - 1) (value y + 1))
                (map fst s ++ py_range last_year (last_year + periods)))
  end.

(** a backend whose Prophet fit succeeds and forecasts on year-end dates;
    ARIMA is unavailable *)
Definition year_end_prophet (value : Z -> R) : Backend :=
  {| prophet_fit := fun _ => true;
     prophet_forecast := year_end_frame value;
     arima_fit := fun _ => false;
     arima_forecast := fun _ _ => None |}.

End Trend.

(* ================================================================== *)
(** * The profitability formula *)
(* ================================================================== *)

Module Profitability.

(** the outcome of a call that may raise [ValueError] *)
Inductive result (A : Type) : Type :=
| Ok (a : A)
| ValueError (msg : string).
Arguments Ok {A} a.
Arguments ValueError {A} msg.

Record Metrics := mkMetrics {
  profitability_index : R;
  predicted_yield : R;
  unit : string;
  expected_revenue : R;
  cost : R;
  expected_profit : R;
  profit_margin : R;
  recommendation : string
}.

(** the [if]/[elif] chain of lines 55-64 *)
Definition recommendation_text (profitability_index : R) : string :=
  if Rlt_dec 1.5 profitability_index then "Highly Profitable - Strongly Recommended"
  else if Rlt_dec 1.2 profitability_index then "Profitable - Recommended"
  else if Rlt_dec 1.0 profitability_index then "Marginally Profitable - Consider"
  else if Rlt_dec 0.8 profitability_index then "Low Profitability - Risky"
  else "Loss-Making - Not Recommended".

Definition calculate_profitability_index
           (predicted_yield market_price cost : R) (unit : string) : result Metrics :=
  if Rle_dec cost 0 then ValueError "Cost must be greater than zero"
  else if Rlt_dec predicted_yield 0 then ValueError "Predicted yield cannot be negative"
  else
    let expected_revenue := predicted_yield * market_price in
    let profitability_index := if Rlt_dec 0 cost then expected_revenue / cost else 0 in
    let expected_profit := expected_revenue - cost in
    let profit_margin := if Rlt_dec 0 cost then (expected_profit / cost) * 100 else 0 in
    Ok {| profitability_index := round2 profitability_index;
          predicted_yield := round2 predicted_yield;
          unit := unit;
          expected_revenue := round2 expected_revenue;
          cost := round2 cost;
          expected_profit := round2 expected_profit;
          profit_margin := round2 profit_margin;
          recommendation := recommendation_text profitability_index |}.

Definition default_unit : string := "Quintals/Hectare".

(** [list.sort(key=key, reverse=True)]: a stable sort, largest key first.
    [insert_desc] puts [x] in front of the first element whose key does
    not exceed the key of [x]. *)
Fixpoint insert_desc {A} (key : A -> R) (x : A) (l : list A) : list A :=
  match l with
  | [] => [x]
  | y :: t => if Rlt_dec (key x) (key y) then y :: insert_desc key x t else x :: l
  end.

Definition sort_desc {A} (key : A -> R) (l : list A) : list A :=
  fold_right (insert_desc key) [] l.

(** [enumerate(l, start)] *)
Fixpoint enumerate {A} (start : Z) (l : list A) : list (Z * A) :=
  match l with
  | [] => []
  | x :: t => (start, x) :: enumerate (start + 1) t
  end.

(** an input dictionary of [compare_crops_profitability]; an absent key is [None] *)
Record CropData := mkCropData {
  cd_crop : option string;
  cd_predicted_yield : option R;
  cd_market_price : option R;
  cd_cost : option R
}.

Definition get {A} (o : option A) (default : A) : A :=
  match o with Some a => a | None => default end.

(** a result dictionary: the metrics plus the keys ['crop'] and ['rank']
    ([None] until the rank is written) *)
Record Ranked := mkRanked {
  metrics : Metrics;
  crop : string;
  rank : option Z
}.

(** the scoring loop of lines 93-106; the first [ValueError] aborts it *)
Fixpoint score_all (crops_data : list CropData) : result (list Ranked) :=
  match crops_data with
  | [] => Ok []
  | crop_data :: rest =>
      match calculate_profitability_index
              (get (cd_predicted_yield crop_data) 0)
              (get (cd_market_price crop_data) 0)
              (get (cd_cost crop_data) 0)
              default_unit with
      | ValueError msg => ValueError msg
      | Ok profitability =>
          match score_all rest with
          | ValueError msg => ValueError msg
          | Ok results =>
              Ok ({| metrics := profitability;
                     crop := get (cd_crop crop_data) "Unknown"%string;
                     rank := None |} :: results)
          end
      end
  end.

Definition set_rank (ir : Z * Ranked) : Ranked :=
  {| metrics := metrics (snd ir); crop := crop (snd ir); rank := Some (fst ir) |}.

Definition compare_crops_profitability (crops_data : list CropData)
  : result (list Ranked) :=
  match score_all crops_data with
  | ValueError msg => ValueError msg
  | Ok results =>
      let results := sort_desc (fun x => profitability_index (metrics x)) results in
      Ok (map set_rank (enumerate 1 results))
  end.

(** ** Auxiliary notions used to state the properties *)

(** descending order of the sort key *)
Definition desc {A} (key : A -> R) (a b : A) : Prop := key b <= key a.

(** The formula as the specification states it: for cost > 0 and
    yield >= 0 the returned index is (yield * price) / cost. *)
Definition index_formula_as_specified : Prop :=
  forall (predicted_yield market_price cost : R) (unit : string),
    0 < cost -> 0 <= predicted_yield ->
    exists m, calculate_profitability_index predicted_yield market_price cost unit = Ok m /\
              profitability_index m = (predicted_yield * market_price) / cost.

End Profitability.

(* ================================================================== *)
(** * The recommendation ranker: [get_recommendations] *)
(* ================================================================== *)

Module Api.
Import Data.

Record RecommendationsRequest := mkRequest {
  state : string;
  budget : R;
  season : string;
  top_n : option Z
}.

Record Recommendation := mkRecommendation {
  crop : string;
  rank : Z;
  profitability_index : R;
  predicted_yield : R;
  estimated_cost : R;
  expected_revenue : R;
  expected_profit : R;
  reason : string
}.

Definition market_prices : list (string * R) :=
  [ ("Rice"%string, 2000); ("Wheat"%string, 1800); ("Cotton"%string, 6500);
    ("Soybean"%string, 4000); ("Sugarcane"%string, 3000); ("Maize"%string, 1500);
    ("Groundnut"%string, 5000); ("Pulses"%string, 6000); ("Oilseeds"%string, 4500);
    ("Jute"%string, 3500) ].

(** [estimated_cost] of lines 356-370 *)
Definition estimate_cost (df : DataFrame) (request : RecommendationsRequest)
           (crop : string) : R :=
  let rows := select df crop (state request) in
  Rmin (budget request)
       (if (0 <? length rows)%nat then np_mean (map Cost rows)
        else budget request * 0.8).

(** the body of the [for crop in crops[:10]] loop; [None] is the
    [except Exception: continue] *)
Definition score_crop (predictor : Ensemble.EnsembleYieldPredictor)
           (df : DataFrame) (request : RecommendationsRequest) (crop : string)
  : option Recommendation :=
  let estimated_cost := estimate_cost df request crop in
  let yield_result :=
    Ensemble.predict_yield predictor crop (state request) (season request)
                           2024 estimated_cost in
  let predicted_yield := Ensemble.predicted_yield yield_result in
  let market_price := Ensemble.dict_get market_prices crop 2000 in
  match Profitability.calculate_profitability_index
          predicted_yield market_price estimated_cost Profitability.default_unit with
  | Profitability.ValueError _ => None
  | Profitability.Ok profitability =>
      Some {| crop := crop;
              rank := 0;
              profitability_index := Profitability.profitability_index profitability;
              predicted_yield := predicted_yield;
              estimated_cost := estimated_cost;
              expected_revenue := Profitability.expected_revenue profitability;
              expected_profit := Profitability.expected_profit profitability;
              reason := Profitability.recommendation profitability |}
  end.

(** the candidate crops: [df["Crop"].unique().tolist()[:10]] *)
Definition candidate_crops (df : DataFrame) : list string :=
  firstn 10 (unique (map Crop df)).

(** [recommendations] when the loop ends *)
Fixpoint scored (predictor : Ensemble.EnsembleYieldPredictor)
         (df : DataFrame) (request : RecommendationsRequest)
         (crops : list string) : list Recommendation :=
  match crops with
  | [] => []
  | c :: rest =>
      match score_crop predictor df request c with
      | Some rec => rec :: scored predictor df request rest
      | None => scored predictor df request rest
      end
  end.

Definition set_rank (ir : Z * Recommendation) : Recommendation :=
  let rec := snd ir in
  {| crop := crop rec;
     rank := fst ir;
     profitability_index := profitability_index rec;
     predicted_yield := predicted_yield rec;
     estimated_cost := estimated_cost rec;
     expected_revenue := expected_revenue rec;
     expected_profit := expected_profit rec;
     reason := reason rec |}.

(** lines 408-410: sort, then write the ranks *)
Definition sort_and_rank (recommendations : list Recommendation) : list Recommendation :=
  map set_rank
      (Profitability.enumerate 1
         (Profitability.sort_desc profitability_index recommendations)).

Record Response := mkResponse {
  resp_state : string;
  recommendations : list Recommendation
}.

(** [get_recommendations] with the loaded dataset and predictor passed in.
    The ['zone'] and ['timestamp'] entries of the response do not
    influence the recommendations and are left out. *)
Definition get_recommendations (predictor : Ensemble.EnsembleYieldPredictor)
           (df : DataFrame) (request : RecommendationsRequest) : Response :=
  let recs := scored predictor df request (candidate_crops df) in
  {| resp_state := state request;
     recommendations := slice_to (sort_and_rank recs) (top_n request) |}.

(** ** Auxiliary notions used to state the properties *)

(** a recommendation with its rank reset to the 0 written by the loop *)
Definition unranked (rec : Recommendation) : Recommendation := set_rank (0%Z, rec).

(** The cost rule as the specification states it: the historical mean when
    the pair has data and the mean is at most the budget, 80% of the budget
    otherwise. *)
Definition cost_rule_as_specified : Prop :=
  forall (df : DataFrame) (request : RecommendationsRequest) (crop : string),
    let rows := select df crop (state request) in
    let mean := np_mean (map Cost rows) in
    (rows <> [] /\ mean <= budget request -> estimate_cost df request crop = mean) /\
    (rows = [] \/ budget request < mean ->
     estimate_cost df request crop = budget request * 0.8).

(** one Punjab record of [crop] with cultivation cost [cost] *)
Definition punjab_row (crop : string) (cost : R) : Row :=
  mkRow crop "Punjab" "Kharif" 2014 40 1000000 cost.

(** a dataset of three crops whose heuristic profitability indices are
    0.9 (Oilseeds), 2.0 (Rice) and 1.3 (Cotton) *)
Definition three_crops : DataFrame :=
  [ punjab_row "Oilseeds" 60000; punjab_row "Rice" 40000; punjab_row "Cotton" 60000 ].

(** a dataset with eleven distinct crops, "Tea" being the eleventh *)
Definition eleven_crops : DataFrame :=
  map (fun c => punjab_row c 40000)
      [ "Rice"; "Wheat"; "Cotton"; "Soybean"; "Sugarcane"; "Maize"; "Groundnut";
        "Pulses"; "Oilseeds"; "Jute"; "Tea" ]%string.

Definition punjab_request (budget : R) (top_n : option Z) : RecommendationsRequest :=
  {| state := "Punjab"; budget := budget; season := "Kharif"; top_n := top_n |}.

End Api.

(* ================================================================== *)
(** * Further notions used to state properties of the blending engine *)
(* ================================================================== *)

Module EnsembleNotions.
Import Ensemble.

(** [returns m x v]: model [m] is loaded, trained, and its prediction for
    [x] is [v] (no exception). *)
Definition returns (m : option Estimator) (x : Features) (v : R) : Prop :=
  exists e, m = Some e /\ is_trained e = true /\ predict e x = Some v.

(** a model whose [predict] raises on every input *)
Definition raising_model : Estimator :=
  {| is_trained := true; predict := fun _ => None |}.

(** a trained model that returns [v] on every input *)
Definition constant_model (v : R) : Estimator :=
  {| is_trained := true; predict := fun _ => Some v |}.

End EnsembleNotions.

Module TrendNotions.
Import Trend.

(** a backend whose Prophet fit succeeds and whose forecast frame ends with
    the rows of 2014, 2015 and 2016; ARIMA is unavailable *)
Definition prophet_backend : Backend :=
  {| prophet_fit := fun _ => true;
     prophet_forecast := fun _ _ =>
       Some [ mkProphetRow 2014 90 80 100;
              mkProphetRow 2015 100 90 110;
              mkProphetRow 2016 110 100 120 ];
     arima_fit := fun _ => false;
     arima_forecast := fun _ _ => None |}.

(** a two-year series ending in 2014 *)
Definition short_series : Series := [(2013%Z, 5); (2014%Z, 7)].

End TrendNotions.

Module RankNotions.
Import Data.

(** an entry of [compare_crops_profitability] that passes the two input
    checks of [calculate_profitability_index] (absent keys read as 0) *)
Definition valid_entry (cd : Profitability.CropData) : Prop :=
  0 < Profitability.get (Profitability.cd_cost cd) 0 /\
  0 <= Profitability.get (Profitability.cd_predicted_yield cd) 0.

(** [rec] has profitability index [k] *)
Definition has_index (k : R) (rec : Api.Recommendation) : bool :=
  if Req_EM_T (Api.profitability_index rec) k then true else false.

End RankNotions.

(* ================================================================== *)
(** * The [/profitability] endpoint *)
(* ================================================================== *)

Module Endpoints.

(** the outcome of an endpoint: the response body, or the
    [HTTPException(status_code=500, detail=...)] raised by its handler *)
Inductive http (A : Type) : Type :=
| Http200 (body : A)
| Http500 (detail : string).
Arguments Http200 {A} body.
Arguments Http500 {A} detail.

Record ProfitabilityRequest := mkProfitabilityRequest {
  crop : string;
  state : string;
  market_price : R;
  cost : R
}.

(** [calculate_profitability(request)] with the loaded predictor passed in:
    the yield is predicted for the default season "Kharif" and the year 2024,
    then the formula is applied to the requested price and cost.  The
    ['timestamp'] entry added to the body is left out. *)
Definition calculate_profitability (predictor : Ensemble.EnsembleYieldPredictor)
           (request : ProfitabilityRequest) : http Profitability.Metrics :=
  let yield_result :=
    Ensemble.predict_yield predictor (crop request) (state request)
                           "Kharif" 2024 (cost request) in
  let predicted_yield := Ensemble.predicted_yield yield_result in
  match Profitability.calculate_profitability_index
          predicted_yield (market_price request) (cost request)
          Profitability.default_unit with
  | Profitability.Ok profitability => Http200 profitability
  | Profitability.ValueError msg =>
      Http500 ("Profitability calculation error: " ++ msg)
  end.

End Endpoints.

(* ================================================================== *)
(** * Order selection: [ARIMAForecaster.find_optimal_order] *)
(* ================================================================== *)

Module ArimaOrder.
Import Data.

(** an ARIMA order (p, d, q) *)
Definition Order := (Z * Z * Z)%type.

(** The statsmodels calls made on the series at hand.  [adfuller_pvalue] is
    [adfuller(series.dropna())[1]], [None] when the test raises.  [fit_aic o]
    is [ARIMA(series, order=o).fit().aic], [None] when building or fitting
    the model raises.  An AIC that is NaN or infinite never passes the test
    [aic < best_aic] and so acts like a failed fit; it is covered by [None]. *)
Record Fitting := mkFitting {
  adfuller_pvalue : option R;
  fit_aic : Order -> option R
}.

(** [check_stationarity]: p-value <= 0.05 *)
Definition check_stationarity (F : Fitting) : option bool :=
  match adfuller_pvalue F with
  | Some pvalue => Some (if Rle_dec pvalue 0.05 then true else false)
  | None => None
  end.

(** [d_range = [0] if is_stationary else [1, 2]] *)
Definition d_range (is_stationary : bool) : list Z :=
  if is_stationary then [0%Z] else [1%Z; 2%Z].

(** the orders visited by the three nested loops, in order *)
Definition grid (max_p max_q : Z) (is_stationary : bool) : list Order :=
  flat_map (fun p =>
    flat_map (fun d =>
      map (fun q => (p, d, q)) (py_range 0 (max_q + 1)))
      (d_range is_stationary))
    (py_range 0 (max_p + 1)).

(** [aic < best_aic], [best_aic = None] being the initial [np.inf] *)
Definition improves (aic : R) (best_aic : option R) : bool :=
  match best_aic with
  | None => true
  | Some b => if Rlt_dec aic b then true else false
  end.

(** the body of the innermost loop on the state (best_aic, best_order) *)
Definition step (F : Fitting) (acc : option R * Order) (o : Order)
  : option R * Order :=
  match fit_aic F o with
  | Some aic => if improves aic (fst acc) then (Some aic, o) else acc
  | None => acc
  end.

(** [find_optimal_order(series, max_p, max_d, max_q)]; [None] when the
    stationarity test raises (it is outside the [try]).  The parameter
    [max_d] is not read by the function. *)
Definition find_optimal_order (F : Fitting) (max_p max_d max_q : Z) : option Order :=
  match check_stationarity F with
  | None => None
  | Some is_stationary =>
      Some (snd (fold_left (step F) (grid max_p max_q is_stationary)
                           (None, (1, 1, 1)%Z)))
  end.

(** the state of the search after the orders [done]: nothing fitted yet, or
    the best fitted order so far with its AIC *)
Definition search_state (F : Fitting) (done : list Order) (acc : option R * Order) : Prop :=
  (fst acc = None /\ snd acc = (1, 1, 1)%Z /\
   forall g, In g done -> fit_aic F g = None) \/
  (exists a, fst acc = Some a /\ In (snd acc) done /\ fit_aic F (snd acc) = Some a /\
             forall g ag, In g done -> fit_aic F g = Some ag -> a <= ag).

(** a series on which only the orders (0,1,0) and (2,1,1) can be fitted,
    with AIC 12 and 10, the stationarity test giving p-value 0.5 *)
Definition two_fits : Fitting :=
  {| adfuller_pvalue := Some 0.5;
     fit_aic := fun o =>
       match o with
       | (0, 1, 0)%Z => Some 12
       | (2, 1, 1)%Z => Some 10
       | _ => None
       end |}.

End ArimaOrder.

(* ================================================================== *)
(** * Categorical encoding: [FeatureEncoder] and [_prepare_input] *)
(* ================================================================== *)

Module Encoding.

(** ** scikit-learn's [LabelEncoder], by the content of [classes_] *)

(** insertion into the sorted list of distinct labels *)
Fixpoint insert_class (x : string) (classes : list string) : list string :=
  match classes with
  | [] => [x]
  | y :: t =>
      match String.compare x y with
      | Lt => x :: classes
      | Eq => classes
      | Gt => y :: insert_class x t
      end
  end.

(** [le.fit(values)]: [classes_ = np.unique(values)] *)
Definition le_fit (values : list string) : list string :=
  fold_right insert_class [] values.

(** the position of [v] in [classes_] *)
Fixpoint index_of (v : string) (classes : list string) : option Z :=
  match classes with
  | [] => None
  | c :: t =>
      if String.eqb c v then Some 0%Z
      else match index_of v t with
           | Some i => Some (i + 1)%Z
           | None => None
           end
  end.

(** [le.transform(values)]: [None] is the [ValueError] raised for a label
    that is not in [classes_] *)
Fixpoint le_transform (classes : list string) (values : list string)
  : option (list Z) :=
  match values with
  | [] => Some []
  | v :: t =>
      match index_of v classes, le_transform classes t with
      | Some i, Some codes => Some (i :: codes)
      | _, _ => None
      end
  end.

(** codes and labels that correspond through [classes_] *)
Definition decodes (classes : list string) (label : string) (code : Z) : Prop :=
  (0 <= code < Z.of_nat (length classes))%Z /\
  nth_error classes (Z.to_nat code) = Some label.

(** ** frames whose columns hold labels or integer codes *)

Inductive Cell :=
| Str (s : string)
| Code (z : Z).

(** [str(z)] for an integer *)
Definition str_of_int (z : Z) : string := NilZero.string_of_int (Z.to_int z).

(** [column.astype(str)] *)
Definition astype_str (column : list Cell) : list string :=
  map (fun c => match c with Str s => s | Code z => str_of_int z end) column.

(** a data frame: its columns in order, each with its name *)
Definition Frame := list (string * list Cell).

(** [name in d] for a dict or for [df.columns] *)
Definition has_key {V} (d : list (string * V)) (name : string) : bool :=
  existsb (fun kv => String.eqb (fst kv) name) d.

(** [d[name]], [None] when the key is absent *)
Fixpoint lookup {V} (d : list (string * V)) (name : string) : option V :=
  match d with
  | [] => None
  | (k, v) :: t => if String.eqb k name then Some v else lookup t name
  end.

(** [d[name] = v]: the entry is replaced in place, or appended *)
Fixpoint assign {V} (d : list (string * V)) (name : string) (v : V)
  : list (string * V) :=
  match d with
  | [] => [(name, v)]
  | (k, w) :: t =>
      if String.eqb k name then (k, v) :: t else (k, w) :: assign t name v
  end.

(** ** [FeatureEncoder] *)

Record FeatureEncoder := mkEncoder {
  label_encoders : list (string * list string);
  is_fitted : bool
}.

(** [FeatureEncoder()] *)
Definition new : FeatureEncoder := {| label_encoders := []; is_fitted := false |}.

(** the loop body of [fit] *)
Definition fit_step (df : Frame) (encoders : list (string * list string)) (col : string)
  : list (string * list string) :=
  match lookup df col with
  | Some column => assign encoders col (le_fit (astype_str column))
  | None => encoders
  end.

(** the loop body of [transform]; [None] once a [LabelEncoder] has raised *)
Definition transform_step (encoders : list (string * list string))
           (acc : option Frame) (col : string) : option Frame :=
  match acc with
  | None => None
  | Some df =>
      match lookup df col, lookup encoders col with
      | Some column, Some classes =>
          match le_transform classes (astype_str column) with
          | Some codes => Some (assign df col (map Code codes))
          | None => None
          end
      | _, _ => Some df
      end
  end.

(** [fit(df, categorical_cols)] *)
Definition fit (self : FeatureEncoder) (df : Frame) (categorical_cols : list string)
  : FeatureEncoder :=
  {| label_encoders := fold_left (fit_step df) categorical_cols (label_encoders self);
     is_fitted := true |}.

(** [transform(df, categorical_cols)]; [None] when a [LabelEncoder] raises *)
Definition transform (self : FeatureEncoder) (df : Frame) (categorical_cols : list string)
  : option Frame :=
  fold_left (transform_step (label_encoders self)) categorical_cols (Some df).

(** [fit_transform(df, categorical_cols)]: the fitted encoder and the frame *)
Definition fit_transform (self : FeatureEncoder) (df : Frame)
           (categorical_cols : list string) : FeatureEncoder * option Frame :=
  let self := fit self df categorical_cols in
  (self, transform self df categorical_cols).

(** a frame with a label column and a numeric-code column *)
Definition sample_frame : Frame :=
  [ ("Crop"%string, [Str "Wheat"; Str "Rice"; Str "Wheat"]);
    ("Zone"%string, [Code 2; Code 0; Code 2]) ].

(** ** [EnsembleYieldPredictor._prepare_input] *)

(** a value of the one-row input frame *)
Inductive Value :=
| VStr (s : string)
| VInt (z : Z)
| VFloat (r : R).

(** the one-row frame: its columns in order *)
Definition InputRow := list (string * Value).

(** What [_prepare_input] reads from [self].  [rf_feature_names] is [None]
    when [rf_model] is [None], [Some None] when the loaded model has
    [feature_names = None], [Some (Some l)] otherwise.  [hash_str v] stands
    for [hash(str(v))], which Python salts per process. *)
Record InputContext := mkContext {
  rf_feature_names : option (option (list string));
  encoder : option FeatureEncoder;
  hash_str : Value -> Z
}.

Definition default_features : list string :=
  [ "Crop"; "Variety"; "State"; "Season"; "Year"; "Cost";
    "Year_Squared"; "Cost_per_Unit"; "Production_per_Cost" ]%string.

(** [expected_features]; [None] inside is a [feature_names] that is [None] *)
Definition expected_features (ctx : InputContext) : option (list string) :=
  match rf_feature_names ctx with
  | Some names => names
  | None => Some default_features
  end.

(** the frame built at lines 158-167 *)
Definition base_row (crop state season : string) (year : Z) (cost : R) : InputRow :=
  [ ("Crop"%string, VStr crop);
    ("State"%string, VStr state);
    ("Season"%string, VStr season);
    ("Year"%string, VInt year);
    ("Cost"%string, VFloat cost);
    ("Year_Squared"%string, VInt (year ^ 2));
    ("Cost_per_Unit"%string, VFloat (cost / 1000));
    ("Production_per_Cost"%string, VFloat 0.1) ].

(** the loop of lines 170-175 *)
Definition add_missing (expected : list string) (input_data : InputRow) : InputRow :=
  fold_left (fun input_data feat =>
               if has_key input_data feat then input_data
               else assign input_data feat
                           (if String.eqb feat "Variety" then VStr "Standard"
                            else VInt 0))
            expected input_data.

(** the condition of line 192 for column [col] *)
Definition label_known (col crop state season : string) (classes : list string) : bool :=
  if String.eqb col "Crop" then existsb (String.eqb crop) classes
  else if String.eqb col "State" then existsb (String.eqb state) classes
  else if String.eqb col "Season" then existsb (String.eqb season) classes
  else true.

(** [le.transform([v])[0]]; [None] when it raises *)
Definition transform_one (classes : list string) (v : Value) : option Z :=
  match v with
  | VStr s => index_of s classes
  | _ => None
  end.

(** the code written for column [col] (lines 188-201) *)
Definition encode_column (ctx : InputContext) (enc : FeatureEncoder)
           (crop state season : string) (col : string) (v : Value) : Value :=
  match lookup (label_encoders enc) col with
  | Some classes =>
      if label_known col crop state season classes then
        match transform_one classes v with
        | Some code => VInt code
        | None => VInt 0
        end
      else VInt 0
  | None => VInt (hash_str ctx v mod 1000)
  end.

(** lines 178-203 *)
Definition encode_row (ctx : InputContext) (crop state season : string)
           (input_data : InputRow) : InputRow :=
  match encoder ctx with
  | Some enc =>
      if is_fitted enc then
        let categorical_cols :=
          filter (has_key input_data) ["Crop"; "State"; "Season"; "Variety"]%string in
        fold_left (fun input_encoded col =>
                     match lookup input_data col with
                     | Some v =>
                         assign input_encoded col
                                (encode_column ctx enc crop state season col v)
                     | None => input_encoded
                     end)
                  categorical_cols input_data
      else input_data
  | None => input_data
  end.

(** [input_data[available_features]] (lines 206-207) *)
Definition select_features (expected : list string) (input_data : InputRow) : InputRow :=
  flat_map (fun f => match lookup input_data f with
                     | Some v => [(f, v)]
                     | None => []
                     end)
           expected.

(** [_prepare_input(crop, state, season, year, cost)]; [None] is the
    [TypeError] raised when [feature_names] is [None] *)
Definition _prepare_input (ctx : InputContext) (crop state season : string)
           (year : Z) (cost : R) : option InputRow :=
  match expected_features ctx with
  | None => None
  | Some expected =>
      let input_data := add_missing expected (base_row crop state season year cost) in
      let input_data := encode_row ctx crop state season input_data in
      Some (select_features expected input_data)
  end.

(** the code [_prepare_input] is to write for the label [label] of the
    categorical column [col]: the label itself without a fitted encoder; with
    one, the position of the label in the column's [classes_] (0 for a label
    that is not there), or the reduced hash when the column has no
    [LabelEncoder] *)
Definition code_of (ctx : InputContext) (col label : string) : Value :=
  match encoder ctx with
  | Some enc =>
      if is_fitted enc then
        match lookup (label_encoders enc) col with
        | Some classes =>
            VInt (match index_of label classes with Some i => i | None => 0%Z end)
        | None => VInt (hash_str ctx (VStr label) mod 1000)
        end
      else VStr label
  | None => VStr label
  end.

(** a context with the default features and an encoder fitted on the crops
    Rice and Wheat only *)
Definition sample_context : InputContext :=
  {| rf_feature_names := None;
     encoder := Some {| label_encoders := [("Crop"%string, ["Rice"; "Wheat"]%string)];
                        is_fitted := true |};
     hash_str := fun _ => 1234567%Z |}.

End Encoding.

(* ================================================================== *)
(** * Cluster-count selection: [ProductivityZoneClusterer.find_optimal_clusters] *)
(* ================================================================== *)

Module Clustering.
Import Data.

(** [np.argmax(l)] with the maximum: the first position of the largest
    element; [None] is the [ValueError] raised on an empty sequence *)
Fixpoint np_argmax (l : list R) : option (nat * R) :=
  match l with
  | [] => None
  | x :: t =>
      match np_argmax t with
      | None => Some (0%nat, x)
      | Some (i, m) => if Rlt_dec x m then Some (S i, m) else Some (0%nat, x)
      end
  end.

(** the loop of lines 49-53: the silhouette score of each k of the range;
    [silhouette k] is [silhouette_score(X, KMeans(k).fit_predict(X))],
    [None] when scikit-learn raises, which ends the function *)
Fixpoint silhouette_scores (silhouette : Z -> option R) (k_range : list Z)
  : option (list R) :=
  match k_range with
  | [] => Some []
  | k :: t =>
      match silhouette k, silhouette_scores silhouette t with
      | Some sc, Some scores => Some (sc :: scores)
      | _, _ => None
      end
  end.

(** [find_optimal_clusters(X, max_clusters)] for an array [X] of [n] rows *)
Definition find_optimal_clusters (silhouette : Z -> option R) (n : Z) (max_clusters : Z)
  : option Z :=
  let k_range := py_range 2 (Z.min (max_clusters + 1) n) in
  match silhouette_scores silhouette k_range with
  | None => None
  | Some scores =>
      match np_argmax scores with
      | None => None
      | Some (i, _) => nth_error k_range i
      end
  end.

(** scores that peak at k = 3, being 0.3, 0.6, 0.6, 0.2, ... *)
Definition peaked (k : Z) : option R :=
  if (k =? 2)%Z then Some 0.3
  else if (k =? 3)%Z then Some 0.6
  else if (k =? 4)%Z then Some 0.6
  else Some 0.2.

End Clustering.

(* ================================================================== *)
(** * Facts about the blending engine *)
(* ================================================================== *)

Module EnsembleFacts.
Import Ensemble.

(** ** numpy helpers *)

Lemma np_std_nonneg l : 0 <= np_std l.
Proof. unfold np_std. apply sqrt_pos. Qed.

Lemma np_std_pair a b : np_std [a; b] = Rabs (a - b) / 2.
Proof.
  unfold np_std, np_mean; simpl.
  replace ((Rsqr (a - (a + (b + 0)) / (1 + 1)) +
            (Rsqr (b - (a + (b + 0)) / (1 + 1)) + 0)) / (1 + 1))
    with (Rsqr ((a - b) / 2)) by (unfold Rsqr; field).
  rewrite sqrt_Rsqr_abs.
  unfold Rdiv. rewrite Rabs_mult.
  f_equal. apply Rabs_pos_eq. lra.
Qed.

Example np_std_0_2 : np_std [0; 2] = 1.
Proof.
  rewrite np_std_pair. replace (0 - 2) with (- (2)) by lra.
  rewrite Rabs_Ropp, Rabs_pos_eq; lra.
Qed.

(** ** which models contribute *)

Lemma try_model_skip m name x acc :
  contributes m x = false -> try_model m name x acc = acc.
Proof.
  unfold contributes, try_model.
  destruct m as [e|]; auto.
  destruct (is_trained e); auto.
  destruct (predict e x); simpl; auto; discriminate.
Qed.

Lemma try_model_cases m name x acc :
  try_model m name x acc = acc \/
  exists p, try_model m name x acc = (fst acc ++ [p], snd acc ++ [name]).
Proof.
  unfold try_model.
  destruct m as [e|]; auto.
  destruct (is_trained e); auto.
  destruct (predict e x) as [p|]; eauto.
Qed.

Lemma contributions_shape self x : shape (contributions self x).
Proof.
  unfold contributions.
  destruct (try_model_cases (rf_model self) "random_forest" x ([], [])) as [E1|[a E1]];
    rewrite E1;
    destruct (try_model_cases (xgb_model self) "xgboost" x
                (try_model (rf_model self) "random_forest" x ([], []))) as [E2|[b E2]];
    rewrite E1 in E2; rewrite E2; simpl; constructor.
Qed.

Lemma contributions_none self x :
  contributes (rf_model self) x = false ->
  contributes (xgb_model self) x = false ->
  contributions self x = ([], []).
Proof.
  intros H1 H2. unfold contributions.
  now rewrite (try_model_skip _ _ _ _ H1), (try_model_skip _ _ _ _ H2).
Qed.

(** ** the blended value in each case *)

Lemma ensemble_pred_heuristic v : ensemble_pred [v] ["heuristic"%string] = v.
Proof.
  unfold ensemble_pred, blend_weights, np_average; simpl. field; lra.
Qed.

Lemma ensemble_pred_rf a : ensemble_pred [a] ["random_forest"%string] = a.
Proof.
  unfold ensemble_pred, blend_weights, np_average; simpl. field; lra.
Qed.

Lemma ensemble_pred_xgb b : ensemble_pred [b] ["xgboost"%string] = b.
Proof.
  unfold ensemble_pred, blend_weights, np_average; simpl. field; lra.
Qed.

Lemma ensemble_pred_both a b :
  ensemble_pred [a; b] ["random_forest"%string; "xgboost"%string] = (a + b) / 2.
Proof.
  unfold ensemble_pred, blend_weights, np_average; simpl. field; lra.
Qed.

Lemma base_yield_pos crop : 0 < base_yield crop.
Proof.
  unfold base_yield, base_yield_table, dict_get.
  repeat match goal with
         | |- context [String.eqb ?k crop] => destruct (String.eqb k crop)
         end; lra.
Qed.

(** ** the result of [predict_yield] in each case *)

Lemma std_pred_single v name : std_pred [v] [name] = ensemble_pred [v] [name] * 0.1.
Proof. reflexivity. Qed.

Lemma std_pred_both a b n1 n2 : std_pred [a; b] [n1; n2] = np_std [a; b].
Proof. reflexivity. Qed.

Lemma predict_yield_blend self crop state season year cost :
  predict_yield self crop state season year cost =
  blend (fst (with_fallback crop (contributions self (mkFeatures crop state season year cost))))
        (snd (with_fallback crop (contributions self (mkFeatures crop state season year cost)))).
Proof.
  unfold predict_yield, blend.
  destruct (with_fallback crop _) as [predictions names]. reflexivity.
Qed.

Lemma Rmax_0_nonneg x : 0 <= x -> Rmax 0 x = x.
Proof. intros H. apply Rmax_right. exact H. Qed.

Lemma predict_yield_value_no_contribution self crop state season year cost :
  contributes (rf_model self) (mkFeatures crop state season year cost) = false ->
  contributes (xgb_model self) (mkFeatures crop state season year cost) = false ->
  predicted_yield (predict_yield self crop state season year cost) = base_yield crop.
Proof.
  intros Hrf Hxgb.
  rewrite predict_yield_blend, (contributions_none _ _ Hrf Hxgb).
  unfold with_fallback; simpl fst; simpl snd; simpl Nat.eqb; cbv iota.
  unfold blend. cbn [predicted_yield]. rewrite ensemble_pred_heuristic.
  pose proof (base_yield_pos crop). apply Rmax_0_nonneg. lra.
Qed.

(** C2. When neither Random Forest nor XGBoost contributes a value,
    [predict_yield] (a total function: nothing is raised) returns the entry
    of the fixed crop table, or 20 for a crop outside the table, under the
    model name "heuristic", with the interval value -/+ 1.96 * (0.1 * value);
    the result satisfies 0 <= lower <= value <= upper. *)
Theorem predict_yield_heuristic_fallback
        (self : EnsembleYieldPredictor) (crop state season : string)
        (year : Z) (cost : R) :
  contributes (rf_model self) (mkFeatures crop state season year cost) = false ->
  contributes (xgb_model self) (mkFeatures crop state season year cost) = false ->
  let r := predict_yield self crop state season year cost in
  predicted_yield r = dict_get base_yield_table crop 20 /\
  model_names r = ["heuristic"%string] /\
  model_used r = "Ensemble (heuristic)"%string /\
  individual_predictions r = [("heuristic"%string, predicted_yield r)] /\
  lower r = predicted_yield r - 1.96 * (0.1 * predicted_yield r) /\
  upper r = predicted_yield r + 1.96 * (0.1 * predicted_yield r) /\
  0 <= lower r <= predicted_yield r /\
  predicted_yield r <= upper r.
Proof.
  intros Hrf Hxgb r. subst r.
  rewrite predict_yield_blend, (contributions_none _ _ Hrf Hxgb).
  unfold with_fallback; simpl fst; simpl snd; simpl Nat.eqb; cbv iota.
  unfold blend. rewrite std_pred_single, ensemble_pred_heuristic.
  pose proof (base_yield_pos crop) as Hpos. fold (base_yield crop).
  cbn [predicted_yield lower upper model_names model_used individual_predictions].
  rewrite !Rmax_0_nonneg by lra.
  repeat split; try reflexivity; lra.
Qed.

(** With no model loaded, Rice is given the table value 40. *)
Lemma predict_yield_heuristic_fallback_witness :
  let r := predict_yield no_models "Rice" "Punjab" "Kharif" 2024 80000 in
  predicted_yield r = 40 /\ model_names r = ["heuristic"%string] /\
  0 <= lower r <= predicted_yield r /\ predicted_yield r <= upper r.
Proof.
  pose proof (predict_yield_heuristic_fallback
                no_models "Rice" "Punjab" "Kharif" 2024 80000
                eq_refl eq_refl) as H.
  cbv zeta in *.
  destruct H as (Hv & Hn & _ & _ & _ & _ & Hl & Hu).
  repeat split; try assumption; try apply Hl.
Defined.

(** ** the interval when every contributing prediction is non-negative *)

Lemma blend_interval_single v name :
  0 <= ensemble_pred [v] [name] ->
  let r := blend [v] [name] in
  predicted_yield r = ensemble_pred [v] [name] /\
  lower r = predicted_yield r - 1.96 * (0.1 * predicted_yield r) /\
  upper r = predicted_yield r + 1.96 * (0.1 * predicted_yield r).
Proof.
  intros He r. subst r. unfold blend.
  cbn [predicted_yield lower upper]. rewrite std_pred_single.
  rewrite !Rmax_0_nonneg by lra. repeat split; lra.
Qed.

Lemma blend_interval_both a b :
  0 <= a -> 0 <= b ->
  let r := blend [a; b] ["random_forest"%string; "xgboost"%string] in
  predicted_yield r = (a + b) / 2 /\
  lower r = Rmax 0 (predicted_yield r - 1.96 * np_std [a; b]) /\
  upper r = predicted_yield r + 1.96 * np_std [a; b].
Proof.
  intros Ha Hb r. subst r. unfold blend.
  cbn [predicted_yield lower upper]. rewrite std_pred_both, ensemble_pred_both.
  rewrite (Rmax_0_nonneg ((a + b) / 2)) by lra. repeat split; reflexivity.
Qed.

(** When every contributing prediction is non-negative the result of
    [predict_yield] satisfies 0 <= lower <= value <= upper. *)
Lemma predict_yield_invariant_nonneg
      (self : EnsembleYieldPredictor) (crop state season : string)
      (year : Z) (cost : R) :
  Forall (fun p => 0 <= p)
         (fst (contributions self (mkFeatures crop state season year cost))) ->
  let r := predict_yield self crop state season year cost in
  0 <= lower r <= predicted_yield r /\ predicted_yield r <= upper r.
Proof.
  intros Hall r. subst r. rewrite predict_yield_blend.
  destruct (contributions_shape self (mkFeatures crop state season year cost))
    as [|a|b|a b]; unfold with_fallback; simpl fst in *; simpl snd; simpl Nat.eqb; cbv iota.
  - pose proof (base_yield_pos crop) as Hpos.
    destruct (blend_interval_single (base_yield crop) "heuristic") as (Hv & Hl & Hu).
    { rewrite ensemble_pred_heuristic; lra. }
    rewrite ensemble_pred_heuristic in Hv. rewrite Hl, Hu, Hv. lra.
  - inversion Hall as [|? ? Ha _]; subst.
    destruct (blend_interval_single a "random_forest") as (Hv & Hl & Hu).
    { rewrite ensemble_pred_rf; lra. }
    rewrite ensemble_pred_rf in Hv. rewrite Hl, Hu, Hv. lra.
  - inversion Hall as [|? ? Hb _]; subst.
    destruct (blend_interval_single b "xgboost") as (Hv & Hl & Hu).
    { rewrite ensemble_pred_xgb; lra. }
    rewrite ensemble_pred_xgb in Hv. rewrite Hl, Hu, Hv. lra.
  - inversion Hall as [|? ? Ha Hall']; subst.
    inversion Hall' as [|? ? Hb _]; subst.
    destruct (blend_interval_both a b Ha Hb) as (Hv & Hl & Hu).
    pose proof (np_std_nonneg [a; b]) as Hs.
    rewrite Hl, Hu, Hv. split; [split|].
    + apply Rmax_l.
    + apply Rmax_lub; lra.
    + lra.
Qed.

(** C1. With Random Forest absent and XGBoost returning -1.0, the blended
    value -1.0 is floored to 0 in [predicted_yield] and in [lower], but
    [upper] is left at -1.0 + 1.96 * (-0.1) = -1.196: the returned interval
    lies below the returned value, so value <= upper does not hold. *)
Theorem predict_yield_negative_prediction_upper_below_value :
  let r := predict_yield (xgb_only (-1)) "Rice" "Punjab" "Kharif" 2024 80000 in
  predicted_yield r = 0 /\ lower r = 0 /\ upper r = - 1.196 /\
  ~ (predicted_yield r <= upper r).
Proof.
  cbv zeta. rewrite predict_yield_blend.
  change (contributions (xgb_only (-1)) (mkFeatures "Rice" "Punjab" "Kharif" 2024 80000))
    with ([-1], ["xgboost"%string]).
  unfold with_fallback; simpl fst; simpl snd; simpl Nat.eqb; cbv iota.
  unfold blend. cbn [predicted_yield lower upper].
  rewrite std_pred_single, ensemble_pred_xgb.
  rewrite !Rmax_left by lra.
  repeat split; lra.
Qed.

(** C4 (as stated) fails: with Random Forest returning 0 and XGBoost
    returning 2 the code reports upper = 1 + 1.96 * 1, the population
    standard deviation of [0; 2] being 1, while the sample standard
    deviation is sqrt 2. *)
Lemma interval_rule_as_specified_fails : ~ interval_rule_as_specified.
Proof.
  intros H.
  destruct (H (two_models 0 2) "Rice"%string "Punjab"%string "Kharif"%string
              2024%Z 80000) as [H2 _].
  cbv zeta in H2.
  change (contributions (two_models 0 2) (mkFeatures "Rice" "Punjab" "Kharif" 2024 80000))
    with ([0; 2], ["random_forest"%string; "xgboost"%string]) in H2.
  destruct (H2 (le_n 2)) as [_ Hu]. clear H H2.
  rewrite predict_yield_blend in Hu.
  change (contributions (two_models 0 2) (mkFeatures "Rice" "Punjab" "Kharif" 2024 80000))
    with ([0; 2], ["random_forest"%string; "xgboost"%string]) in Hu.
  unfold with_fallback in Hu; simpl fst in Hu; simpl snd in Hu; simpl Nat.eqb in Hu;
    cbv iota in Hu.
  destruct (blend_interval_both 0 2) as (Hv & _ & Hu'); try lra.
  rewrite Hu', Hv, np_std_0_2 in Hu.
  assert (Hs : sample_std [0; 2] = sqrt 2).
  { unfold sample_std, np_mean. simpl. f_equal. unfold Rsqr. field. }
  rewrite Hs in Hu.
  assert (Hone : sqrt 2 = 1) by lra.
  pose proof (sqrt_sqrt 2) as Hsq. rewrite Hone in Hsq. lra.
Qed.

(** C4 (amended). When every contributing prediction is non-negative:
    with two contributing models the interval is value -/+ 1.96 times the
    population standard deviation [np.std] (divisor n) of the contributing
    values, the lower bound floored at 0; with one contributing model or the
    heuristic fallback it is value -/+ 1.96 * (0.1 * value). *)
Theorem predict_yield_interval_rule
        (self : EnsembleYieldPredictor) (crop state season : string)
        (year : Z) (cost : R) :
  let contributing := fst (contributions self (mkFeatures crop state season year cost)) in
  Forall (fun p => 0 <= p) contributing ->
  let r := predict_yield self crop state season year cost in
  ((2 <= length contributing)%nat ->
   lower r = Rmax 0 (predicted_yield r - 1.96 * np_std contributing) /\
   upper r = predicted_yield r + 1.96 * np_std contributing) /\
  ((length contributing < 2)%nat ->
   lower r = predicted_yield r - 1.96 * (0.1 * predicted_yield r) /\
   upper r = predicted_yield r + 1.96 * (0.1 * predicted_yield r)).
Proof.
  intros contributing Hall r. subst r contributing. rewrite predict_yield_blend.
  destruct (contributions_shape self (mkFeatures crop state season year cost))
    as [|a|b|a b]; unfold with_fallback; simpl fst in *; simpl snd; simpl Nat.eqb;
    cbv iota; simpl length.
  - split; [lia|intros _].
    pose proof (base_yield_pos crop) as Hpos.
    apply blend_interval_single. rewrite ensemble_pred_heuristic; lra.
  - split; [lia|intros _].
    inversion Hall as [|? ? Ha _]; subst.
    apply blend_interval_single. rewrite ensemble_pred_rf; lra.
  - split; [lia|intros _].
    inversion Hall as [|? ? Hb _]; subst.
    apply blend_interval_single. rewrite ensemble_pred_xgb; lra.
  - split; [intros _|lia].
    inversion Hall as [|? ? Ha Hall']; subst.
    inversion Hall' as [|? ? Hb _]; subst.
    apply blend_interval_both; assumption.
Qed.

(** Random Forest 30 and XGBoost 50: the interval around the blend uses the
    population standard deviation of [30; 50]. *)
Lemma predict_yield_interval_rule_witness :
  let r := predict_yield (two_models 30 50) "Rice" "Punjab" "Kharif" 2024 80000 in
  lower r = Rmax 0 (predicted_yield r - 1.96 * np_std [30; 50]) /\
  upper r = predicted_yield r + 1.96 * np_std [30; 50].
Proof.
  assert (Hall : Forall (fun p => 0 <= p) [30; 50]).
  { repeat constructor; lra. }
  exact (proj1 (predict_yield_interval_rule
                  (two_models 30 50) "Rice" "Punjab" "Kharif" 2024 80000 Hall)
               (le_n 2)).
Defined.

End EnsembleFacts.

(* ================================================================== *)
(** * Facts about the forecast fallback chain *)
(* ================================================================== *)

Module TrendFacts.
Import Data Trend.

Lemma In_py_range a b y : In y (py_range a b) <-> (a <= y < b)%Z.
Proof.
  unfold py_range. rewrite in_map_iff. split.
  - intros (i & <- & Hi). apply in_seq in Hi. lia.
  - intros H. exists (Z.to_nat (y - a)). split; [lia|]. apply in_seq. lia.
Qed.

Lemma prophet_attempt_points B s a b :
  match prophet_attempt B s a b with
  | Some r => forecast r = prophet_points B s a b /\ prophet_points B s a b <> []
              /\ model_used r = "Prophet"%string
  | None => prophet_points B s a b = []
  end.
Proof.
  unfold prophet_attempt, prophet_points.
  destruct (Prophet.train B Prophet.new s) as [m|]; [|reflexivity].
  destruct (Prophet.predict B m s a b) as [[|p ps]|]; try reflexivity.
  simpl. repeat split. discriminate.
Qed.

Lemma arima_attempt_points B s a b :
  match arima_attempt B s a b with
  | Some r => forecast r = arima_points B s a b /\ arima_points B s a b <> []
              /\ model_used r = "ARIMA"%string
  | None => arima_points B s a b = []
  end.
Proof.
  unfold arima_attempt, arima_points.
  destruct (Arima.train B Arima.new s) as [m|]; [|reflexivity].
  destruct (Arima.predict B m s a b) as [[|p ps]|]; try reflexivity.
  simpl. repeat split. discriminate.
Qed.

Lemma avg_production_cases df crop state :
  (select df crop state <> [] ->
   avg_production df crop state = Some (np_mean (map Production (select df crop state)))) /\
  (select df crop state = [] ->
   avg_production df crop state = series_mean (map Production df)).
Proof.
  unfold avg_production, series_mean. split.
  - destruct (select df crop state); [congruence|reflexivity].
  - intros ->. reflexivity.
Qed.

Lemma linear_extrapolation_flat df crop state a b :
  let r := linear_extrapolation df crop state a b in
  forecast r = map (flat_point (avg_production df crop state)) (py_range a (b + 1)) /\
  trend r = "stable"%string /\ model_used r = "Linear Extrapolation"%string.
Proof. repeat split. Qed.

(** ** the order of the attempts *)

Lemma trends_prophet_first B crop state a b df s :
  prepare_time_series df crop state = Some s ->
  prophet_points B s a b <> [] ->
  let r := predict_production_trends B crop state a b df in
  forecast r = prophet_points B s a b /\ model_used r = "Prophet"%string.
Proof.
  intros Hs Hp r. subst r. unfold predict_production_trends. rewrite Hs.
  pose proof (prophet_attempt_points B s a b) as H.
  destruct (prophet_attempt B s a b) as [rp|]; [|contradiction].
  destruct H as (Hf & _ & Hm). split; assumption.
Qed.

Lemma trends_arima_second B crop state a b df s :
  prepare_time_series df crop state = Some s ->
  prophet_points B s a b = [] ->
  arima_points B s a b <> [] ->
  let r := predict_production_trends B crop state a b df in
  forecast r = arima_points B s a b /\ model_used r = "ARIMA"%string.
Proof.
  intros Hs Hp Ha r. subst r. unfold predict_production_trends. rewrite Hs.
  pose proof (prophet_attempt_points B s a b) as H.
  destruct (prophet_attempt B s a b) as [rp|]; [destruct H as (_ & H & _); contradiction|].
  clear H. pose proof (arima_attempt_points B s a b) as H.
  destruct (arima_attempt B s a b) as [ra|]; [|contradiction].
  destruct H as (Hf & _ & Hm). split; assumption.
Qed.

Lemma trends_linear_last B crop state a b df s :
  prepare_time_series df crop state = Some s ->
  prophet_points B s a b = [] ->
  arima_points B s a b = [] ->
  predict_production_trends B crop state a b df = linear_extrapolation df crop state a b.
Proof.
  intros Hs Hp Ha. unfold predict_production_trends. rewrite Hs.
  pose proof (prophet_attempt_points B s a b) as H.
  destruct (prophet_attempt B s a b) as [rp|]; [destruct H as (_ & H & _); contradiction|].
  clear H. pose proof (arima_attempt_points B s a b) as H.
  destruct (arima_attempt B s a b) as [ra|]; [destruct H as (_ & H & _); contradiction|].
  reflexivity.
Qed.

Lemma trends_linear_no_series B crop state a b df :
  prepare_time_series df crop state = None ->
  predict_production_trends B crop state a b df = linear_extrapolation df crop state a b.
Proof. intros Hs. unfold predict_production_trends. now rewrite Hs. Qed.

(** C3 (amended). [predict_production_trends] is a total function (no error
    of an attempt reaches the caller).  On the series of the pair it returns
    the Prophet points when Prophet produced any; otherwise the ARIMA points
    when ARIMA produced any; otherwise, and also when the pair has no
    series, the linear extrapolation: one point for every year of
    start_year..end_year, each carrying the same value, with trend "stable"
    and model "Linear Extrapolation".  The value is the mean Production over
    the records of the pair, each record counted once (not the mean of the
    yearly values of the series); it is the mean over the whole dataset when
    the pair has no record. *)
Theorem forecast_fallback_chain
        (B : Backend) (crop state : string) (start_year end_year : Z) (df : DataFrame) :
  let r := predict_production_trends B crop state start_year end_year df in
  let l := linear_extrapolation df crop state start_year end_year in
  let avg := avg_production df crop state in
  (forall s, prepare_time_series df crop state = Some s ->
     (prophet_points B s start_year end_year <> [] ->
      forecast r = prophet_points B s start_year end_year /\
      model_used r = "Prophet"%string) /\
     (prophet_points B s start_year end_year = [] ->
      arima_points B s start_year end_year <> [] ->
      forecast r = arima_points B s start_year end_year /\
      model_used r = "ARIMA"%string) /\
     (prophet_points B s start_year end_year = [] ->
      arima_points B s start_year end_year = [] -> r = l)) /\
  (prepare_time_series df crop state = None -> r = l) /\
  (model_used l = "Linear Extrapolation"%string /\ trend l = "stable"%string /\
   forecast l = map (flat_point avg) (py_range start_year (end_year + 1)) /\
   (forall y, (start_year <= y <= end_year)%Z -> In (flat_point avg y) (forecast l)) /\
   (forall p, In p (forecast l) ->
              predicted_production p = avg /\ (start_year <= year p <= end_year)%Z)) /\
  (select df crop state <> [] ->
   avg = Some (np_mean (map Production (select df crop state)))) /\
  (select df crop state = [] -> avg = series_mean (map Production df)).
Proof.
  intros r l avg. subst r l avg. repeat split.
  - apply (trends_prophet_first B crop state start_year end_year df s); assumption.
  - apply (trends_prophet_first B crop state start_year end_year df s); assumption.
  - apply (trends_arima_second B crop state start_year end_year df s); assumption.
  - apply (trends_arima_second B crop state start_year end_year df s); assumption.
  - intros Hp Ha. apply (trends_linear_last B crop state start_year end_year df s); assumption.
  - apply trends_linear_no_series.
  - intros y Hy. cbn [forecast linear_extrapolation]. apply in_map_iff.
    exists y. split; [reflexivity|]. apply In_py_range. lia.
  - cbn [forecast linear_extrapolation] in H. apply in_map_iff in H.
    destruct H as (y & <- & _). reflexivity.
  - cbn [forecast linear_extrapolation] in H. apply in_map_iff in H.
    destruct H as (y & <- & Hy). apply In_py_range in Hy. cbn [year]. lia.
  - cbn [forecast linear_extrapolation] in H. apply in_map_iff in H.
    destruct H as (y & <- & Hy). apply In_py_range in Hy. cbn [year]. lia.
  - apply avg_production_cases.
  - apply avg_production_cases.
Qed.

(** ** concrete datasets *)

Lemma rice_punjab_series a b :
  (a <= b)%Z ->
  exists s, prepare_time_series (rice_punjab a b) "Rice" "Punjab" = Some s.
Proof.
  intros Hab. unfold prepare_time_series.
  destruct (length (select (rice_punjab a b) "Rice" "Punjab") =? 0)%nat eqn:E;
    [|eexists; reflexivity].
  exfalso. apply Nat.eqb_eq in E. apply length_zero_iff_nil in E.
  assert (Hin : In (mkRow "Rice" "Punjab" "Kharif" a 40 1000000 50000)
                   (select (rice_punjab a b) "Rice" "Punjab")).
  { unfold select. apply filter_In. split; [|reflexivity].
    unfold rice_punjab. apply in_map_iff. exists a. split; [reflexivity|].
    apply In_py_range. lia. }
  rewrite E in Hin. exact Hin.
Qed.

Lemma rice_punjab_2013_2014 :
  exists s, prepare_time_series (rice_punjab 2013 2014) "Rice" "Punjab" = Some s /\
            last_index s = Some 2014%Z.
Proof. eexists. split; reflexivity. Qed.

Lemma failing_backend_points s a b :
  prophet_points failing_backend s a b = [] /\ arima_points failing_backend s a b = [].
Proof. split; reflexivity. Qed.

(** The scenario of a 2001-2014 history with mean production 1,000,000 and
    every trend model disabled: the forecast for 2015-2017 has three points
    of value 1,000,000, trend "stable", model "Linear Extrapolation". *)
Lemma linear_extrapolation_scenario :
  let r := predict_production_trends failing_backend "Rice" "Punjab" 2015 2017
                                     (rice_punjab 2001 2014) in
  forecast r = [flat_point (Some 1000000) 2015; flat_point (Some 1000000) 2016;
                flat_point (Some 1000000) 2017] /\
  trend r = "stable"%string /\ model_used r = "Linear Extrapolation"%string.
Proof.
  cbv zeta.
  destruct (rice_punjab_series 2001 2014) as (s & Es); [lia|].
  rewrite (trends_linear_last failing_backend "Rice" "Punjab" 2015 2017 _ s Es
                              eq_refl eq_refl).
  destruct (linear_extrapolation_flat (rice_punjab 2001 2014) "Rice" "Punjab" 2015 2017)
    as (Hf & Ht & Hm).
  rewrite Hf, Ht, Hm.
  rewrite (proj1 (avg_production_cases (rice_punjab 2001 2014) "Rice" "Punjab"))
    by discriminate.
  assert (Hmean : np_mean (map Production (select (rice_punjab 2001 2014) "Rice" "Punjab"))
                  = 1000000).
  { unfold np_mean. simpl. lra. }
  rewrite Hmean. repeat split.
Qed.

(** ** the flat value on records that are unevenly spread over the years *)

Lemma uneven_years_series :
  prepare_time_series uneven_years "Rice" "Punjab" =
  Some [(2013%Z, np_mean [100; 200]); (2014%Z, np_mean [600])].
Proof. reflexivity. Qed.

Lemma uneven_years_avg :
  avg_production uneven_years "Rice" "Punjab" = Some 300.
Proof.
  change (avg_production uneven_years "Rice" "Punjab")
    with (Some (np_mean [100; 200; 600])).
  f_equal. unfold np_mean. simpl. lra.
Qed.

Lemma uneven_years_series_mean :
  np_mean (map snd [(2013%Z, np_mean [100; 200]); (2014%Z, np_mean [600])]) = 375.
Proof. unfold np_mean. simpl. lra. Qed.

(** The 2013 records 100 and 200 and the 2014 record 600, every trend model
    disabled: the forecast for 2015-2016 has two points of value 300, the
    mean of the three records (the yearly values 150 and 600 have mean
    375). *)
Lemma forecast_fallback_chain_witness :
  let r := predict_production_trends failing_backend "Rice" "Punjab" 2015 2016
                                     uneven_years in
  forecast r = [flat_point (Some 300) 2015; flat_point (Some 300) 2016] /\
  trend r = "stable"%string /\ model_used r = "Linear Extrapolation"%string.
Proof.
  pose proof (forecast_fallback_chain failing_backend "Rice" "Punjab" 2015 2016
                                      uneven_years) as H.
  cbv zeta in *.
  destruct H as (Hs & _ & (Hm & Ht & Hf & _) & _).
  destruct (Hs _ uneven_years_series) as (_ & _ & Hl).
  rewrite (Hl eq_refl eq_refl).
  rewrite Hf, uneven_years_avg.
  repeat split; assumption.
Defined.

(** On those records the forecast value is 300, the mean of the series
    is 375. *)
Lemma series_mean_rule_as_specified_fails : ~ series_mean_rule_as_specified.
Proof.
  intros H.
  specialize (H failing_backend "Rice"%string "Punjab"%string 2015%Z 2015%Z uneven_years
                _ uneven_years_series eq_refl eq_refl).
  rewrite uneven_years_series_mean in H.
  rewrite (trends_linear_last failing_backend "Rice" "Punjab" 2015 2015 uneven_years
                              _ uneven_years_series eq_refl eq_refl) in H.
  destruct (linear_extrapolation_flat uneven_years "Rice" "Punjab" 2015 2015)
    as (Hf & _).
  rewrite Hf, uneven_years_avg in H.
  change (py_range 2015 (2015 + 1)) with [2015%Z] in H.
  cbn [map] in H. apply Forall_inv in H.
  cbn [predicted_production flat_point] in H.
  injection H as H. lra.
Qed.

(** ** requests that end inside the history *)

Lemma prophet_predict_observed B m s a b last_year :
  Prophet.is_trained m = true ->
  last_index s = Some last_year ->
  (b <= last_year)%Z ->
  Prophet.predict B m s a b = Some [].
Proof.
  intros Hm Hl Hb. unfold Prophet.predict. rewrite Hm, Hl.
  destruct (b - last_year <=? 0)%Z eqn:E; [reflexivity|].
  apply Z.leb_gt in E. lia.
Qed.

Lemma arima_predict_observed B m s a b last_year :
  Arima.is_trained m = true ->
  last_index s = Some last_year ->
  (b <= last_year)%Z ->
  Arima.predict B m s a b = Some [].
Proof.
  intros Hm Hl Hb. unfold Arima.predict. rewrite Hm, Hl.
  destruct (b - last_year <=? 0)%Z eqn:E; [reflexivity|].
  apply Z.leb_gt in E. lia.
Qed.

Lemma points_observed B s a b last_year :
  last_index s = Some last_year ->
  (b <= last_year)%Z ->
  prophet_points B s a b = [] /\ arima_points B s a b = [].
Proof.
  intros Hl Hb. unfold prophet_points, arima_points, Prophet.train, Arima.train. split.
  - destruct (prophet_fit B s); [|reflexivity].
    now rewrite (prophet_predict_observed B (Prophet.mkForecaster true) s a b
                   last_year eq_refl Hl Hb).
  - destruct (arima_fit B s); [|reflexivity].
    now rewrite (arima_predict_observed B (Arima.mkForecaster true) s a b
                   last_year eq_refl Hl Hb).
Qed.

Lemma trends_observed_linear B crop state a b df s last_year :
  prepare_time_series df crop state = Some s ->
  last_index s = Some last_year ->
  (b <= last_year)%Z ->
  predict_production_trends B crop state a b df = linear_extrapolation df crop state a b.
Proof.
  intros Hs Hl Hb.
  destruct (points_observed B s a b last_year Hl Hb) as [Hp Ha].
  apply (trends_linear_last B crop state a b df s); assumption.
Qed.

Lemma linear_extrapolation_years df crop state a b :
  map year (forecast (linear_extrapolation df crop state a b)) = py_range a (b + 1).
Proof.
  cbn [forecast linear_extrapolation]. rewrite map_map. cbn [year]. apply map_id.
Qed.

(** C5 (as stated) fails: with a history for 2013 and 2014 and every trend
    model failing, the request 2010-2012 is answered with the three points
    of the linear extrapolation, all for already-observed years. *)
Lemma observed_years_rule_as_specified_fails : ~ observed_years_rule_as_specified.
Proof.
  intros H.
  destruct rice_punjab_2013_2014 as (s & Hs & Hl).
  assert (H1 : (2010 <= 2012)%Z) by lia.
  assert (H2 : (2012 <= 2014)%Z) by lia.
  specialize (H failing_backend "Rice"%string "Punjab"%string 2010%Z 2012%Z
                (rice_punjab 2013 2014) s 2014%Z Hs Hl H1 H2).
  rewrite (trends_observed_linear _ _ _ _ _ _ s 2014%Z Hs Hl H2) in H.
  apply (f_equal (map year)) in H. rewrite linear_extrapolation_years in H.
  discriminate H.
Qed.

(** C5 (amended). When end_year is not after the last historical year,
    [ProphetForecaster.predict] and [ARIMAForecaster.predict] return no
    point; [predict_production_trends] takes the empty lists as failed
    attempts and returns the linear extrapolation, whose points are exactly
    the years start_year..end_year (none of them after the history; empty
    only when end_year < start_year). *)
Theorem forecast_window_inside_history
        (B : Backend) (crop state : string) (start_year end_year : Z)
        (df : DataFrame) (s : Series) (last_year : Z) :
  prepare_time_series df crop state = Some s ->
  last_index s = Some last_year ->
  (end_year <= last_year)%Z ->
  let r := predict_production_trends B crop state start_year end_year df in
  (forall m, Prophet.is_trained m = true ->
             Prophet.predict B m s start_year end_year = Some []) /\
  (forall m, Arima.is_trained m = true ->
             Arima.predict B m s start_year end_year = Some []) /\
  r = linear_extrapolation df crop state start_year end_year /\
  model_used r = "Linear Extrapolation"%string /\
  map year (forecast r) = py_range start_year (end_year + 1) /\
  (forall y, In y (map year (forecast r)) <->
             (start_year <= y <= end_year)%Z) /\
  (forall y, In y (map year (forecast r)) -> (y <= last_year)%Z).
Proof.
  intros Hs Hl Hb r. subst r.
  rewrite (trends_observed_linear B crop state start_year end_year df s last_year Hs Hl Hb).
  rewrite linear_extrapolation_years.
  split; [|split; [|split; [|split; [|split; [|split]]]]].
  - intros m Hm. apply (prophet_predict_observed B m s _ _ last_year); assumption.
  - intros m Hm. apply (arima_predict_observed B m s _ _ last_year); assumption.
  - reflexivity.
  - reflexivity.
  - reflexivity.
  - intros y. rewrite In_py_range. lia.
  - intros y Hy. apply In_py_range in Hy. lia.
Qed.

(** History 2013-2014, request 2010-2012: the three requested years come back. *)
Lemma forecast_window_inside_history_witness :
  map year (forecast (predict_production_trends failing_backend "Rice" "Punjab"
                                                2010 2012 (rice_punjab 2013 2014)))
  = [2010; 2011; 2012]%Z.
Proof.
  destruct rice_punjab_2013_2014 as (s & Hs & Hl).
  assert (H2 : (2012 <= 2014)%Z) by lia.
  destruct (forecast_window_inside_history
              failing_backend "Rice" "Punjab" 2010 2012 (rice_punjab 2013 2014)
              s 2014 Hs Hl H2) as (_ & _ & _ & _ & Hy & _).
  rewrite Hy. reflexivity.
Defined.

(** ** the reported trend *)

(** A model block reports "increasing" when the last value exceeds the
    first and "decreasing" in every other case. *)
Lemma model_result_trend p ps name :
  trend (model_result p ps name) =
  if float_gt (predicted_production (List.last (p :: ps) p)) (predicted_production p)
  then "increasing"%string else "decreasing"%string.
Proof. reflexivity. Qed.

(** in particular a model block never reports "stable" *)
Lemma model_result_never_stable p ps name :
  trend (model_result p ps name) <> "stable"%string.
Proof.
  rewrite model_result_trend.
  destruct (float_gt _ _); discriminate.
Qed.

Lemma float_gt_irrefl v : float_gt v v = false.
Proof.
  destruct v as [x|]; [|reflexivity]. unfold float_gt.
  destruct (Rlt_dec x x); [lra|reflexivity].
Qed.

Lemma rice_punjab_2001_2014 :
  exists s, prepare_time_series (rice_punjab 2001 2014) "Rice" "Punjab" = Some s /\
            last_index s = Some 2014%Z.
Proof. eexists. split; reflexivity. Qed.

Lemma tail_app_exact {A} (l1 l2 : list A) :
  tail (Z.of_nat (length l2)) (l1 ++ l2) = l2.
Proof.
  unfold tail. rewrite length_app, Nat2Z.id.
  replace (length l1 + length l2 - length l2)%nat with (length l1) by lia.
  rewrite skipn_app, skipn_all, Nat.sub_diag. reflexivity.
Qed.

(** with a last historical year 2014 and a window 2015-2016 the two future
    rows of the year-end frame are dated 2014 and 2015, and only the second
    lies in the window *)
Lemma year_end_prophet_attempt value s :
  last_index s = Some 2014%Z ->
  prophet_attempt (year_end_prophet value) s 2015 2016 =
  Some (model_result
          (Prophet.to_point (mkProphetRow 2015 (value 2015%Z) (value 2015%Z - 1)
                                          (value 2015%Z + 1)))
          [] "Prophet").
Proof.
  intros Hl.
  unfold prophet_attempt, Prophet.train, Prophet.predict.
  cbn [prophet_fit prophet_forecast year_end_prophet Prophet.is_trained Prophet.new].
  unfold year_end_frame. rewrite Hl.
  change (2016 - 2014 <=? 0)%Z with false. cbv iota.
  change (py_range 2014 (2014 + (2016 - 2014))) with [2014%Z; 2015%Z].
  rewrite map_app.
  change (2016 - 2014)%Z
    with (Z.of_nat (length (map (fun y => mkProphetRow y (value y) (value y - 1)
                                                       (value y + 1))
                                [2014%Z; 2015%Z]))).
  rewrite tail_app_exact. reflexivity.
Qed.

(** C6. A yearly history of Rice in Punjab for 2001-2014, a Prophet fit that
    succeeds and a request for 2015-2016: the two future rows of the
    forecast frame are dated at the ends of 2014 and 2015, only the row of
    2015 lies in the window, and the one-point forecast, whose first and
    last values coincide, is reported "decreasing"; the three-way rule
    gives "stable" for equal values. *)
Theorem single_point_prophet_forecast_reported_decreasing :
  let r := predict_production_trends (year_end_prophet (fun _ => 1000000))
                                     "Rice" "Punjab" 2015 2016
                                     (rice_punjab 2001 2014) in
  model_used r = "Prophet"%string /\
  map year (forecast r) = [2015%Z] /\
  map predicted_production (forecast r) = [Some 1000000] /\
  trend r = "decreasing"%string /\
  three_way_trend 1000000 1000000 = "stable"%string.
Proof.
  cbv zeta.
  destruct rice_punjab_2001_2014 as (s & Hs & Hl).
  unfold predict_production_trends. rewrite Hs.
  rewrite (year_end_prophet_attempt _ s Hl).
  rewrite model_result_trend.
  cbn [List.last]. rewrite float_gt_irrefl.
  repeat split.
  unfold three_way_trend. destruct (Rlt_dec 1000000 1000000); [lra|reflexivity].
Qed.

End TrendFacts.

(* ================================================================== *)
(** * Facts about the profitability formula and the sort *)
(* ================================================================== *)

Module ProfitabilityFacts.
Import Profitability.

(** ** rounding *)

Lemma round_half_even_close x : - (1/2) <= IZR (round_half_even x) - x <= 1/2.
Proof.
  unfold round_half_even.
  pose proof (Zfloor_bound x) as [Hlo Hhi].
  destruct (Rlt_dec (x - IZR (Zfloor x)) (1/2)) as [H1|H1]; [lra|].
  destruct (Rlt_dec (1/2) (x - IZR (Zfloor x))) as [H2|H2].
  - rewrite plus_IZR. lra.
  - destruct (Z.even (Zfloor x)); [|rewrite plus_IZR]; lra.
Qed.

Lemma round2_close x : Rabs (round2 x - x) <= 0.005.
Proof.
  unfold round2.
  pose proof (round_half_even_close (x * 100)) as H.
  apply Rabs_le. lra.
Qed.

Lemma round_half_even_IZR k : round_half_even (IZR k) = k.
Proof.
  unfold round_half_even.
  rewrite (Zfloor_eq k (IZR k)) by lra.
  destruct (Rlt_dec (IZR k - IZR k) (1/2)); [reflexivity|lra].
Qed.

(** a value with at most two decimals is left unchanged *)
Lemma round2_exact k : round2 (IZR k / 100) = IZR k / 100.
Proof.
  unfold round2. replace (IZR k / 100 * 100) with (IZR k) by field.
  now rewrite round_half_even_IZR.
Qed.

(** ** the recommendation text *)

Lemma recommendation_text_thresholds i :
  (1.5 < i -> recommendation_text i = "Highly Profitable - Strongly Recommended"%string) /\
  (1.2 < i <= 1.5 -> recommendation_text i = "Profitable - Recommended"%string) /\
  (1.0 < i <= 1.2 -> recommendation_text i = "Marginally Profitable - Consider"%string) /\
  (0.8 < i <= 1.0 -> recommendation_text i = "Low Profitability - Risky"%string) /\
  (i <= 0.8 -> recommendation_text i = "Loss-Making - Not Recommended"%string).
Proof.
  unfold recommendation_text.
  destruct (Rlt_dec 1.5 i); [repeat split; intros; try reflexivity; lra|].
  destruct (Rlt_dec 1.2 i); [repeat split; intros; try reflexivity; lra|].
  destruct (Rlt_dec 1.0 i); [repeat split; intros; try reflexivity; lra|].
  destruct (Rlt_dec 0.8 i); repeat split; intros; try reflexivity; lra.
Qed.

Lemma calculate_cost_not_positive y p c u :
  c <= 0 ->
  calculate_profitability_index y p c u = ValueError "Cost must be greater than zero".
Proof.
  intros Hc. unfold calculate_profitability_index.
  destruct (Rle_dec c 0); [reflexivity|contradiction].
Qed.

Lemma calculate_ok y p c u :
  0 < c -> 0 <= y ->
  calculate_profitability_index y p c u =
  Ok {| profitability_index := round2 (y * p / c);
        predicted_yield := round2 y;
        unit := u;
        expected_revenue := round2 (y * p);
        cost := round2 c;
        expected_profit := round2 (y * p - c);
        profit_margin := round2 ((y * p - c) / c * 100);
        recommendation := recommendation_text (y * p / c) |}.
Proof.
  intros Hc Hy. unfold calculate_profitability_index.
  destruct (Rle_dec c 0); [lra|].
  destruct (Rlt_dec y 0); [lra|].
  destruct (Rlt_dec 0 c); [reflexivity|lra].
Qed.

(** The text is chosen before the index is rounded: for yield 1204, price 1,
    cost 1000 the quotient 1.204 is returned as 1.2 together with the text of
    the bracket above 1.2. *)
Example rounded_index_keeps_text_of_quotient :
  exists m,
    calculate_profitability_index 1204 1 1000 default_unit = Ok m /\
    profitability_index m = 1.2 /\
    recommendation m = "Profitable - Recommended"%string.
Proof.
  eexists. split; [apply calculate_ok; lra|].
  cbn [profitability_index recommendation]. split.
  - unfold round2, round_half_even.
    rewrite (Zfloor_eq 120 (1204 * 1 / 1000 * 100)) by lra.
    destruct (Rlt_dec (1204 * 1 / 1000 * 100 - IZR 120) (1 / 2)); lra.
  - apply recommendation_text_thresholds. lra.
Qed.

(** C7 (as stated) fails: for yield 1, price 1, cost 3 the returned index
    is a multiple of 0.01 (it is rounded), hence not 1/3. *)
Lemma index_formula_as_specified_fails : ~ index_formula_as_specified.
Proof.
  intros H.
  destruct (H 1 1 3 default_unit) as (m & Hm & Hi); try lra.
  rewrite calculate_ok in Hm by lra.
  injection Hm as <-. cbn [profitability_index] in Hi.
  unfold round2 in Hi.
  set (k := round_half_even (1 * 1 / 3 * 100)) in Hi.
  assert (Hk : IZR (k * 3) = IZR 100) by (rewrite mult_IZR; lra).
  apply eq_IZR in Hk. lia.
Qed.

(** C7 (amended). [calculate_profitability_index] raises [ValueError] when
    cost <= 0.  For cost > 0 and yield >= 0 it returns the index
    (yield * price) / cost rounded to two decimals (so within 0.005 of the
    quotient) and the recommendation text selected by the strict thresholds
    1.5, 1.2, 1.0, 0.8 applied to the unrounded quotient.  For yield 50,
    price 2000, cost 80000 the index is 1.25 and the text is
    "Profitable - Recommended". *)
Theorem calculate_profitability_index_spec
        (predicted_yield market_price cost : R) (unit : string) :
  let q := (predicted_yield * market_price) / cost in
  (cost <= 0 ->
   calculate_profitability_index predicted_yield market_price cost unit
   = ValueError "Cost must be greater than zero") /\
  (0 < cost -> 0 <= predicted_yield ->
   exists m,
     calculate_profitability_index predicted_yield market_price cost unit = Ok m /\
     profitability_index m = round2 q /\
     Rabs (profitability_index m - q) <= 0.005 /\
     recommendation m = recommendation_text q /\
     (1.5 < q -> recommendation m = "Highly Profitable - Strongly Recommended"%string) /\
     (1.2 < q <= 1.5 -> recommendation m = "Profitable - Recommended"%string) /\
     (1.0 < q <= 1.2 -> recommendation m = "Marginally Profitable - Consider"%string) /\
     (0.8 < q <= 1.0 -> recommendation m = "Low Profitability - Risky"%string) /\
     (q <= 0.8 -> recommendation m = "Loss-Making - Not Recommended"%string)) /\
  (exists m,
     calculate_profitability_index 50 2000 80000 unit = Ok m /\
     profitability_index m = 1.25 /\
     recommendation m = "Profitable - Recommended"%string).
Proof.
  intros q. split; [|split].
  - apply calculate_cost_not_positive.
  - intros Hc Hy. eexists. split; [apply calculate_ok; assumption|].
    cbn [profitability_index recommendation].
    split; [reflexivity|]. split; [apply round2_close|]. split; [reflexivity|].
    apply recommendation_text_thresholds.
  - eexists. split; [apply calculate_ok; lra|].
    cbn [profitability_index recommendation].
    replace (50 * 2000 / 80000) with (IZR 125 / 100) by lra.
    rewrite round2_exact. split; [lra|].
    apply recommendation_text_thresholds. lra.
Qed.

(** Yield 50, price 2000, cost 80000: index within 0.005 of 1.25, text
    "Profitable - Recommended". *)
Lemma calculate_profitability_index_spec_witness :
  exists m,
    calculate_profitability_index 50 2000 80000 default_unit = Ok m /\
    Rabs (profitability_index m - 50 * 2000 / 80000) <= 0.005 /\
    recommendation m = "Profitable - Recommended"%string.
Proof.
  destruct (calculate_profitability_index_spec 50 2000 80000 default_unit)
    as (_ & H & _).
  destruct H as (m & Hm & _ & Hc & _ & _ & Hp & _); try lra.
  exists m. split; [exact Hm|]. split; [exact Hc|]. apply Hp. lra.
Defined.

(** ** the descending stable sort *)

Section SortDesc.
Context {A : Type} (key : A -> R).

Lemma insert_desc_perm x l : Permutation (insert_desc key x l) (x :: l).
Proof.
  induction l as [|y t IH]; simpl; [reflexivity|].
  destruct (Rlt_dec (key x) (key y)); [|reflexivity].
  rewrite IH. apply perm_swap.
Qed.

Lemma sort_desc_perm l : Permutation (sort_desc key l) l.
Proof.
  induction l as [|x t IH]; simpl; [reflexivity|].
  rewrite insert_desc_perm. now constructor.
Qed.

Lemma sort_desc_length l : length (sort_desc key l) = length l.
Proof. apply Permutation_length, sort_desc_perm. Qed.

Lemma insert_desc_sorted x l :
  StronglySorted (desc key) l -> StronglySorted (desc key) (insert_desc key x l).
Proof.
  induction 1 as [|y t Ht IH Hy]; simpl.
  - repeat constructor.
  - destruct (Rlt_dec (key x) (key y)) as [Hlt|Hge].
    + constructor; [exact IH|].
      rewrite insert_desc_perm.
      constructor; [unfold desc; lra | exact Hy].
    + constructor; [constructor; assumption|].
      constructor; [unfold desc; lra|].
      eapply Forall_impl; [|exact Hy]. unfold desc. intros z Hz. lra.
Qed.

Lemma sort_desc_sorted l : StronglySorted (desc key) (sort_desc key l).
Proof.
  induction l as [|x t IH]; simpl; [constructor|].
  now apply insert_desc_sorted.
Qed.

Lemma desc_sorted_keys l :
  StronglySorted (desc key) l -> StronglySorted Rge (map key l).
Proof.
  induction 1 as [|y t Ht IH Hy]; simpl; constructor; [exact IH|].
  apply Forall_map. eapply Forall_impl; [|exact Hy].
  unfold desc. intros z Hz. lra.
Qed.

End SortDesc.

(** a descending list of numbers is determined by its elements *)
Lemma sorted_Rge_perm_eq l1 :
  forall l2, StronglySorted Rge l1 -> StronglySorted Rge l2 ->
             Permutation l1 l2 -> l1 = l2.
Proof.
  induction l1 as [|a t1 IH]; intros l2 H1 H2 HP.
  - apply Permutation_nil in HP. now subst.
  - destruct l2 as [|b t2]; [symmetry in HP; now apply Permutation_nil_cons in HP|].
    inversion H1 as [|? ? Ht1 Ha]; subst. inversion H2 as [|? ? Ht2 Hb]; subst.
    assert (Hab : a = b).
    { assert (Hin1 : In a (b :: t2)) by (eapply Permutation_in; [exact HP|now left]).
      assert (Hin2 : In b (a :: t1))
        by (eapply Permutation_in; [symmetry; exact HP|now left]).
      rewrite Forall_forall in Ha, Hb.
      destruct Hin1 as [Hin1|Hin1]; [now symmetry|].
      destruct Hin2 as [Hin2|Hin2]; [assumption|].
      specialize (Ha _ Hin2). specialize (Hb _ Hin1). lra. }
    subst b. f_equal. apply IH; try assumption.
    now apply Permutation_cons_inv in HP.
Qed.

(** the keys after the sort do not depend on the order of the input *)
Lemma sort_desc_keys {A} (key : A -> R) l keys :
  Permutation keys (map key l) -> StronglySorted Rge keys ->
  map key (sort_desc key l) = keys.
Proof.
  intros HP Hs. apply sorted_Rge_perm_eq.
  - apply desc_sorted_keys, sort_desc_sorted.
  - exact Hs.
  - rewrite HP. apply Permutation_map, sort_desc_perm.
Qed.

(** ** enumerate *)

Lemma py_range_cons a b : (a < b)%Z -> Data.py_range a b = a :: Data.py_range (a + 1) b.
Proof.
  intros Hab. unfold Data.py_range.
  replace (Z.to_nat (b - a)) with (S (Z.to_nat (b - (a + 1)))) by lia.
  cbn [seq map]. f_equal; [lia|].
  rewrite <- seq_shift, map_map. apply map_ext. intros i. lia.
Qed.

Lemma py_range_nil a b : (b <= a)%Z -> Data.py_range a b = [].
Proof.
  intros Hab. unfold Data.py_range.
  replace (Z.to_nat (b - a)) with 0%nat by lia. reflexivity.
Qed.

Lemma enumerate_fst {A} (l : list A) :
  forall start,
    map fst (enumerate start l) = Data.py_range start (start + Z.of_nat (length l)).
Proof.
  induction l as [|x t IH]; intros start.
  - rewrite py_range_nil; [reflexivity|simpl; lia].
  - rewrite py_range_cons by (simpl length; lia).
    simpl. f_equal. rewrite IH. f_equal. lia.
Qed.

Lemma enumerate_snd {A} (l : list A) :
  forall start, map snd (enumerate start l) = l.
Proof. induction l as [|x t IH]; intros start; simpl; [|rewrite IH]; reflexivity. Qed.

Lemma enumerate_nth {A} (l : list A) :
  forall start i ir,
    nth_error (enumerate start l) i = Some ir -> fst ir = (start + Z.of_nat i)%Z.
Proof.
  induction l as [|x t IH]; intros start i ir H.
  - destruct i; discriminate.
  - destruct i as [|i]; simpl in H.
    + injection H as <-. simpl. lia.
    + apply IH in H. lia.
Qed.

End ProfitabilityFacts.

(* ================================================================== *)
(** * Facts about the recommendation ranker *)
(* ================================================================== *)

Module ApiFacts.
Import Data Api.
Import ProfitabilityFacts.

(** ** the estimated cost *)

Lemma np_mean_single x : np_mean [x] = x.
Proof. unfold np_mean. simpl. field. Qed.

Lemma select_nonempty_length (rows : DataFrame) :
  rows <> [] -> (0 <? length rows)%nat = true.
Proof. destruct rows; [congruence|reflexivity]. Qed.

Lemma score_crop_fields predictor df request c rec :
  score_crop predictor df request c = Some rec ->
  crop rec = c /\ rank rec = 0%Z /\ estimated_cost rec = estimate_cost df request c.
Proof.
  unfold score_crop.
  destruct (Profitability.calculate_profitability_index _ _ _ _); [|discriminate].
  intros H. injection H as <-. repeat split.
Qed.

(** C9 (as stated) fails: one Rice record in Punjab with cost 100 and a
    budget of 50 give the estimated cost 50 (the budget), not 40. *)
Lemma cost_rule_as_specified_fails : ~ cost_rule_as_specified.
Proof.
  intros H.
  destruct (H [punjab_row "Rice" 100] (punjab_request 50 None) "Rice"%string)
    as [_ H2].
  cbv zeta in H2.
  change (select [punjab_row "Rice" 100] "Rice" (state (punjab_request 50 None)))
    with [punjab_row "Rice" 100] in H2.
  cbn [map Cost punjab_row budget punjab_request] in H2.
  rewrite np_mean_single in H2.
  assert (He : estimate_cost [punjab_row "Rice" 100] (punjab_request 50 None) "Rice" = 50).
  { unfold estimate_cost.
    change (select [punjab_row "Rice" 100] "Rice" (state (punjab_request 50 None)))
      with [punjab_row "Rice" 100].
    cbn [length Nat.ltb Nat.leb map Cost punjab_row budget punjab_request].
    rewrite np_mean_single. apply Rmin_left. lra. }
  rewrite He in H2. assert (Hlt : 50 < 100) by lra.
  specialize (H2 (or_intror Hlt)). lra.
Qed.

(** C9 (amended). The estimated cost of a candidate crop is the minimum of
    the budget and a base value: it equals the historical mean cost of the
    crop in the state when the pair has data and that mean is at most the
    budget, the budget itself when the pair has data and the mean exceeds the
    budget, and 80% of the budget when the pair has no data (budget >= 0).
    The recommendation built for the crop carries this estimated cost. *)
Theorem estimate_cost_spec
        (predictor : Ensemble.EnsembleYieldPredictor) (df : DataFrame)
        (request : RecommendationsRequest) (crop : string) :
  let rows := select df crop (state request) in
  let mean := np_mean (map Cost rows) in
  (rows <> [] -> mean <= budget request -> estimate_cost df request crop = mean) /\
  (rows <> [] -> budget request < mean ->
   estimate_cost df request crop = budget request) /\
  (rows = [] -> 0 <= budget request ->
   estimate_cost df request crop = budget request * 0.8) /\
  (forall rec, score_crop predictor df request crop = Some rec ->
               estimated_cost rec = estimate_cost df request crop).
Proof.
  intros rows mean. subst rows mean. unfold estimate_cost.
  split; [|split; [|split]].
  - intros Hne Hle. rewrite (select_nonempty_length _ Hne). apply Rmin_right. lra.
  - intros Hne Hlt. rewrite (select_nonempty_length _ Hne). apply Rmin_left. lra.
  - intros -> Hb. cbn [length Nat.ltb Nat.leb]. apply Rmin_right. lra.
  - intros rec Hrec. apply (score_crop_fields predictor df request crop rec Hrec).
Qed.

(** The three cases on concrete data: mean 40000 under a budget of 100000;
    mean 100 over a budget of 50; no data with a budget of 50. *)
Lemma estimate_cost_spec_witness :
  estimate_cost three_crops (punjab_request 100000 (Some 5%Z)) "Rice" = 40000 /\
  estimate_cost [punjab_row "Rice" 100] (punjab_request 50 None) "Rice" = 50 /\
  estimate_cost [] (punjab_request 50 None) "Rice" = 50 * 0.8.
Proof.
  split; [|split].
  - destruct (estimate_cost_spec Ensemble.no_models three_crops
                (punjab_request 100000 (Some 5%Z)) "Rice") as (H & _).
    cbv zeta in H.
    change (select three_crops "Rice" (state (punjab_request 100000 (Some 5%Z))))
      with [punjab_row "Rice" 40000] in H.
    cbn [map Cost punjab_row budget punjab_request] in H.
    rewrite np_mean_single in H. apply H; [discriminate|lra].
  - destruct (estimate_cost_spec Ensemble.no_models [punjab_row "Rice" 100]
                (punjab_request 50 None) "Rice") as (_ & H & _).
    cbv zeta in H.
    change (select [punjab_row "Rice" 100] "Rice" (state (punjab_request 50 None)))
      with [punjab_row "Rice" 100] in H.
    cbn [map Cost punjab_row budget punjab_request] in H.
    rewrite np_mean_single in H. apply H; [discriminate|lra].
  - destruct (estimate_cost_spec Ensemble.no_models []
                (punjab_request 50 None) "Rice") as (_ & _ & H & _).
    apply H; [reflexivity|cbn; lra].
Defined.

(** ** the scored candidates *)

Lemma scored_In predictor df request crops rec :
  In rec (scored predictor df request crops) ->
  exists c, In c crops /\ score_crop predictor df request c = Some rec.
Proof.
  induction crops as [|c rest IH]; simpl; [contradiction|].
  destruct (score_crop predictor df request c) as [rec'|] eqn:E.
  - intros [<-|Hin].
    + exists c. split; [now left|exact E].
    + destruct (IH Hin) as (c' & Hc' & Hs). exists c'. split; [now right|exact Hs].
  - intros Hin. destruct (IH Hin) as (c' & Hc' & Hs). exists c'. split; [now right|exact Hs].
Qed.

Lemma scored_length predictor df request crops :
  (length (scored predictor df request crops) <= length crops)%nat.
Proof.
  induction crops as [|c rest IH]; simpl; [lia|].
  destruct (score_crop predictor df request c); simpl; lia.
Qed.

Lemma unranked_rank0 rec : rank rec = 0%Z -> unranked rec = rec.
Proof. destruct rec; simpl. intros ->. reflexivity. Qed.

Lemma scored_unranked predictor df request crops :
  map unranked (scored predictor df request crops) = scored predictor df request crops.
Proof.
  induction crops as [|c rest IH]; simpl; [reflexivity|].
  destruct (score_crop predictor df request c) as [rec|] eqn:E; [|exact IH].
  simpl. rewrite IH. f_equal. apply unranked_rank0.
  apply (score_crop_fields _ _ _ _ _ E).
Qed.

(** ** sorting, then ranking *)

Lemma keys_sorted_desc {A} (key : A -> R) l :
  StronglySorted Rge (map key l) -> StronglySorted (Profitability.desc key) l.
Proof.
  induction l as [|x t IH]; simpl; intros H; [constructor|].
  inversion H as [|? ? Ht Hx]; subst. constructor; [now apply IH|].
  rewrite Forall_map in Hx. eapply Forall_impl; [|exact Hx].
  unfold Profitability.desc. intros z Hz. lra.
Qed.

Lemma sort_and_rank_index l :
  map profitability_index (sort_and_rank l)
  = map profitability_index (Profitability.sort_desc profitability_index l).
Proof.
  unfold sort_and_rank. rewrite map_map. cbn [profitability_index set_rank].
  rewrite <- (map_map snd profitability_index). now rewrite enumerate_snd.
Qed.

Lemma sort_and_rank_unranked l :
  map unranked (sort_and_rank l)
  = map unranked (Profitability.sort_desc profitability_index l).
Proof.
  unfold sort_and_rank. rewrite map_map.
  rewrite <- (enumerate_snd (Profitability.sort_desc profitability_index l) 1) at 2.
  rewrite map_map. apply map_ext. intros [i rec]. reflexivity.
Qed.

Lemma sort_and_rank_rank l :
  map rank (sort_and_rank l) = py_range 1 (1 + Z.of_nat (length l)).
Proof.
  unfold sort_and_rank. rewrite map_map. cbn [rank set_rank].
  rewrite enumerate_fst. now rewrite sort_desc_length.
Qed.

Lemma sort_and_rank_sorted l :
  StronglySorted (Profitability.desc profitability_index) (sort_and_rank l).
Proof.
  apply keys_sorted_desc. rewrite sort_and_rank_index.
  apply desc_sorted_keys, sort_desc_sorted.
Qed.

Lemma sort_and_rank_nth l i rec :
  nth_error (sort_and_rank l) i = Some rec -> rank rec = (Z.of_nat i + 1)%Z.
Proof.
  unfold sort_and_rank. intros H.
  rewrite nth_error_map in H.
  destruct (nth_error (Profitability.enumerate 1 _) i) as [ir|] eqn:E; [|discriminate].
  injection H as <-. apply enumerate_nth in E. cbn [rank set_rank]. lia.
Qed.

(** ** the top-N slice *)

Lemma slice_to_prefix {A} (l : list A) n : exists k, slice_to l n = firstn k l.
Proof.
  destruct n as [k|]; simpl.
  - destruct (0 <=? k)%Z; eexists; reflexivity.
  - exists (length l). symmetry. apply firstn_all.
Qed.

Lemma slice_to_all {A} (l : list A) n :
  (Z.of_nat (length l) <= n)%Z -> slice_to l (Some n) = l.
Proof.
  intros H. simpl. destruct (0 <=? n)%Z eqn:E; [|apply Z.leb_gt in E; lia].
  apply firstn_all2. lia.
Qed.

Lemma In_firstn {A} (l : list A) :
  forall k x, In x (firstn k l) -> In x l.
Proof.
  induction l as [|y t IH]; intros [|k] x; simpl; try contradiction.
  intros [->|H]; [now left|right; eapply IH; eassumption].
Qed.

Lemma firstn_sorted {A} (Rel : A -> A -> Prop) l :
  StronglySorted Rel l -> forall k, StronglySorted Rel (firstn k l).
Proof.
  induction 1 as [|x t Ht IH Hx]; intros [|k]; simpl; try constructor.
  - apply IH.
  - rewrite Forall_forall in *. intros y Hy. apply Hx. eapply In_firstn; eassumption.
Qed.

Lemma firstn_nth {A} (l : list A) :
  forall k i x, nth_error (firstn k l) i = Some x -> nth_error l i = Some x.
Proof.
  induction l as [|y t IH]; intros [|k] [|i] x; simpl; try discriminate; auto.
  apply IH.
Qed.

Lemma score_all_length crops_data :
  forall results, Profitability.score_all crops_data = Profitability.Ok results ->
                  length results = length crops_data.
Proof.
  induction crops_data as [|cd rest IH]; simpl; intros results H.
  - injection H as <-. reflexivity.
  - destruct (Profitability.calculate_profitability_index _ _ _ _); [|discriminate].
    destruct (Profitability.score_all rest) as [rs|]; [|discriminate].
    injection H as <-. simpl. f_equal. now apply IH.
Qed.

Lemma compare_crops_sorted_ranked crops_data results :
  Profitability.compare_crops_profitability crops_data = Profitability.Ok results ->
  StronglySorted
    (Profitability.desc
       (fun x => Profitability.profitability_index (Profitability.metrics x))) results /\
  map Profitability.rank results
  = map Some (py_range 1 (1 + Z.of_nat (length crops_data))).
Proof.
  unfold Profitability.compare_crops_profitability.
  destruct (Profitability.score_all crops_data) as [rs|] eqn:E; [|discriminate].
  intros H. injection H as <-. split.
  - apply keys_sorted_desc. rewrite map_map.
    cbn [Profitability.metrics Profitability.set_rank].
    rewrite <- (map_map snd
                  (fun x => Profitability.profitability_index (Profitability.metrics x))).
    rewrite enumerate_snd. apply desc_sorted_keys, sort_desc_sorted.
  - rewrite map_map. cbn [Profitability.rank Profitability.set_rank].
    rewrite <- (map_map fst Some), enumerate_fst, sort_desc_length.
    now rewrite (score_all_length _ _ E).
Qed.

(** C8. In [get_recommendations] the ranks are written after the sort of
    all scored candidates: the ranked list holds exactly the scored
    candidates, in descending order of profitability index, its ranks are
    1, 2, ..., and its sequence of indices is the descending arrangement of
    the candidates' indices whatever their order was.  The returned list is
    a prefix of the ranked list (so it is sorted, and its i-th entry has
    rank i), and it is the whole ranked list when top_n is at least the
    number of candidates.  [compare_crops_profitability] sorts and ranks the
    same way. *)
Theorem recommendations_sorted_then_ranked
        (predictor : Ensemble.EnsembleYieldPredictor) (df : DataFrame)
        (request : RecommendationsRequest) :
  let candidates := scored predictor df request (candidate_crops df) in
  let ranked := sort_and_rank candidates in
  let out := recommendations (get_recommendations predictor df request) in
  StronglySorted (Profitability.desc profitability_index) ranked /\
  Permutation (map unranked ranked) candidates /\
  map rank ranked = py_range 1 (1 + Z.of_nat (length candidates)) /\
  (forall keys, Permutation keys (map profitability_index candidates) ->
                StronglySorted Rge keys ->
                map profitability_index ranked = keys) /\
  (exists k, out = firstn k ranked) /\
  StronglySorted (Profitability.desc profitability_index) out /\
  (forall i rec, nth_error out i = Some rec -> rank rec = (Z.of_nat i + 1)%Z) /\
  (forall n, top_n request = Some n -> (Z.of_nat (length candidates) <= n)%Z ->
             out = ranked) /\
  (forall crops_data results,
      Profitability.compare_crops_profitability crops_data = Profitability.Ok results ->
      StronglySorted
        (Profitability.desc
           (fun x => Profitability.profitability_index (Profitability.metrics x)))
        results /\
      map Profitability.rank results
      = map Some (py_range 1 (1 + Z.of_nat (length crops_data)))).
Proof.
  intros candidates ranked out.
  assert (Hlen : length ranked = length candidates).
  { subst ranked. rewrite <- (length_map rank), sort_and_rank_rank.
    unfold py_range. rewrite length_map, length_seq. lia. }
  destruct (slice_to_prefix ranked (top_n request)) as [k Hk].
  assert (Hout : out = firstn k ranked) by exact Hk.
  split; [apply sort_and_rank_sorted|].
  split.
  { subst ranked. rewrite sort_and_rank_unranked.
    rewrite (Permutation_map unranked (sort_desc_perm profitability_index candidates)).
    subst candidates. now rewrite scored_unranked. }
  split; [apply sort_and_rank_rank|].
  split.
  { intros keys HP Hs. subst ranked. rewrite sort_and_rank_index.
    now apply sort_desc_keys. }
  split; [exists k; exact Hout|].
  split; [rewrite Hout; apply firstn_sorted, sort_and_rank_sorted|].
  split.
  { intros i rec Hi. rewrite Hout in Hi. apply firstn_nth in Hi.
    now apply sort_and_rank_nth in Hi. }
  split.
  { intros n Hn Hle. subst out. cbn [recommendations get_recommendations].
    rewrite Hn. apply slice_to_all. fold candidates. fold ranked. lia. }
  intros crops_data results. apply compare_crops_sorted_ranked.
Qed.

(** ** a worked example: three crops scored by the heuristic table *)

Lemma score_crop_heuristic df request c :
  0 < estimate_cost df request c ->
  exists rec,
    score_crop Ensemble.no_models df request c = Some rec /\
    profitability_index rec
    = round2 (Ensemble.base_yield c * Ensemble.dict_get market_prices c 2000
              / estimate_cost df request c).
Proof.
  intros Hc. unfold score_crop.
  rewrite EnsembleFacts.predict_yield_value_no_contribution by reflexivity.
  pose proof (EnsembleFacts.base_yield_pos c) as Hb.
  rewrite calculate_ok by lra.
  eexists. split; reflexivity.
Qed.

Lemma three_crops_costs :
  let request := punjab_request 100000 (Some 5%Z) in
  estimate_cost three_crops request "Oilseeds" = 60000 /\
  estimate_cost three_crops request "Rice" = 40000 /\
  estimate_cost three_crops request "Cotton" = 60000.
Proof.
  cbv zeta. unfold estimate_cost.
  change (select three_crops "Oilseeds" (state (punjab_request 100000 (Some 5%Z))))
    with [punjab_row "Oilseeds" 60000].
  change (select three_crops "Rice" (state (punjab_request 100000 (Some 5%Z))))
    with [punjab_row "Rice" 40000].
  change (select three_crops "Cotton" (state (punjab_request 100000 (Some 5%Z))))
    with [punjab_row "Cotton" 60000].
  cbn [length Nat.ltb Nat.leb map Cost punjab_row budget punjab_request].
  rewrite !np_mean_single. repeat split; apply Rmin_right; lra.
Qed.

Lemma three_crops_indices :
  map profitability_index
      (scored Ensemble.no_models three_crops (punjab_request 100000 (Some 5%Z))
              (candidate_crops three_crops))
  = [0.9; 2; 1.3].
Proof.
  destruct three_crops_costs as (Co & Cr & Cc). cbv zeta in Co, Cr, Cc.
  change (candidate_crops three_crops) with ["Oilseeds"; "Rice"; "Cotton"]%string.
  destruct (score_crop_heuristic three_crops (punjab_request 100000 (Some 5%Z))
              "Oilseeds") as (r1 & E1 & I1); [rewrite Co; lra|].
  destruct (score_crop_heuristic three_crops (punjab_request 100000 (Some 5%Z))
              "Rice") as (r2 & E2 & I2); [rewrite Cr; lra|].
  destruct (score_crop_heuristic three_crops (punjab_request 100000 (Some 5%Z))
              "Cotton") as (r3 & E3 & I3); [rewrite Cc; lra|].
  cbn [scored]. rewrite E1, E2, E3. cbn [map]. rewrite I1, I2, I3, Co, Cr, Cc.
  change (Ensemble.base_yield "Oilseeds") with 12.
  change (Ensemble.base_yield "Rice") with 40.
  change (Ensemble.base_yield "Cotton") with 12.
  change (Ensemble.dict_get market_prices "Oilseeds" 2000) with 4500.
  change (Ensemble.dict_get market_prices "Rice" 2000) with 2000.
  change (Ensemble.dict_get market_prices "Cotton" 2000) with 6500.
  replace (12 * 4500 / 60000) with (IZR 90 / 100) by lra.
  replace (40 * 2000 / 40000) with (IZR 200 / 100) by lra.
  replace (12 * 6500 / 60000) with (IZR 130 / 100) by lra.
  rewrite !round2_exact.
  repeat (f_equal; try lra).
Qed.

(** Oilseeds (index 0.9), Rice (2.0) and Cotton (1.3), met in this order,
    are returned with indices 2.0, 1.3, 0.9 and ranks 1, 2, 3. *)
Lemma recommendations_sorted_then_ranked_witness :
  let out := recommendations
               (get_recommendations Ensemble.no_models three_crops
                                    (punjab_request 100000 (Some 5%Z))) in
  map profitability_index out = [2; 1.3; 0.9] /\ map rank out = [1; 2; 3]%Z.
Proof.
  destruct (recommendations_sorted_then_ranked
              Ensemble.no_models three_crops (punjab_request 100000 (Some 5%Z)))
    as (_ & _ & Hrank & Hkeys & _ & _ & _ & Hall & _).
  cbv zeta in *.
  assert (Hlen : length (scored Ensemble.no_models three_crops
                                (punjab_request 100000 (Some 5%Z))
                                (candidate_crops three_crops)) = 3%nat).
  { rewrite <- (length_map profitability_index), three_crops_indices. reflexivity. }
  rewrite (Hall 5%Z eq_refl) by (rewrite Hlen; simpl; lia).
  split.
  - apply Hkeys.
    + rewrite three_crops_indices.
      apply perm_trans with (l' := [2; 0.9; 1.3]); [|apply perm_swap].
      apply perm_skip, perm_swap.
    + repeat constructor; lra.
  - rewrite Hrank, Hlen. reflexivity.
Defined.

(** ** the ten-crop limit *)

Lemma unique_In l x : In x (unique l) <-> In x l.
Proof.
  induction l as [|y t IH]; simpl; [tauto|].
  rewrite filter_In, IH. split.
  - intros [->|[H _]]; auto.
  - intros [->|H]; [now left|].
    destruct (String.eqb x y) eqn:E.
    + apply String.eqb_eq in E. subst. now left.
    + right. split; [exact H|reflexivity].
Qed.

Lemma unique_NoDup l : NoDup (unique l).
Proof.
  induction l as [|y t IH]; simpl; constructor.
  - rewrite filter_In. intros [_ H]. rewrite String.eqb_refl in H. discriminate.
  - now apply NoDup_filter.
Qed.

Lemma NoDup_app_disjoint {A} (l1 l2 : list A) x :
  NoDup (l1 ++ l2) -> In x l1 -> In x l2 -> False.
Proof.
  induction l1 as [|y t IH]; simpl; [contradiction|].
  intros H [->|H1] H2; inversion H; subst.
  - match goal with Hn : ~ In _ _ |- _ => apply Hn end. apply in_or_app. now right.
  - now apply IH.
Qed.

Lemma slice_to_In {A} (l : list A) n x : In x (slice_to l n) -> In x l.
Proof.
  destruct (slice_to_prefix l n) as [k ->]. apply In_firstn.
Qed.

Lemma sort_and_rank_crop l rec :
  In rec (sort_and_rank l) -> exists rec0, In rec0 l /\ crop rec = crop rec0.
Proof.
  unfold sort_and_rank. rewrite in_map_iff. intros ([i rec0] & <- & Hin).
  exists rec0. split; [|reflexivity].
  apply (Permutation_in _ (sort_desc_perm profitability_index l)).
  rewrite <- (enumerate_snd (Profitability.sort_desc profitability_index l) 1).
  apply in_map_iff. exists (i, rec0). split; [reflexivity|exact Hin].
Qed.

(** C10. Only the first ten distinct crops of the dataset, in order of first
    appearance, are scored: every returned recommendation is for one of
    them, at most ten recommendations are returned, and a crop that comes
    after the tenth distinct crop is in no returned recommendation, whatever
    top_n is. *)
Theorem recommendations_only_first_ten_crops
        (predictor : Ensemble.EnsembleYieldPredictor) (df : DataFrame)
        (request : RecommendationsRequest) :
  let out := recommendations (get_recommendations predictor df request) in
  let crops := unique (map Crop df) in
  (length out <= 10)%nat /\
  (forall rec, In rec out -> In (crop rec) (firstn 10 crops)) /\
  (forall c, In c (skipn 10 crops) -> forall rec, In rec out -> crop rec <> c).
Proof.
  intros out crops.
  assert (Hin : forall rec, In rec out -> In (crop rec) (firstn 10 crops)).
  { intros rec Hrec. apply slice_to_In in Hrec.
    apply sort_and_rank_crop in Hrec. destruct Hrec as (rec0 & Hrec0 & ->).
    apply scored_In in Hrec0. destruct Hrec0 as (c & Hc & Hs).
    apply score_crop_fields in Hs. destruct Hs as (-> & _). exact Hc. }
  split; [|split].
  - subst out. cbn [recommendations get_recommendations].
    destruct (slice_to_prefix
                (sort_and_rank (scored predictor df request (candidate_crops df)))
                (top_n request)) as [k ->].
    rewrite length_firstn.
    assert (Hlen : length (sort_and_rank (scored predictor df request (candidate_crops df)))
                   = length (scored predictor df request (candidate_crops df))).
    { rewrite <- (length_map rank), sort_and_rank_rank.
      unfold py_range. rewrite length_map, length_seq. lia. }
    pose proof (scored_length predictor df request (candidate_crops df)) as Hs.
    assert (Hc : (length (candidate_crops df) <= 10)%nat)
      by (unfold candidate_crops; apply firstn_le_length).
    lia.
  - exact Hin.
  - intros c Hc rec Hrec Heq. subst c.
    apply (NoDup_app_disjoint (firstn 10 crops) (skipn 10 crops) (crop rec)).
    + rewrite firstn_skipn. apply unique_NoDup.
    + now apply Hin.
    + exact Hc.
Qed.

(** In a dataset whose eleventh distinct crop is Tea, no recommendation is
    for Tea even when twenty are requested. *)
Lemma recommendations_only_first_ten_crops_witness :
  Forall (fun rec => crop rec <> "Tea"%string)
         (recommendations
            (get_recommendations Ensemble.no_models eleven_crops
                                 (punjab_request 100000 (Some 20%Z)))).
Proof.
  destruct (recommendations_only_first_ten_crops
              Ensemble.no_models eleven_crops (punjab_request 100000 (Some 20%Z)))
    as (_ & _ & H).
  apply Forall_forall. apply (H "Tea"%string).
  change (skipn 10 (unique (map Crop eleven_crops))) with ["Tea"%string].
  now left.
Defined.

End ApiFacts.

(* ================================================================== *)
(** * Further properties of the blending engine *)
(* ================================================================== *)

Module BlendProperties.
Import Ensemble EnsembleNotions EnsembleFacts.

Lemma Rmax_0_mono x y : x <= y -> Rmax 0 x <= Rmax 0 y.
Proof.
  intros H. apply Rmax_lub; [apply Rmax_l|].
  apply Rle_trans with y; [exact H|apply Rmax_r].
Qed.

Lemma returns_contributes m x v : returns m x v -> contributes m x = true.
Proof.
  intros (e & -> & Ht & Hp). unfold contributes. now rewrite Ht, Hp.
Qed.

Lemma try_model_returns m name x acc v :
  returns m x v -> try_model m name x acc = (fst acc ++ [v], snd acc ++ [name]).
Proof.
  intros (e & -> & Ht & Hp). unfold try_model. now rewrite Ht, Hp.
Qed.

Lemma blend_single_lower_value v name :
  ensemble_pred [v] [name] = v ->
  let r := blend [v] [name] in
  0 <= lower r <= predicted_yield r /\
  (0 < predicted_yield r -> predicted_yield r <= upper r).
Proof.
  intros He r. subst r. unfold blend. cbn [predicted_yield lower upper].
  rewrite std_pred_single, He. split; [split|].
  - apply Rmax_l.
  - destruct (Rle_dec 0 v) as [Hv|Hv].
    + rewrite !Rmax_0_nonneg by lra. lra.
    + rewrite !Rmax_left by lra. lra.
  - intros Hpos. destruct (Rle_dec 0 v) as [Hv|Hv].
    + rewrite Rmax_0_nonneg by lra. lra.
    + rewrite Rmax_left in Hpos by lra. lra.
Qed.

(** X1. For every call of [predict_yield], whatever the models return
    (negative values included), 0 <= lower <= predicted_yield; and whenever
    the returned predicted_yield is positive it is at most upper.  The
    interval can lie below the value only when the value was floored to 0. *)
Theorem predict_yield_lower_bound_always
        (self : EnsembleYieldPredictor) (crop state season : string)
        (year : Z) (cost : R) :
  let r := predict_yield self crop state season year cost in
  0 <= lower r <= predicted_yield r /\
  (0 < predicted_yield r -> predicted_yield r <= upper r).
Proof.
  intros r. subst r. rewrite predict_yield_blend.
  destruct (contributions_shape self (mkFeatures crop state season year cost))
    as [|a|b|a b]; unfold with_fallback; simpl fst; simpl snd; simpl Nat.eqb; cbv iota.
  - apply blend_single_lower_value, ensemble_pred_heuristic.
  - apply blend_single_lower_value, ensemble_pred_rf.
  - apply blend_single_lower_value, ensemble_pred_xgb.
  - unfold blend. cbn [predicted_yield lower upper].
    rewrite std_pred_both, ensemble_pred_both.
    pose proof (np_std_nonneg [a; b]) as Hs.
    split; [split|].
    + apply Rmax_l.
    + apply Rmax_0_mono. lra.
    + intros Hpos. destruct (Rle_dec 0 ((a + b) / 2)) as [Hv|Hv].
      * rewrite Rmax_0_nonneg by lra. lra.
      * rewrite Rmax_left in Hpos by lra. lra.
Qed.

(** X2. Partial failure: when Random Forest is absent, untrained or raises
    and XGBoost returns [b], the result is built from XGBoost alone (value
    max(0, b), model "Ensemble (xgboost)"); symmetrically when XGBoost
    contributes nothing and Random Forest returns [a].  A failing model
    never makes the call fail and never changes the surviving value. *)
Theorem predict_yield_single_survivor
        (self : EnsembleYieldPredictor) (crop state season : string)
        (year : Z) (cost : R) (v : R) :
  let x := mkFeatures crop state season year cost in
  let r := predict_yield self crop state season year cost in
  (contributes (rf_model self) x = false -> returns (xgb_model self) x v ->
   predicted_yield r = Rmax 0 v /\
   model_used r = "Ensemble (xgboost)"%string /\
   individual_predictions r = [("xgboost"%string, v)] /\
   upper r = v + 1.96 * (v * 0.1)) /\
  (returns (rf_model self) x v -> contributes (xgb_model self) x = false ->
   predicted_yield r = Rmax 0 v /\
   model_used r = "Ensemble (random_forest)"%string /\
   individual_predictions r = [("random_forest"%string, v)] /\
   upper r = v + 1.96 * (v * 0.1)).
Proof.
  intros x r. subst r x. rewrite predict_yield_blend. split.
  - intros Hrf Hxgb. unfold contributions.
    rewrite (try_model_skip _ _ _ _ Hrf), (try_model_returns _ _ _ _ _ Hxgb).
    unfold with_fallback; simpl fst; simpl snd; simpl Nat.eqb; cbv iota.
    unfold blend.
    cbn [predicted_yield lower upper model_used individual_predictions].
    rewrite std_pred_single, ensemble_pred_xgb. repeat split.
  - intros Hrf Hxgb. unfold contributions.
    rewrite (try_model_returns _ _ _ _ _ Hrf), (try_model_skip _ _ _ _ Hxgb).
    unfold with_fallback; simpl fst; simpl snd; simpl Nat.eqb; cbv iota.
    unfold blend.
    cbn [predicted_yield lower upper model_used individual_predictions].
    rewrite std_pred_single, ensemble_pred_rf. repeat split.
Qed.

(** Random Forest raising, XGBoost returning 30: the value is 30. *)
Lemma predict_yield_single_survivor_witness :
  predicted_yield
    (predict_yield {| rf_model := Some raising_model;
                      xgb_model := Some (constant_model 30) |}
                   "Rice" "Punjab" "Kharif" 2024 80000) = Rmax 0 30.
Proof.
  apply (proj1 (predict_yield_single_survivor
                  {| rf_model := Some raising_model;
                     xgb_model := Some (constant_model 30) |}
                  "Rice" "Punjab" "Kharif" 2024 80000 30)).
  - reflexivity.
  - exists (constant_model 30). repeat split.
Defined.

(** X3. When both models return a value, [a] from Random Forest and [b] from
    XGBoost, the blend is their midpoint (floored at 0), which lies between
    the two values; the upper bound is the midpoint plus 1.96 * |a - b| / 2;
    both models are named, in the order random_forest, xgboost. *)
Theorem predict_yield_two_models
        (self : EnsembleYieldPredictor) (crop state season : string)
        (year : Z) (cost : R) (a b : R) :
  let x := mkFeatures crop state season year cost in
  returns (rf_model self) x a ->
  returns (xgb_model self) x b ->
  let r := predict_yield self crop state season year cost in
  predicted_yield r = Rmax 0 ((a + b) / 2) /\
  Rmin a b <= (a + b) / 2 <= Rmax a b /\
  upper r = (a + b) / 2 + 1.96 * (Rabs (a - b) / 2) /\
  lower r = Rmax 0 ((a + b) / 2 - 1.96 * (Rabs (a - b) / 2)) /\
  model_used r = "Ensemble (random_forest, xgboost)"%string /\
  individual_predictions r = [("random_forest"%string, a); ("xgboost"%string, b)].
Proof.
  intros x Hrf Hxgb r. subst r x. rewrite predict_yield_blend.
  unfold contributions.
  rewrite (try_model_returns _ _ _ _ _ Hrf), (try_model_returns _ _ _ _ _ Hxgb).
  unfold with_fallback; simpl fst; simpl snd; simpl Nat.eqb; cbv iota.
  unfold blend. cbn [predicted_yield lower upper model_used individual_predictions].
  rewrite std_pred_both, ensemble_pred_both, np_std_pair.
  repeat split.
  - unfold Rmin. destruct (Rle_dec a b); lra.
  - unfold Rmax. destruct (Rle_dec a b); lra.
Qed.

Lemma predict_yield_two_models_witness :
  predicted_yield (predict_yield (two_models 30 50) "Rice" "Punjab" "Kharif" 2024 80000)
  = Rmax 0 ((30 + 50) / 2).
Proof.
  apply (predict_yield_two_models (two_models 30 50) "Rice" "Punjab" "Kharif" 2024 80000
                                  30 50).
  - eexists. repeat split.
  - eexists. repeat split.
Defined.

End BlendProperties.

(* ================================================================== *)
(** * Further properties of the series and of the forecasters *)
(* ================================================================== *)

Module SeriesProperties.
Import Data Trend TrendFacts.

(** ** the group keys *)

Lemma insert_year_In y x l : In y (insert_year x l) <-> y = x \/ In y l.
Proof.
  induction l as [|z t IH]; simpl.
  - intuition congruence.
  - destruct (x <? z)%Z eqn:E1; [simpl; intuition congruence|].
    destruct (x =? z)%Z eqn:E2.
    + apply Z.eqb_eq in E2. subst. simpl. intuition congruence.
    + simpl. rewrite IH. intuition congruence.
Qed.

Lemma insert_year_sorted x l :
  StronglySorted Z.lt l -> StronglySorted Z.lt (insert_year x l).
Proof.
  induction 1 as [|z t Ht IH Hz]; simpl.
  - repeat constructor.
  - destruct (x <? z)%Z eqn:E1.
    + apply Z.ltb_lt in E1. constructor; [constructor; assumption|].
      constructor; [exact E1|]. eapply Forall_impl; [|exact Hz]. intros; lia.
    + destruct (x =? z)%Z eqn:E2; [constructor; assumption|].
      apply Z.ltb_ge in E1. apply Z.eqb_neq in E2.
      constructor; [exact IH|].
      apply Forall_forall. intros y Hy. apply insert_year_In in Hy.
      destruct Hy as [->|Hy]; [lia|].
      rewrite Forall_forall in Hz. now apply Hz.
Qed.

Lemma group_keys_In y l : In y (group_keys l) <-> In y l.
Proof.
  induction l as [|x t IH]; simpl; [tauto|].
  rewrite insert_year_In, IH. intuition congruence.
Qed.

Lemma group_keys_sorted l : StronglySorted Z.lt (group_keys l).
Proof.
  induction l as [|x t IH]; simpl; [constructor|].
  now apply insert_year_sorted.
Qed.

Lemma prepare_time_series_index df crop state s :
  prepare_time_series df crop state = Some s ->
  map fst s = group_keys (map Year (select df crop state)).
Proof.
  unfold prepare_time_series.
  destruct (length (select df crop state) =? 0)%nat; [discriminate|].
  intros H. injection H as <-. rewrite map_map. cbn [fst]. apply map_id.
Qed.

Lemma prepare_time_series_props (df : DataFrame) (crop state : string) :
  (prepare_time_series df crop state = None <-> select df crop state = []) /\
  (forall s, prepare_time_series df crop state = Some s ->
     s <> [] /\
     StronglySorted Z.lt (map fst s) /\
     (forall y, In y (map fst s) <->
                exists r, In r (select df crop state) /\ Year r = y) /\
     (forall y v, In (y, v) s ->
        v = np_mean (map Production
                         (filter (fun r => (Year r =? y)%Z) (select df crop state))))).
Proof.
  split.
  - unfold prepare_time_series.
    destruct (select df crop state) as [|r t]; simpl; split; congruence.
  - intros s Hs. pose proof (prepare_time_series_index df crop state s Hs) as Hidx.
    assert (Hy : forall y, In y (map fst s) <->
                           exists r, In r (select df crop state) /\ Year r = y).
    { intros y. rewrite Hidx, group_keys_In, in_map_iff. firstorder. }
    split; [|split; [|split]].
    + unfold prepare_time_series in Hs.
      destruct (select df crop state) as [|r t] eqn:E; [discriminate|].
      intros ->. destruct (proj2 (Hy (Year r))) as [].
      exists r. split; [now left|reflexivity].
    + rewrite Hidx. apply group_keys_sorted.
    + exact Hy.
    + intros y v Hin. unfold prepare_time_series in Hs.
      destruct (length (select df crop state) =? 0)%nat; [discriminate|].
      injection Hs as <-. apply in_map_iff in Hin.
      destruct Hin as (y' & Heq & _). now injection Heq as <- <-.
Qed.

(** X4. [prepare_time_series] raises exactly when the dataset has no record
    of the (crop, state) pair.  Otherwise the index of the series is strictly
    increasing (one entry per year, sorted), its years are exactly the years
    of the pair's records, and the value at each year is the mean Production
    of the pair's records of that year. *)
Theorem prepare_time_series_spec (df : DataFrame) (crop state : string) :
  (prepare_time_series df crop state = None <-> select df crop state = []) /\
  (forall s, prepare_time_series df crop state = Some s ->
     s <> [] /\
     StronglySorted Z.lt (map fst s) /\
     (forall y, In y (map fst s) <->
                exists r, In r (select df crop state) /\ Year r = y) /\
     (forall y v, In (y, v) s ->
        v = np_mean (map Production
                         (filter (fun r => (Year r =? y)%Z) (select df crop state))))).
Proof. exact (prepare_time_series_props df crop state). Qed.

(** the last element of an increasing list bounds the list *)
Lemma sorted_rev_head l :
  forall m r, StronglySorted Z.lt l -> rev l = m :: r ->
              forall x, In x l -> (x <= m)%Z.
Proof.
  induction l as [|a t IH]; intros m r Hs Hr x Hx; [contradiction|].
  inversion Hs as [|? ? Ht Ha]; subst. simpl in Hr.
  destruct (rev t) as [|m' r'] eqn:E.
  - simpl in Hr. injection Hr as <- <-.
    assert (t = []) by (apply (f_equal (@rev Z)) in E; now rewrite rev_involutive in E).
    subst. destruct Hx as [->|[]]. lia.
  - simpl in Hr. injection Hr as <- <-.
    assert (Hm : In m' t) by (apply in_rev; rewrite E; now left).
    destruct Hx as [->|Hx].
    + rewrite Forall_forall in Ha. specialize (Ha _ Hm). lia.
    + eapply IH; eauto.
Qed.

Lemma last_index_map_fst s : last_index s = hd_error (rev (map fst s)).
Proof.
  unfold last_index. rewrite <- map_rev.
  destruct (rev s) as [|[y v] t]; reflexivity.
Qed.

(** X5. The "last historical year" read by both forecasters,
    [int(series.index[-1])], is the largest Year among the records of the
    pair: it always exists for a prepared series, it is the year of some
    record, and no record of the pair has a later year. *)
Theorem last_index_is_latest_year (df : DataFrame) (crop state : string) (s : Series) :
  prepare_time_series df crop state = Some s ->
  exists last_year,
    last_index s = Some last_year /\
    (exists r, In r (select df crop state) /\ Year r = last_year) /\
    (forall r, In r (select df crop state) -> (Year r <= last_year)%Z).
Proof.
  intros Hs.
  destruct (proj2 (prepare_time_series_props df crop state) s Hs)
    as (Hne & Hsorted & Hyears & _).
  rewrite last_index_map_fst.
  destruct (rev (map fst s)) as [|m r] eqn:E.
  - apply (f_equal (@rev Z)) in E. rewrite rev_involutive in E. simpl in E.
    apply map_eq_nil in E. contradiction.
  - exists m. split; [reflexivity|]. split.
    + apply Hyears. apply in_rev. rewrite E. now left.
    + intros row Hrow. apply (sorted_rev_head (map fst s) m r Hsorted E).
      apply Hyears. now exists row.
Qed.

Lemma last_index_is_latest_year_witness :
  exists last_year,
    last_index
      (map (fun y => (y, np_mean (map Production
                                      (filter (fun r => (Year r =? y)%Z)
                                              (select (rice_punjab 2013 2014)
                                                      "Rice" "Punjab")))))
           (group_keys (map Year (select (rice_punjab 2013 2014) "Rice" "Punjab"))))
    = Some last_year /\
    (exists r, In r (select (rice_punjab 2013 2014) "Rice" "Punjab") /\
               Year r = last_year) /\
    (forall r, In r (select (rice_punjab 2013 2014) "Rice" "Punjab") ->
               (Year r <= last_year)%Z).
Proof.
  exact (last_index_is_latest_year (rice_punjab 2013 2014) "Rice" "Punjab" _ eq_refl).
Defined.

End SeriesProperties.

Module ForecasterProperties.
Import Data Trend TrendNotions TrendFacts.

Lemma collect_years years :
  forall rows ps, Arima.collect years rows = Some ps -> map year ps = years.
Proof.
  induction years as [|y ys IH]; intros rows ps H; simpl in H.
  - injection H as <-. reflexivity.
  - destruct rows as [|r rs]; [discriminate|].
    destruct (Arima.collect ys rs) as [ps'|] eqn:E; [|discriminate].
    injection H as <-. simpl. rewrite (IH _ _ E).
    destruct r as [[f lo] hi]. reflexivity.
Qed.

Lemma collect_short years :
  forall rows, (length rows < length years)%nat -> Arima.collect years rows = None.
Proof.
  induction years as [|y ys IH]; intros rows H; simpl in *; [lia|].
  destruct rows as [|r rs]; [reflexivity|].
  simpl in H. rewrite IH by lia. reflexivity.
Qed.

Lemma collect_enough years :
  forall rows, (length years <= length rows)%nat ->
               exists ps, Arima.collect years rows = Some ps.
Proof.
  induction years as [|y ys IH]; intros rows H; simpl in *; [eauto|].
  destruct rows as [|r rs]; [simpl in H; lia|].
  simpl in H. destruct (IH rs) as [ps ->]; [lia|]. eauto.
Qed.

Lemma length_py_range a b : length (py_range a b) = Z.to_nat (b - a).
Proof. unfold py_range. now rewrite length_map, length_seq. Qed.

Lemma arima_predict_some_years B m s a b last_year ps :
  last_index s = Some last_year ->
  Arima.predict B m s a b = Some ps ->
  map year ps = py_range (last_year + 1) (b + 1).
Proof.
  intros Hl H. unfold Arima.predict in H.
  destruct (if Arima.is_trained m then Some m else Arima.train B m s);
    [|discriminate].
  rewrite Hl in H.
  destruct (b - last_year <=? 0)%Z eqn:E.
  - injection H as <-. apply Z.leb_le in E.
    rewrite ProfitabilityFacts.py_range_nil by lia. reflexivity.
  - destruct (arima_forecast B s (b - last_year)); [|discriminate].
    now apply collect_years in H.
Qed.

(** X6. Whenever [ARIMAForecaster.predict] returns, its points are for the
    consecutive years last_year + 1, ..., end_year, one point per year,
    whatever start_year is: the start of the requested window is not used.
    It raises (IndexError) when the library returns fewer forecast rows than
    end_year - last_year, and returns when it has at least that many. *)
Theorem arima_predict_years
        (B : Backend) (m : Arima.ARIMAForecaster) (s : Series)
        (start_year end_year last_year : Z) :
  last_index s = Some last_year ->
  (forall ps, Arima.predict B m s start_year end_year = Some ps ->
              map year ps = py_range (last_year + 1) (end_year + 1) /\
              length ps = Z.to_nat (end_year - last_year)) /\
  (forall rows, Arima.is_trained m = true -> (last_year < end_year)%Z ->
                arima_forecast B s (end_year - last_year) = Some rows ->
                ((length rows < Z.to_nat (end_year - last_year))%nat ->
                 Arima.predict B m s start_year end_year = None) /\
                ((Z.to_nat (end_year - last_year) <= length rows)%nat ->
                 exists ps, Arima.predict B m s start_year end_year = Some ps)).
Proof.
  intros Hl. split.
  - intros ps H.
    pose proof (arima_predict_some_years B m s start_year end_year last_year ps Hl H)
      as Hy.
    split; [exact Hy|].
    rewrite <- (length_map year), Hy, length_py_range. f_equal. lia.
  - intros rows Hm Hlt Hf. unfold Arima.predict. rewrite Hm, Hl.
    destruct (end_year - last_year <=? 0)%Z eqn:E; [apply Z.leb_le in E; lia|].
    rewrite Hf. split; intros Hlen.
    + apply collect_short. rewrite length_py_range.
      replace (end_year + 1 - (last_year + 1))%Z with (end_year - last_year)%Z by lia.
      exact Hlen.
    + apply collect_enough. rewrite length_py_range.
      replace (end_year + 1 - (last_year + 1))%Z with (end_year - last_year)%Z by lia.
      exact Hlen.
Qed.

(** History up to 2014, request 2016-2017: ARIMA answers for 2015, 2016 and
    2017, the year 2015 lying before the requested window. *)
Lemma arima_predict_years_witness :
  exists ps,
    Arima.predict arima_backend (Arima.mkForecaster true) short_series
                  2016 2017 = Some ps /\
    map year ps = [2015; 2016; 2017]%Z.
Proof.
  destruct (arima_predict_years arima_backend (Arima.mkForecaster true)
              short_series 2016 2017 2014 eq_refl) as [Hy Hrows].
  destruct (Hrows (repeat (100, 90, 110) 3) eq_refl ltac:(lia) eq_refl) as [_ Hok].
  destruct (Hok ltac:(simpl; lia)) as [ps Hps].
  exists ps. split; [exact Hps|]. apply (Hy ps Hps).
Defined.

Lemma tail_length {A} (n : Z) (l : list A) :
  (length (tail n l) <= Z.to_nat n)%nat.
Proof. unfold tail. rewrite length_skipn. lia. Qed.

Lemma prophet_predict_some_window
        (B : Backend) (m : Prophet.ProphetForecaster) (s : Series)
        (start_year end_year last_year : Z) (ps : list TrendPoint) :
  last_index s = Some last_year ->
  Prophet.predict B m s start_year end_year = Some ps ->
  Forall (fun p => (start_year <= year p <= end_year)%Z) ps /\
  (length ps <= Z.to_nat (end_year - last_year))%nat.
Proof.
  intros Hl H. unfold Prophet.predict in H.
  destruct (if Prophet.is_trained m then Some m else Prophet.train B m s);
    [|discriminate].
  rewrite Hl in H.
  destruct (end_year - last_year <=? 0)%Z eqn:E.
  - injection H as <-. split; [constructor|simpl; lia].
  - destruct (prophet_forecast B s (end_year - last_year)) as [rows|]; [|discriminate].
    injection H as <-. split.
    + apply Forall_map. apply Forall_forall. intros r Hr.
      apply filter_In in Hr. destruct Hr as [_ Hr].
      apply andb_true_iff in Hr. destruct Hr as [H1 H2].
      apply Z.leb_le in H1. apply Z.leb_le in H2. cbn [year Prophet.to_point]. lia.
    + rewrite length_map.
      apply Nat.le_trans with (length (tail (end_year - last_year) rows)).
      * apply filter_length_le.
      * apply tail_length.
Qed.

(** X7. Whenever [ProphetForecaster.predict] returns, every returned point
    has its year inside the requested window start_year..end_year, and there
    are at most end_year - last_year points (none when end_year is not after
    the last historical year). *)
Theorem prophet_predict_window
        (B : Backend) (m : Prophet.ProphetForecaster) (s : Series)
        (start_year end_year last_year : Z) (ps : list TrendPoint) :
  last_index s = Some last_year ->
  Prophet.predict B m s start_year end_year = Some ps ->
  Forall (fun p => (start_year <= year p <= end_year)%Z) ps /\
  (length ps <= Z.to_nat (end_year - last_year))%nat.
Proof.
  apply prophet_predict_some_window.
Qed.

(** History up to 2014, request 2015-2016, a frame ending with the rows of
    2014, 2015, 2016: the two rows of the window are returned. *)
Lemma prophet_predict_window_witness :
  Forall (fun p => (2015 <= year p <= 2016)%Z)
         [ Prophet.to_point (mkProphetRow 2015 100 90 110);
           Prophet.to_point (mkProphetRow 2016 110 100 120) ] /\
  (length [ Prophet.to_point (mkProphetRow 2015 100 90 110);
            Prophet.to_point (mkProphetRow 2016 110 100 120) ]
   <= Z.to_nat (2016 - 2014))%nat.
Proof.
  exact (prophet_predict_window prophet_backend (Prophet.mkForecaster true)
                                short_series 2015 2016 2014 _ eq_refl eq_refl).
Defined.

End ForecasterProperties.

Module ChainProperties.
Import Data Trend TrendNotions TrendFacts ForecasterProperties.

Lemma py_range_nonempty a b : (a < b)%Z -> py_range a b <> [].
Proof.
  intros H. rewrite ProfitabilityFacts.py_range_cons by exact H. discriminate.
Qed.

(** the three shapes of the result *)
Lemma trends_cases B crop state a b df :
  let r := predict_production_trends B crop state a b df in
  (exists s, prepare_time_series df crop state = Some s /\
             model_used r = "Prophet"%string /\
             forecast r = prophet_points B s a b /\ forecast r <> []) \/
  (exists s, prepare_time_series df crop state = Some s /\
             model_used r = "ARIMA"%string /\
             forecast r = arima_points B s a b /\ forecast r <> []) \/
  r = linear_extrapolation df crop state a b.
Proof.
  cbv zeta. unfold predict_production_trends.
  destruct (prepare_time_series df crop state) as [s|]; [|now right; right].
  pose proof (prophet_attempt_points B s a b) as Hp.
  destruct (prophet_attempt B s a b) as [rp|].
  - left. exists s. destruct Hp as (Hf & Hne & Hm).
    repeat split; try assumption. now rewrite Hf.
  - pose proof (arima_attempt_points B s a b) as Ha.
    destruct (arima_attempt B s a b) as [ra|].
    + right; left. exists s. destruct Ha as (Hf & Hne & Hm).
      repeat split; try assumption. now rewrite Hf.
    + now right; right.
Qed.

(** X8. For every dataset, every pair and every behaviour of the fitting
    libraries, a request with start_year <= end_year is answered with a
    non-empty forecast whose model is "Prophet", "ARIMA" or
    "Linear Extrapolation".  The only empty forecast is the linear
    extrapolation of a window with end_year < start_year. *)
Theorem forecast_never_empty
        (B : Backend) (crop state : string) (start_year end_year : Z) (df : DataFrame) :
  let r := predict_production_trends B crop state start_year end_year df in
  (model_used r = "Prophet"%string \/ model_used r = "ARIMA"%string \/
   model_used r = "Linear Extrapolation"%string) /\
  ((start_year <= end_year)%Z -> forecast r <> []) /\
  (forecast r = [] ->
   (end_year < start_year)%Z /\ model_used r = "Linear Extrapolation"%string).
Proof.
  intros r. subst r.
  destruct (trends_cases B crop state start_year end_year df)
    as [(s & _ & Hm & _ & Hne)|[(s & _ & Hm & _ & Hne)|Hl]].
  - split; [now left|]. split; [intros _; exact Hne|intros H; contradiction].
  - split; [now right; left|]. split; [intros _; exact Hne|intros H; contradiction].
  - rewrite Hl. cbn [model_used forecast linear_extrapolation].
    split; [now right; right|]. split.
    + intros Hle H. apply map_eq_nil in H. revert H. apply py_range_nonempty. lia.
    + intros H. apply map_eq_nil in H. split; [|reflexivity].
      destruct (Z_lt_le_dec end_year start_year) as [Hlt|Hle]; [exact Hlt|].
      exfalso. revert H. apply py_range_nonempty. lia.
Qed.

Lemma prophet_points_window B s a b last_year :
  last_index s = Some last_year ->
  Forall (fun p => (a <= year p <= b)%Z) (prophet_points B s a b).
Proof.
  intros Hl. unfold prophet_points.
  destruct (Prophet.train B Prophet.new s) as [m|]; [|constructor].
  destruct (Prophet.predict B m s a b) as [ps|] eqn:E; [|constructor].
  apply (prophet_predict_some_window B m s a b last_year ps Hl E).
Qed.

Lemma arima_points_years B s a b last_year :
  last_index s = Some last_year ->
  arima_points B s a b <> [] ->
  map year (arima_points B s a b) = py_range (last_year + 1) (b + 1).
Proof.
  intros Hl Hne. unfold arima_points in *.
  destruct (Arima.train B Arima.new s) as [m|]; [|contradiction].
  destruct (Arima.predict B m s a b) as [ps|] eqn:E; [|contradiction].
  apply (arima_predict_some_years B m s a b last_year ps Hl E).
Qed.

(** X9. What the model named in the result guarantees about the years.
    A result tagged "ARIMA" has one point for each year from the year after
    the last historical year up to end_year, consecutively, also for years
    before start_year.  A result tagged "Prophet" has all its years inside
    start_year..end_year.  Either tag implies that end_year is after the
    last historical year. *)
Theorem forecast_years_by_model
        (B : Backend) (crop state : string) (start_year end_year : Z)
        (df : DataFrame) (s : Series) (last_year : Z) :
  prepare_time_series df crop state = Some s ->
  last_index s = Some last_year ->
  let r := predict_production_trends B crop state start_year end_year df in
  (model_used r = "ARIMA"%string ->
   (last_year < end_year)%Z /\
   map year (forecast r) = py_range (last_year + 1) (end_year + 1)) /\
  (model_used r = "Prophet"%string ->
   (last_year < end_year)%Z /\
   Forall (fun p => (start_year <= year p <= end_year)%Z) (forecast r)).
Proof.
  intros Hs Hl r. subst r.
  assert (Hafter : forall pts, (pts = prophet_points B s start_year end_year \/
                                pts = arima_points B s start_year end_year) ->
                               pts <> [] -> (last_year < end_year)%Z).
  { intros pts Hpts Hne.
    destruct (Z_lt_le_dec last_year end_year) as [Hlt|Hle]; [exact Hlt|].
    destruct (points_observed B s start_year end_year last_year Hl Hle) as [Hp Ha].
    destruct Hpts as [->| ->]; contradiction. }
  destruct (trends_cases B crop state start_year end_year df)
    as [(s' & Hs' & Hm & Hf & Hne)|[(s' & Hs' & Hm & Hf & Hne)|Hlin]].
  - rewrite Hs in Hs'. injection Hs' as <-. rewrite Hm. split; [discriminate|].
    intros _. split.
    + apply (Hafter (forecast (predict_production_trends B crop state
                                  start_year end_year df))); auto.
    + rewrite Hf. now apply prophet_points_window with last_year.
  - rewrite Hs in Hs'. injection Hs' as <-. rewrite Hm. split; [|discriminate].
    intros _. split.
    + apply (Hafter (forecast (predict_production_trends B crop state
                                  start_year end_year df))); auto.
    + rewrite Hf. apply arima_points_years; [exact Hl|]. now rewrite <- Hf.
  - rewrite Hlin. cbn [model_used linear_extrapolation]. split; discriminate.
Qed.

(** History 2013-2014, Prophet failing, ARIMA available, request 2016-2017:
    the result is tagged "ARIMA" and covers 2015, 2016, 2017. *)
Lemma forecast_years_by_model_witness :
  map year (forecast (predict_production_trends arima_backend "Rice" "Punjab"
                                                2016 2017 (rice_punjab 2013 2014)))
  = [2015; 2016; 2017]%Z.
Proof.
  destruct rice_punjab_2013_2014 as (s & Hs & Hl).
  destruct (forecast_years_by_model arima_backend "Rice" "Punjab" 2016 2017
              (rice_punjab 2013 2014) s 2014 Hs Hl) as [Harima _].
  assert (Hm : model_used (predict_production_trends arima_backend "Rice" "Punjab"
                             2016 2017 (rice_punjab 2013 2014)) = "ARIMA"%string).
  { unfold predict_production_trends. rewrite Hs.
    change (prophet_attempt arima_backend s 2016 2017) with (@None TrendResult).
    unfold arima_attempt, Arima.train, Arima.predict.
    cbn [arima_fit arima_backend Arima.is_trained]. rewrite Hl. reflexivity. }
  destruct (Harima Hm) as [_ Hy]. rewrite Hy. reflexivity.
Defined.

End ChainProperties.

(* ================================================================== *)
(** * Further properties of the profitability formula *)
(* ================================================================== *)

Module ProfitabilityProperties.
Import Profitability ProfitabilityFacts RankNotions.

Lemma round2_gt_1 q : 1 < round2 q -> 1 < q.
Proof.
  unfold round2. intros H.
  pose proof (round_half_even_close (q * 100)) as Hc.
  set (k := round_half_even (q * 100)) in *.
  assert (Hk : (100 < k)%Z) by (apply lt_IZR; lra).
  assert (IZR 101 <= IZR k) by (apply IZR_le; lia). lra.
Qed.

Lemma round2_lt_1 q : round2 q < 1 -> q < 1.
Proof.
  unfold round2. intros H.
  pose proof (round_half_even_close (q * 100)) as Hc.
  set (k := round_half_even (q * 100)) in *.
  assert (Hk : (k < 100)%Z) by (apply lt_IZR; lra).
  assert (IZR k <= IZR 99) by (apply IZR_le; lia). lra.
Qed.

Lemma round2_nonneg q : 0 <= q -> 0 <= round2 q.
Proof.
  unfold round2. intros H.
  pose proof (round_half_even_close (q * 100)) as Hc.
  set (k := round_half_even (q * 100)) in *.
  assert (Hk : (-1 < k)%Z) by (apply lt_IZR; lra).
  assert (IZR 0 <= IZR k) by (apply IZR_le; lia). lra.
Qed.

Lemma calculate_ok_iff y p c u :
  (exists m, calculate_profitability_index y p c u = Ok m) <-> 0 < c /\ 0 <= y.
Proof.
  split.
  - intros [m H]. unfold calculate_profitability_index in H.
    destruct (Rle_dec c 0); [discriminate|].
    destruct (Rlt_dec y 0); [discriminate|]. lra.
  - intros [Hc Hy]. rewrite calculate_ok by assumption. eauto.
Qed.

(** X10. The returned (rounded) index keeps the meaning its documentation
    gives it, "> 1 = profitable": whenever the call succeeds, a returned index
    above 1 implies that yield * price exceeds the cost, a returned index
    below 1 implies that yield * price is below the cost, and with a
    non-negative price the returned index is never negative. *)
Theorem profitability_index_sign
        (predicted_yield market_price cost : R) (unit : string) (m : Metrics) :
  calculate_profitability_index predicted_yield market_price cost unit = Ok m ->
  (1 < profitability_index m -> cost < predicted_yield * market_price) /\
  (profitability_index m < 1 -> predicted_yield * market_price < cost) /\
  (0 <= market_price -> 0 <= profitability_index m).
Proof.
  intros H.
  destruct (proj1 (calculate_ok_iff _ _ _ _) (ex_intro _ m H)) as [Hc Hy].
  rewrite calculate_ok in H by assumption. injection H as <-.
  cbn [profitability_index].
  assert (Hq : predicted_yield * market_price
               = predicted_yield * market_price / cost * cost) by (field; lra).
  split; [|split].
  - intros H1. apply round2_gt_1 in H1. nra.
  - intros H1. apply round2_lt_1 in H1. nra.
  - intros Hp. apply round2_nonneg.
    apply Rmult_le_pos; [nra|]. apply Rlt_le, Rinv_0_lt_compat, Hc.
Qed.

Lemma profitability_index_sign_witness :
  exists m, calculate_profitability_index 50 2000 80000 default_unit = Ok m /\
            (1 < profitability_index m -> 80000 < 50 * 2000).
Proof.
  eexists. split; [apply calculate_ok; lra|].
  apply (profitability_index_sign 50 2000 80000 default_unit).
  apply calculate_ok; lra.
Defined.

(** ** the comparison of several crops *)

Lemma score_all_ok_iff crops_data :
  (exists results, score_all crops_data = Ok results) <-> Forall valid_entry crops_data.
Proof.
  induction crops_data as [|cd rest IH]; simpl.
  - split; [constructor|eauto].
  - split.
    + intros [results H].
      destruct (calculate_profitability_index _ _ _ _) as [m|] eqn:E; [|discriminate].
      destruct (score_all rest) as [rs|]; [|discriminate].
      constructor.
      * apply (proj1 (calculate_ok_iff _ (get (cd_market_price cd) 0) _ default_unit)).
        eauto.
      * apply IH. eauto.
    + intros H. inversion H as [|? ? Hv Hrest]; subst.
      destruct (proj2 (calculate_ok_iff _ (get (cd_market_price cd) 0) _ default_unit) Hv)
        as [m ->].
      destruct (proj2 IH Hrest) as [rs ->]. eauto.
Qed.

Lemma score_all_crops crops_data :
  forall results, score_all crops_data = Ok results ->
                  map crop results
                  = map (fun cd => get (cd_crop cd) "Unknown"%string) crops_data.
Proof.
  induction crops_data as [|cd rest IH]; simpl; intros results H.
  - injection H as <-. reflexivity.
  - destruct (calculate_profitability_index _ _ _ _); [|discriminate].
    destruct (score_all rest) as [rs|]; [|discriminate].
    injection H as <-. simpl. f_equal. now apply IH.
Qed.

(** X11. [compare_crops_profitability] is all-or-nothing: it returns a
    ranking exactly when every entry has a cost > 0 and a yield >= 0 (an
    absent key counting as 0), and raises [ValueError] otherwise; so a single
    entry without a 'cost' key makes the whole comparison fail.  When it
    returns, the ranking has one result per entry, for the same crop names
    (an absent name reading "Unknown"). *)
Theorem compare_crops_all_or_nothing (crops_data : list CropData) :
  ((exists results, compare_crops_profitability crops_data = Ok results) <->
   Forall valid_entry crops_data) /\
  ((exists cd, In cd crops_data /\ cd_cost cd = None) ->
   exists msg, compare_crops_profitability crops_data = ValueError msg) /\
  (forall results, compare_crops_profitability crops_data = Ok results ->
     length results = length crops_data /\
     Permutation (map crop results)
                 (map (fun cd => get (cd_crop cd) "Unknown"%string) crops_data)).
Proof.
  assert (Hiff : (exists results, compare_crops_profitability crops_data = Ok results) <->
                 Forall valid_entry crops_data).
  { rewrite <- score_all_ok_iff. unfold compare_crops_profitability.
    destruct (score_all crops_data) as [rs|]; split; intros [x H]; eauto; discriminate. }
  split; [exact Hiff|]. split.
  - intros (cd & Hin & Hnone).
    destruct (compare_crops_profitability crops_data) as [results|msg] eqn:E; [|eauto].
    exfalso. assert (Hall : Forall valid_entry crops_data) by (apply Hiff; eauto).
    rewrite Forall_forall in Hall. destruct (Hall cd Hin) as [Hc _].
    rewrite Hnone in Hc. simpl in Hc. lra.
  - intros results H. unfold compare_crops_profitability in H.
    destruct (score_all crops_data) as [rs|] eqn:E; [|discriminate].
    injection H as <-. split.
    + rewrite length_map.
      rewrite <- (length_map snd), enumerate_snd, sort_desc_length.
      now apply ApiFacts.score_all_length.
    + rewrite map_map. cbn [crop set_rank].
      rewrite <- (map_map snd crop), enumerate_snd.
      rewrite <- (score_all_crops _ _ E).
      apply Permutation_map, sort_desc_perm.
Qed.

(** ** stability of the descending sort *)

Section Stability.
Context {A : Type} (key : A -> R) (k : R).

Let at_k (x : A) : bool := if Req_EM_T (key x) k then true else false.

Lemma insert_desc_filter x l :
  filter at_k (insert_desc key x l)
  = if at_k x then x :: filter at_k l else filter at_k l.
Proof.
  induction l as [|y t IH]; simpl; [reflexivity|].
  destruct (Rlt_dec (key x) (key y)) as [Hlt|Hge]; [|reflexivity].
  simpl. rewrite IH. unfold at_k.
  destruct (Req_EM_T (key x) k) as [Hx|Hx]; [|reflexivity].
  destruct (Req_EM_T (key y) k) as [Hy|Hy]; [lra|reflexivity].
Qed.

Lemma sort_desc_filter l : filter at_k (sort_desc key l) = filter at_k l.
Proof.
  induction l as [|x t IH]; simpl; [reflexivity|].
  rewrite insert_desc_filter, IH. reflexivity.
Qed.

End Stability.

End ProfitabilityProperties.

(* ================================================================== *)
(** * Further properties of the recommendation ranker and the endpoint *)
(* ================================================================== *)

Module RankerProperties.
Import Data Api RankNotions.
Import ProfitabilityFacts ApiFacts.

Lemma predicted_yield_nonneg predictor crop state season year cost :
  0 <= Ensemble.predicted_yield
         (Ensemble.predict_yield predictor crop state season year cost).
Proof.
  rewrite EnsembleFacts.predict_yield_blend. unfold Ensemble.blend.
  cbn [Ensemble.predicted_yield]. apply Rmax_l.
Qed.

Lemma estimate_cost_le_budget df request c :
  estimate_cost df request c <= budget request.
Proof. unfold estimate_cost. apply Rmin_l. Qed.

(** what the loop body returns, by the sign of the estimated cost *)
Lemma score_crop_cases predictor df request c :
  let y := Ensemble.predicted_yield
             (Ensemble.predict_yield predictor c (state request) (season request)
                                     2024 (estimate_cost df request c)) in
  let q := y * Ensemble.dict_get market_prices c 2000 / estimate_cost df request c in
  (estimate_cost df request c <= 0 -> score_crop predictor df request c = None) /\
  (0 < estimate_cost df request c ->
   score_crop predictor df request c =
   Some {| crop := c; rank := 0;
           profitability_index := round2 q;
           predicted_yield := y;
           estimated_cost := estimate_cost df request c;
           expected_revenue := round2 (y * Ensemble.dict_get market_prices c 2000);
           expected_profit := round2 (y * Ensemble.dict_get market_prices c 2000
                                      - estimate_cost df request c);
           reason := Profitability.recommendation_text q |}).
Proof.
  cbv zeta. unfold score_crop. split; intros Hc.
  - now rewrite calculate_cost_not_positive.
  - rewrite calculate_ok; [reflexivity|exact Hc|apply predicted_yield_nonneg].
Qed.

Lemma sort_and_rank_origin l rec :
  In rec (sort_and_rank l) ->
  exists i rec0, In rec0 l /\ rec = set_rank (i, rec0).
Proof.
  unfold sort_and_rank. rewrite in_map_iff. intros ([i rec0] & <- & Hin).
  exists i, rec0. split; [|reflexivity].
  apply (Permutation_in _ (sort_desc_perm profitability_index l)).
  rewrite <- (enumerate_snd (Profitability.sort_desc profitability_index l) 1).
  apply in_map_iff. exists (i, rec0). split; [reflexivity|exact Hin].
Qed.

Lemma scored_nil_of_nonpositive predictor df request crops :
  (forall c, In c crops -> estimate_cost df request c <= 0) ->
  scored predictor df request crops = [].
Proof.
  induction crops as [|c rest IH]; intros H; simpl; [reflexivity|].
  rewrite (proj1 (score_crop_cases predictor df request c)) by (apply H; now left).
  apply IH. intros c' Hc'. apply H. now right.
Qed.

Lemma scored_all_of_positive predictor df request crops :
  (forall c, In c crops -> 0 < estimate_cost df request c) ->
  map crop (scored predictor df request crops) = crops.
Proof.
  induction crops as [|c rest IH]; intros H; simpl; [reflexivity|].
  rewrite (proj2 (score_crop_cases predictor df request c)) by (apply H; now left).
  simpl. f_equal. apply IH. intros c' Hc'. apply H. now right.
Qed.

Lemma Rsum_pos l : l <> [] -> Forall (fun x => 0 < x) l -> 0 < Numeric.Rsum l.
Proof.
  induction l as [|x t IH]; intros Hne Hall; [congruence|].
  inversion Hall as [|? ? Hx Ht]; subst. simpl.
  destruct t as [|y t']; [simpl; lra|].
  assert (0 < Numeric.Rsum (y :: t')) by (apply IH; [discriminate|exact Ht]). lra.
Qed.

Lemma np_mean_pos l : l <> [] -> Forall (fun x => 0 < x) l -> 0 < np_mean l.
Proof.
  intros Hne Hall. unfold np_mean. apply Rdiv_lt_0_compat.
  - now apply Rsum_pos.
  - apply lt_0_INR. destruct l; [congruence|simpl; lia].
Qed.

Lemma estimate_cost_pos df request c :
  0 < budget request -> Forall (fun r => 0 < Cost r) df ->
  0 < estimate_cost df request c.
Proof.
  intros Hb Hall. unfold estimate_cost. apply Rmin_glb_lt; [exact Hb|].
  destruct (select df c (state request)) as [|r t] eqn:E;
    cbn [length Nat.ltb Nat.leb].
  - lra.
  - apply np_mean_pos; [discriminate|].
    apply Forall_map. apply Forall_forall. intros r' Hr'.
    rewrite Forall_forall in Hall. apply Hall.
    rewrite <- E in Hr'. unfold select in Hr'. now apply filter_In in Hr'.
Qed.

(** X12. Every recommendation the ranker returns is for a candidate crop
    and satisfies: 0 < estimated_cost <= budget, predicted_yield >= 0 (the
    value the blending engine returned for that estimated cost, year 2024),
    index = round(predicted_yield * price / estimated_cost, 2) with the price
    of the fixed table (2000 for a crop outside it), and the reason text is
    the one selected for the unrounded quotient. *)
Theorem recommendation_fields
        (predictor : Ensemble.EnsembleYieldPredictor) (df : DataFrame)
        (request : RecommendationsRequest) :
  Forall
    (fun rec =>
       let price := Ensemble.dict_get market_prices (crop rec) 2000 in
       let q := predicted_yield rec * price / estimated_cost rec in
       In (crop rec) (candidate_crops df) /\
       estimated_cost rec = estimate_cost df request (crop rec) /\
       0 < estimated_cost rec <= budget request /\
       predicted_yield rec
       = Ensemble.predicted_yield
           (Ensemble.predict_yield predictor (crop rec) (state request)
                                   (season request) 2024 (estimated_cost rec)) /\
       0 <= predicted_yield rec /\
       profitability_index rec = round2 q /\
       expected_revenue rec = round2 (predicted_yield rec * price) /\
       reason rec = Profitability.recommendation_text q)
    (recommendations (get_recommendations predictor df request)).
Proof.
  apply Forall_forall. intros rec Hrec.
  cbn [recommendations get_recommendations] in Hrec.
  apply slice_to_In in Hrec. apply sort_and_rank_origin in Hrec.
  destruct Hrec as (i & rec0 & Hin & ->).
  apply scored_In in Hin. destruct Hin as (c & Hc & Hs).
  destruct (score_crop_cases predictor df request c) as [Hnone Hsome].
  cbv zeta in Hnone, Hsome.
  destruct (Rle_dec (estimate_cost df request c) 0) as [Hle|Hgt].
  - rewrite (Hnone Hle) in Hs. discriminate.
  - assert (Hpos : 0 < estimate_cost df request c) by lra.
    rewrite (Hsome Hpos) in Hs. injection Hs as <-.
    cbv zeta.
    cbn [crop estimated_cost predicted_yield profitability_index expected_revenue
         reason set_rank snd fst].
    pose proof (estimate_cost_le_budget df request c).
    repeat split; try assumption. apply predicted_yield_nonneg.
Qed.

(** X13. With a budget <= 0 every candidate crop is dropped (its estimated
    cost is at most the budget, so the formula raises and the loop
    continues): the ranker returns an empty list of recommendations, not an
    error, whatever the dataset, the models and top_n are. *)
Theorem recommendations_empty_for_nonpositive_budget
        (predictor : Ensemble.EnsembleYieldPredictor) (df : DataFrame)
        (request : RecommendationsRequest) :
  budget request <= 0 ->
  recommendations (get_recommendations predictor df request) = [].
Proof.
  intros Hb. cbn [recommendations get_recommendations].
  rewrite scored_nil_of_nonpositive.
  - destruct (slice_to_prefix (sort_and_rank []) (top_n request)) as [k ->].
    apply firstn_nil.
  - intros c _. pose proof (estimate_cost_le_budget df request c). lra.
Qed.

Lemma recommendations_empty_for_nonpositive_budget_witness :
  recommendations (get_recommendations Ensemble.no_models three_crops
                                       (punjab_request 0 (Some 5%Z))) = [].
Proof.
  apply recommendations_empty_for_nonpositive_budget. cbn. lra.
Defined.

(** X14. With a positive budget and positive costs in every record of the
    dataset, no candidate is dropped: before the top-N cut there is exactly
    one recommendation for each of the first ten distinct crops, whatever the
    models return; without a top-N limit all of them are returned. *)
Theorem recommendations_cover_all_candidates
        (predictor : Ensemble.EnsembleYieldPredictor) (df : DataFrame)
        (request : RecommendationsRequest) :
  0 < budget request ->
  Forall (fun r => 0 < Cost r) df ->
  let candidates := scored predictor df request (candidate_crops df) in
  map crop candidates = candidate_crops df /\
  Permutation (map crop (sort_and_rank candidates)) (candidate_crops df) /\
  (top_n request = None ->
   Permutation (map crop (recommendations (get_recommendations predictor df request)))
               (candidate_crops df)).
Proof.
  intros Hb Hall candidates.
  assert (Hc : map crop candidates = candidate_crops df).
  { apply scored_all_of_positive. intros c _. now apply estimate_cost_pos. }
  assert (Hp : Permutation (map crop (sort_and_rank candidates)) (candidate_crops df)).
  { rewrite <- Hc.
    replace (map crop (sort_and_rank candidates))
      with (map crop (map unranked (sort_and_rank candidates)))
      by (rewrite map_map; reflexivity).
    rewrite sort_and_rank_unranked, map_map. cbn [crop unranked set_rank snd].
    apply Permutation_map, sort_desc_perm. }
  split; [exact Hc|]. split; [exact Hp|].
  intros Hn. cbn [recommendations get_recommendations]. rewrite Hn. exact Hp.
Qed.

Lemma recommendations_cover_all_candidates_witness :
  map crop (scored Ensemble.no_models three_crops (punjab_request 100000 (Some 5%Z))
                   (candidate_crops three_crops))
  = ["Oilseeds"; "Rice"; "Cotton"]%string.
Proof.
  apply (recommendations_cover_all_candidates Ensemble.no_models three_crops
           (punjab_request 100000 (Some 5%Z))).
  - cbn. lra.
  - repeat constructor; cbn; lra.
Defined.

(** ** ties *)

Lemma filter_unranked k l :
  map crop (filter (has_index k) (map unranked l)) = map crop (filter (has_index k) l).
Proof.
  induction l as [|rec t IH]; simpl; [reflexivity|].
  change (has_index k (unranked rec)) with (has_index k rec).
  destruct (has_index k rec); simpl; rewrite IH; reflexivity.
Qed.

(** X15. Ties keep the order of the dataset: among the recommendations with
    one and the same profitability index, the ranked list presents the crops
    in the order in which they were scored, that is the order of their first
    appearance in the dataset. *)
Theorem ranking_keeps_order_of_ties
        (predictor : Ensemble.EnsembleYieldPredictor) (df : DataFrame)
        (request : RecommendationsRequest) (k : R) :
  let candidates := scored predictor df request (candidate_crops df) in
  map crop (filter (has_index k) (sort_and_rank candidates))
  = map crop (filter (has_index k) candidates).
Proof.
  intros candidates.
  rewrite <- (filter_unranked k (sort_and_rank candidates)).
  rewrite sort_and_rank_unranked, filter_unranked.
  f_equal. apply (ProfitabilityProperties.sort_desc_filter profitability_index k).
Qed.

End RankerProperties.

Module EndpointProperties.
Import Endpoints ProfitabilityFacts.

(** X16. The [/profitability] handler fails only on the cost: for a cost
    <= 0 it answers HTTP 500 with the detail "Profitability calculation
    error: Cost must be greater than zero"; for every cost > 0 it answers
    with a body, whatever the models return, because the predicted yield it
    passes on is never negative.  The body's index is the rounded quotient of
    (yield predicted for season "Kharif", year 2024) * price by the cost. *)
Theorem profitability_endpoint_fails_only_on_cost
        (predictor : Ensemble.EnsembleYieldPredictor) (request : ProfitabilityRequest) :
  let y := Ensemble.predicted_yield
             (Ensemble.predict_yield predictor (crop request) (state request)
                                     "Kharif" 2024 (cost request)) in
  (cost request <= 0 ->
   calculate_profitability predictor request
   = Http500 "Profitability calculation error: Cost must be greater than zero") /\
  (0 < cost request ->
   exists m,
     calculate_profitability predictor request = Http200 m /\
     Profitability.profitability_index m
     = round2 (y * market_price request / cost request) /\
     Profitability.recommendation m
     = Profitability.recommendation_text (y * market_price request / cost request)).
Proof.
  intros y. subst y. unfold calculate_profitability. split; intros Hc.
  - now rewrite calculate_cost_not_positive.
  - rewrite calculate_ok;
      [|exact Hc|apply RankerProperties.predicted_yield_nonneg].
    eexists. repeat split.
Qed.

End EndpointProperties.

(* ================================================================== *)
(** * Properties of the ARIMA order selection *)
(* ================================================================== *)

Module ArimaOrderProperties.
Import Data ArimaOrder TrendFacts.

Lemma grid_In max_p max_q st p d q :
  In (p, d, q) (grid max_p max_q st) <->
  (0 <= p <= max_p)%Z /\ In d (d_range st) /\ (0 <= q <= max_q)%Z.
Proof.
  unfold grid. rewrite in_flat_map. split.
  - intros (p' & Hp & H). rewrite in_flat_map in H. destruct H as (d' & Hd & H).
    rewrite in_map_iff in H. destruct H as (q' & Heq & Hq).
    injection Heq as <- <- <-. rewrite In_py_range in Hp, Hq.
    repeat split; try lia. exact Hd.
  - intros (Hp & Hd & Hq). exists p. split; [apply In_py_range; lia|].
    rewrite in_flat_map. exists d. split; [exact Hd|].
    apply in_map_iff. exists q. split; [reflexivity|apply In_py_range; lia].
Qed.

Lemma step_search_state F done acc o :
  search_state F done acc -> search_state F (done ++ [o]) (step F acc o).
Proof.
  intros [(Hb & Ho & Hnone)|(a & Hb & Hin & Hfit & Hmin)]; unfold step.
  - destruct (fit_aic F o) as [aic|] eqn:E.
    + rewrite Hb. simpl. right. exists aic. simpl.
      split; [reflexivity|]. split; [apply in_or_app; right; now left|].
      split; [exact E|]. intros g ag Hg Hag. apply in_app_or in Hg.
      destruct Hg as [Hg|[<-|[]]].
      * rewrite (Hnone g Hg) in Hag. discriminate.
      * rewrite E in Hag. injection Hag as <-. lra.
    + left. split; [exact Hb|]. split; [exact Ho|].
      intros g Hg. apply in_app_or in Hg. destruct Hg as [Hg|[<-|[]]]; auto.
  - right. destruct (fit_aic F o) as [aic|] eqn:E.
    + rewrite Hb. simpl. destruct (Rlt_dec aic a) as [Hlt|Hge].
      * exists aic. simpl. split; [reflexivity|].
        split; [apply in_or_app; right; now left|]. split; [exact E|].
        intros g ag Hg Hag. apply in_app_or in Hg. destruct Hg as [Hg|[<-|[]]].
        -- specialize (Hmin g ag Hg Hag). lra.
        -- rewrite E in Hag. injection Hag as <-. lra.
      * exists a. split; [exact Hb|]. split; [apply in_or_app; now left|].
        split; [exact Hfit|].
        intros g ag Hg Hag. apply in_app_or in Hg. destruct Hg as [Hg|[<-|[]]].
        -- now apply (Hmin g ag).
        -- rewrite E in Hag. injection Hag as <-. lra.
    + exists a. split; [exact Hb|]. split; [apply in_or_app; now left|].
      split; [exact Hfit|].
      intros g ag Hg Hag. apply in_app_or in Hg. destruct Hg as [Hg|[<-|[]]].
      * now apply (Hmin g ag).
      * rewrite E in Hag. discriminate.
Qed.

Lemma fold_search_state F l :
  forall done acc,
    search_state F done acc ->
    search_state F (done ++ l) (fold_left (step F) l acc).
Proof.
  induction l as [|o t IH]; intros done acc H; simpl.
  - now rewrite app_nil_r.
  - replace (done ++ o :: t) with ((done ++ [o]) ++ t)
      by (rewrite <- app_assoc; reflexivity).
    apply IH. now apply step_search_state.
Qed.

(** X17. [find_optimal_order] raises exactly when the stationarity test
    raises.  Otherwise it returns either the default order (1, 1, 1), when no
    order of the grid could be fitted, or an order of the grid that was
    fitted and whose AIC is at most the AIC of every fitted order of the
    grid.  The grid is 0 <= p <= max_p, 0 <= q <= max_q, with d = 0 for a
    stationary series and d in {1, 2} otherwise: the argument max_d has no
    influence on the result. *)
Theorem find_optimal_order_spec (F : Fitting) (max_p max_d max_q : Z) :
  (find_optimal_order F max_p max_d max_q = None <-> adfuller_pvalue F = None) /\
  (forall is_stationary,
     check_stationarity F = Some is_stationary ->
     exists o,
       find_optimal_order F max_p max_d max_q = Some o /\
       ((o = (1, 1, 1)%Z /\
         forall g, In g (grid max_p max_q is_stationary) -> fit_aic F g = None) \/
        (In o (grid max_p max_q is_stationary) /\
         exists a, fit_aic F o = Some a /\
                   forall g ag, In g (grid max_p max_q is_stationary) ->
                                fit_aic F g = Some ag -> a <= ag))) /\
  (forall is_stationary p d q,
     In (p, d, q) (grid max_p max_q is_stationary) <->
     (0 <= p <= max_p)%Z /\ (0 <= q <= max_q)%Z /\
     (if is_stationary then d = 0%Z else d = 1%Z \/ d = 2%Z)) /\
  (forall max_d', find_optimal_order F max_p max_d' max_q
                  = find_optimal_order F max_p max_d max_q).
Proof.
  split; [|split; [|split]].
  - unfold find_optimal_order, check_stationarity.
    destruct (adfuller_pvalue F); split; congruence.
  - intros st Hst. unfold find_optimal_order. rewrite Hst.
    eexists. split; [reflexivity|].
    assert (H0 : search_state F [] (None, (1, 1, 1)%Z)).
    { left. repeat split. intros g []. }
    pose proof (fold_search_state F (grid max_p max_q st) [] _ H0) as H.
    simpl app in H.
    destruct H as [(_ & Ho & Hnone)|(a & _ & Hin & Hfit & Hmin)].
    + left. split; assumption.
    + right. split; [exact Hin|]. exists a. split; assumption.
  - intros st p d q. rewrite grid_In. destruct st; simpl; intuition.
  - reflexivity.
Qed.

(** Only (0,1,0) with AIC 12 and (2,1,1) with AIC 10 fit: (2,1,1) is chosen. *)
Example find_optimal_order_two_fits :
  find_optimal_order two_fits 3 2 3 = Some (2, 1, 1)%Z.
Proof.
  unfold find_optimal_order, check_stationarity. cbn [adfuller_pvalue two_fits].
  destruct (Rle_dec 0.5 0.05) as [H|H]; [lra|].
  change (grid 3 3 false) with
    (flat_map (fun p => flat_map (fun d => map (fun q => (p, d, q)) [0; 1; 2; 3]%Z)
                                 [1; 2]%Z) [0; 1; 2; 3]%Z).
  cbn [flat_map map app fold_left step fit_aic two_fits improves fst snd].
  destruct (Rlt_dec 10 12); [reflexivity|lra].
Qed.

End ArimaOrderProperties.

(* ================================================================== *)
(** * Properties of the categorical encoding *)
(* ================================================================== *)

Module EncodingProperties.
Import Encoding.

(** ** dictionaries *)

Section Dict.
Context {V : Type}.
Implicit Types (d : list (string * V)) (k : string) (v : V).

Lemma has_key_lookup d k :
  has_key d k = match lookup d k with Some _ => true | None => false end.
Proof.
  induction d as [|[k' w] t IH]; simpl; [reflexivity|].
  destruct (String.eqb k' k); [reflexivity|exact IH].
Qed.

Lemma lookup_assign_same d k v : lookup (assign d k v) k = Some v.
Proof.
  induction d as [|[k' w] t IH]; simpl.
  - now rewrite String.eqb_refl.
  - destruct (String.eqb k' k) eqn:E; simpl; rewrite E; [reflexivity|exact IH].
Qed.

Lemma lookup_assign_other d k k' v :
  k <> k' -> lookup (assign d k v) k' = lookup d k'.
Proof.
  intros Hne. induction d as [|[k0 w] t IH]; simpl.
  - destruct (String.eqb k k') eqn:E; [apply String.eqb_eq in E; contradiction|].
    reflexivity.
  - destruct (String.eqb k0 k) eqn:E; simpl.
    + apply String.eqb_eq in E. subst k0.
      destruct (String.eqb k k') eqn:E'; [apply String.eqb_eq in E'; contradiction|].
      reflexivity.
    + destruct (String.eqb k0 k'); [reflexivity|exact IH].
Qed.

Lemma keys_assign_present d k v w :
  lookup d k = Some w -> map fst (assign d k v) = map fst d.
Proof.
  induction d as [|[k0 w0] t IH]; simpl; [discriminate|].
  destruct (String.eqb k0 k) eqn:E; simpl; [reflexivity|].
  intros H. now rewrite IH.
Qed.

End Dict.

(** ** the label encoder *)

Lemma insert_class_In x y classes :
  In y (insert_class x classes) <-> y = x \/ In y classes.
Proof.
  induction classes as [|c t IH]; simpl; [intuition congruence|].
  destruct (String.compare x c) eqn:E; simpl.
  - apply String.compare_eq_iff in E. subst. intuition congruence.
  - intuition congruence.
  - rewrite IH. intuition congruence.
Qed.

Lemma le_fit_In values v : In v (le_fit values) <-> In v values.
Proof.
  induction values as [|x t IH]; simpl; [tauto|].
  rewrite insert_class_In, IH. intuition congruence.
Qed.

Lemma index_of_In v classes :
  In v classes ->
  exists i, index_of v classes = Some i /\ (0 <= i)%Z /\
            nth_error classes (Z.to_nat i) = Some v.
Proof.
  induction classes as [|c t IH]; simpl; [contradiction|].
  intros H. destruct (String.eqb c v) eqn:E.
  - apply String.eqb_eq in E. subst. exists 0%Z. repeat split. lia.
  - destruct H as [->|H]; [rewrite String.eqb_refl in E; discriminate|].
    destruct (IH H) as (i & -> & Hi & Hn). exists (i + 1)%Z.
    split; [reflexivity|]. split; [lia|].
    replace (Z.to_nat (i + 1)) with (S (Z.to_nat i)) by lia. exact Hn.
Qed.

Lemma index_of_Some v classes i :
  index_of v classes = Some i ->
  (0 <= i < Z.of_nat (length classes))%Z /\ nth_error classes (Z.to_nat i) = Some v.
Proof.
  revert i. induction classes as [|c t IH]; simpl; intros i H; [discriminate|].
  destruct (String.eqb c v) eqn:E.
  - injection H as <-. apply String.eqb_eq in E. subst. split; [lia|reflexivity].
  - destruct (index_of v t) as [j|]; [|discriminate]. injection H as <-.
    destruct (IH j eq_refl) as [Hj Hn]. split; [lia|].
    replace (Z.to_nat (j + 1)) with (S (Z.to_nat j)) by lia. exact Hn.
Qed.

Lemma index_of_None v classes : index_of v classes = None <-> ~ In v classes.
Proof.
  split.
  - intros H Hin. destruct (index_of_In v classes Hin) as (i & Hi & _). congruence.
  - intros H. destruct (index_of v classes) as [i|] eqn:E; [|reflexivity].
    exfalso. apply H. apply index_of_Some in E. destruct E as [_ E].
    now apply nth_error_In in E.
Qed.

Lemma le_transform_seen classes values :
  (forall v, In v values -> In v classes) ->
  exists codes, le_transform classes values = Some codes /\
                Forall2 (decodes classes) values codes.
Proof.
  induction values as [|v t IH]; intros H; simpl.
  - exists []. split; [reflexivity|constructor].
  - destruct (index_of_In v classes) as (i & Hi & _); [apply H; now left|].
    destruct IH as (codes & Hc & Hf); [intros w Hw; apply H; now right|].
    rewrite Hi, Hc. exists (i :: codes). split; [reflexivity|].
    constructor; [|exact Hf]. now apply index_of_Some.
Qed.

Lemma le_transform_unseen classes values v :
  In v values -> ~ In v classes -> le_transform classes values = None.
Proof.
  induction values as [|w t IH]; simpl; [contradiction|].
  intros [->|Hin] Hv.
  - rewrite (proj2 (index_of_None v classes) Hv). reflexivity.
  - rewrite (IH Hin Hv). destruct (index_of w classes); reflexivity.
Qed.

(** ** [FeatureEncoder.fit] and [FeatureEncoder.transform] *)

Lemma fit_fold df cols :
  fit new df cols = {| label_encoders := fold_left (fit_step df) cols [];
                       is_fitted := true |}.
Proof. reflexivity. Qed.

Lemma transform_fold self df cols :
  transform self df cols
  = fold_left (transform_step (label_encoders self)) cols (Some df).
Proof. reflexivity. Qed.

Lemma fit_fold_lookup df col column cols :
  lookup df col = Some column ->
  forall encoders,
    In col cols \/ lookup encoders col = Some (le_fit (astype_str column)) ->
    lookup (fold_left (fit_step df) cols encoders) col
    = Some (le_fit (astype_str column)).
Proof.
  intros Hcol. induction cols as [|c t IH]; intros encoders H; simpl.
  - destruct H as [[]|H]. exact H.
  - apply IH. destruct (String.eqb_spec c col) as [->|Hne].
    + right. unfold fit_step. rewrite Hcol. apply lookup_assign_same.
    + destruct H as [[Hc|Hin]|H]; [contradiction|now left|].
      right. unfold fit_step.
      destruct (lookup df c); [|exact H].
      now rewrite lookup_assign_other.
Qed.

Lemma transform_fold_None encoders cols :
  fold_left (transform_step encoders) cols None = None.
Proof. induction cols as [|c t IH]; simpl; [reflexivity|exact IH]. Qed.

(** columns that are not visited keep their content *)
Lemma transform_fold_untouched encoders cols :
  forall cur cur',
    fold_left (transform_step encoders) cols (Some cur) = Some cur' ->
    forall col, ~ In col cols -> lookup cur' col = lookup cur col.
Proof.
  induction cols as [|c t IH]; intros cur cur' H col Hcol; simpl in H.
  - now injection H as <-.
  - destruct (lookup cur c) as [column|] eqn:E1;
      [destruct (lookup encoders c) as [classes|] eqn:E2|].
    + destruct (le_transform classes (astype_str column)) as [codes|];
        [|rewrite transform_fold_None in H; discriminate].
      rewrite (IH _ _ H col) by (intros Hin; apply Hcol; now right).
      apply lookup_assign_other. intros ->. apply Hcol. now left.
    + apply (IH _ _ H col). intros Hin; apply Hcol; now right.
    + apply (IH _ _ H col). intros Hin; apply Hcol; now right.
Qed.

Lemma transform_fold_ok df encoders cols :
  NoDup cols ->
  (forall col column, In col cols -> lookup df col = Some column ->
                      lookup encoders col = Some (le_fit (astype_str column))) ->
  forall cur,
    map fst cur = map fst df ->
    (forall col, In col cols -> lookup cur col = lookup df col) ->
    exists cur',
      fold_left (transform_step encoders) cols (Some cur) = Some cur' /\
      map fst cur' = map fst df /\
      (forall col, ~ In col cols -> lookup cur' col = lookup cur col) /\
      (forall col column, In col cols -> lookup df col = Some column ->
         exists codes,
           lookup cur' col = Some (map Code codes) /\
           Forall2 (decodes (le_fit (astype_str column))) (astype_str column) codes).
Proof.
  induction cols as [|c t IH]; intros Hnd Henc cur Hkeys Hsame.
  - exists cur. simpl. repeat split; auto. intros col column [].
  - inversion Hnd as [|? ? Hc Hnd']; subst. simpl.
    assert (Henc' : forall col column, In col t -> lookup df col = Some column ->
                      lookup encoders col = Some (le_fit (astype_str column)))
      by (intros; apply Henc; [now right|assumption]).
    destruct (lookup df c) as [column|] eqn:Edf.
    + rewrite (Hsame c (or_introl eq_refl)), Edf, (Henc c column (or_introl eq_refl) Edf).
      destruct (le_transform_seen (le_fit (astype_str column)) (astype_str column))
        as (codes & -> & Hdec); [intros v Hv; now apply le_fit_In|].
      destruct (IH Hnd' Henc' (assign cur c (map Code codes))) as (cur' & Hf & Hk & Hu & Hd).
      * rewrite (keys_assign_present cur c _ column); [exact Hkeys|].
        now rewrite (Hsame c (or_introl eq_refl)).
      * intros col Hcol. rewrite lookup_assign_other by (intros ->; contradiction).
        apply Hsame. now right.
      * exists cur'. split; [exact Hf|]. split; [exact Hk|]. split.
        -- intros col Hcol. rewrite Hu by (intros Hin; apply Hcol; now right).
           apply lookup_assign_other. intros ->. apply Hcol. now left.
        -- intros col column' [->|Hin] Hcol'.
           ++ rewrite Edf in Hcol'. injection Hcol' as <-.
              exists codes. split; [|exact Hdec].
              rewrite (Hu col Hc). apply lookup_assign_same.
           ++ now apply Hd.
    + rewrite (Hsame c (or_introl eq_refl)), Edf.
      destruct (IH Hnd' Henc' cur Hkeys) as (cur' & Hf & Hk & Hu & Hd).
      * intros col Hcol. apply Hsame. now right.
      * exists cur'. split; [exact Hf|]. split; [exact Hk|]. split.
        -- intros col Hcol. apply Hu. intros Hin; apply Hcol; now right.
        -- intros col column' [->|Hin] Hcol'; [congruence|now apply Hd].
Qed.

(** X18. Encoding round trip.  For distinct column names, [fit_transform]
    on a new [FeatureEncoder] never raises; it keeps the columns and their
    order, leaves the columns outside [categorical_cols] untouched, and
    replaces every listed column of the frame by integer codes such that
    each code is a valid index into the fitted [classes_] of that column
    and the class at that index is the original label (so two cells get the
    same code only if they hold the same label). *)
Theorem fit_transform_round_trip (df : Frame) (categorical_cols : list string) :
  NoDup categorical_cols ->
  let enc := fst (fit_transform new df categorical_cols) in
  exists df',
    snd (fit_transform new df categorical_cols) = Some df' /\
    is_fitted enc = true /\
    map fst df' = map fst df /\
    (forall col, ~ In col categorical_cols -> lookup df' col = lookup df col) /\
    (forall col column, In col categorical_cols -> lookup df col = Some column ->
       exists codes,
         lookup (label_encoders enc) col = Some (le_fit (astype_str column)) /\
         lookup df' col = Some (map Code codes) /\
         Forall2 (decodes (le_fit (astype_str column))) (astype_str column) codes).
Proof.
  intros Hnd enc. subst enc. unfold fit_transform. cbn [fst snd].
  rewrite transform_fold, fit_fold. cbn [label_encoders is_fitted].
  assert (Henc : forall col column, In col categorical_cols ->
                   lookup df col = Some column ->
                   lookup (fold_left (fit_step df) categorical_cols []) col
                   = Some (le_fit (astype_str column))).
  { intros col column Hin Hcol. apply fit_fold_lookup; [exact Hcol|now left]. }
  destruct (transform_fold_ok df _ categorical_cols Hnd Henc df eq_refl
                              (fun _ _ => eq_refl)) as (df' & Hf & Hk & Hu & Hd).
  exists df'. split; [exact Hf|]. split; [reflexivity|]. split; [exact Hk|].
  split; [exact Hu|].
  intros col column Hin Hcol. destruct (Hd col column Hin Hcol) as (codes & Hl & Hdec).
  exists codes. split; [now apply Henc|]. split; assumption.
Qed.

(** On the sample frame the labels Wheat, Rice, Wheat become codes that
    decode back to them. *)
Lemma fit_transform_round_trip_witness :
  exists df',
    snd (fit_transform new sample_frame ["Crop"%string]) = Some df' /\
    map fst df' = ["Crop"; "Zone"]%string /\
    lookup df' "Zone" = Some [Code 2; Code 0; Code 2].
Proof.
  assert (Hnd : NoDup ["Crop"%string]) by (repeat constructor; intros []).
  destruct (fit_transform_round_trip sample_frame ["Crop"%string] Hnd)
    as (df' & Hf & _ & Hk & Hu & _).
  exists df'. split; [exact Hf|]. split; [exact Hk|].
  rewrite Hu; [reflexivity|]. intros [H|[]]. discriminate.
Defined.

(** X19. [FeatureEncoder.transform] raises on a label that was not seen at
    fit time: for distinct column names, if a listed column of the frame has
    a fitted encoder and contains a label outside its [classes_], the whole
    transform fails ([ValueError]).  (At inference [_prepare_input] handles
    the same situation by writing the code 0.) *)
Theorem transform_raises_on_unseen_label
        (self : FeatureEncoder) (df : Frame) (categorical_cols : list string)
        (col : string) (column : list Cell) (classes : list string) (label : string) :
  NoDup categorical_cols ->
  In col categorical_cols ->
  lookup df col = Some column ->
  lookup (label_encoders self) col = Some classes ->
  In label (astype_str column) ->
  ~ In label classes ->
  transform self df categorical_cols = None.
Proof.
  intros Hnd Hin Hcol Henc Hlabel Hunseen. rewrite transform_fold.
  destruct (in_split col categorical_cols Hin) as (pre & post & ->).
  rewrite fold_left_app. simpl.
  destruct (fold_left (transform_step (label_encoders self)) pre (Some df))
    as [cur|] eqn:E; [|apply transform_fold_None].
  assert (Hpre : ~ In col pre).
  { apply NoDup_remove_2 in Hnd. intros H. apply Hnd. apply in_or_app. now left. }
  assert (Hs : transform_step (label_encoders self) (Some cur) col = None).
  { unfold transform_step.
    rewrite (transform_fold_untouched _ _ _ _ E col Hpre), Hcol, Henc.
    now rewrite (le_transform_unseen classes (astype_str column) label Hlabel Hunseen). }
  rewrite Hs. apply transform_fold_None.
Qed.

(** An encoder fitted on Rice only meets the label Wheat. *)
Lemma transform_raises_on_unseen_label_witness :
  transform {| label_encoders := [("Crop"%string, ["Rice"%string])];
               is_fitted := true |}
            sample_frame ["Crop"%string] = None.
Proof.
  apply (transform_raises_on_unseen_label _ sample_frame ["Crop"%string] "Crop"
           [Str "Wheat"; Str "Rice"; Str "Wheat"] ["Rice"%string] "Wheat").
  - repeat constructor. intros [].
  - now left.
  - reflexivity.
  - reflexivity.
  - now left.
  - intros [H|[]]. discriminate.
Defined.

End EncodingProperties.

Module PrepareInputProperties.
Import Encoding EncodingProperties.

(** the default written for a feature that the base frame lacks *)
Lemma add_missing_keep expected :
  forall row f v, lookup row f = Some v -> lookup (add_missing expected row) f = Some v.
Proof.
  unfold add_missing. induction expected as [|g t IH]; intros row f v H; simpl.
  - exact H.
  - apply IH. destruct (has_key row g) eqn:E; [exact H|].
    rewrite lookup_assign_other; [exact H|].
    intros ->. rewrite has_key_lookup, H in E. discriminate.
Qed.

Lemma add_missing_new expected :
  forall row f, In f expected -> lookup row f = None ->
    lookup (add_missing expected row) f
    = Some (if String.eqb f "Variety" then VStr "Standard" else VInt 0).
Proof.
  induction expected as [|g t IH]; intros row f Hin Hnone; [contradiction|].
  change (add_missing (g :: t) row)
    with (add_missing t (if has_key row g then row
                         else assign row g (if String.eqb g "Variety"
                                            then VStr "Standard" else VInt 0))).
  destruct (String.eqb_spec g f) as [->|Hne].
  - rewrite has_key_lookup, Hnone. apply add_missing_keep. apply lookup_assign_same.
  - destruct Hin as [Hin|Hin]; [contradiction|].
    apply IH; [exact Hin|].
    destruct (has_key row g); [exact Hnone|].
    now rewrite lookup_assign_other.
Qed.

Lemma add_missing_present expected row f :
  In f expected -> exists v, lookup (add_missing expected row) f = Some v.
Proof.
  intros Hin. destruct (lookup row f) as [v|] eqn:E.
  - exists v. now apply add_missing_keep.
  - eexists. now apply add_missing_new.
Qed.

(** the encoding loop, column by column *)
Lemma encode_fold_lookup (input : InputRow) (g : string -> Value -> Value) cols :
  forall acc f,
    lookup (fold_left (fun input_encoded col =>
                         match lookup input col with
                         | Some v => assign input_encoded col (g col v)
                         | None => input_encoded
                         end) cols acc) f
    = if existsb (String.eqb f) cols
      then match lookup input f with
           | Some v => Some (g f v)
           | None => lookup acc f
           end
      else lookup acc f.
Proof.
  induction cols as [|c t IH]; intros acc f; simpl; [reflexivity|].
  rewrite IH. destruct (String.eqb_spec f c) as [->|Hne]; simpl.
  - destruct (lookup input c) as [v|] eqn:E.
    + rewrite lookup_assign_same. now destruct (existsb (String.eqb c) t).
    + now destruct (existsb (String.eqb c) t).
  - destruct (lookup input c) as [v|]; [|reflexivity].
    rewrite lookup_assign_other by congruence. reflexivity.
Qed.

Lemma encode_row_lookup ctx crop state season input f :
  lookup (encode_row ctx crop state season input) f
  = match encoder ctx with
    | Some enc =>
        if is_fitted enc
           && existsb (String.eqb f)
                      (filter (has_key input) ["Crop"; "State"; "Season"; "Variety"]%string)
        then match lookup input f with
             | Some v => Some (encode_column ctx enc crop state season f v)
             | None => None
             end
        else lookup input f
    | None => lookup input f
    end.
Proof.
  unfold encode_row. destruct (encoder ctx) as [enc|]; [|reflexivity].
  destruct (is_fitted enc); [|reflexivity]. simpl andb.
  rewrite (encode_fold_lookup input (encode_column ctx enc crop state season)).
  destruct (existsb _ _); [|reflexivity].
  now destruct (lookup input f).
Qed.

Lemma encode_row_present ctx crop state season input f v :
  lookup input f = Some v ->
  exists v', lookup (encode_row ctx crop state season input) f = Some v'.
Proof.
  intros H. rewrite encode_row_lookup, H.
  destruct (encoder ctx) as [enc|]; [|eauto].
  destruct (_ && _); eauto.
Qed.

Lemma select_features_lookup expected row f :
  lookup (select_features expected row) f
  = if existsb (String.eqb f) expected then lookup row f else None.
Proof.
  unfold select_features. induction expected as [|g t IH]; simpl; [reflexivity|].
  destruct (lookup row g) as [v|] eqn:E; simpl.
  - destruct (String.eqb_spec g f) as [->|Hne].
    + rewrite String.eqb_refl. simpl. now rewrite E.
    + destruct (String.eqb_spec f g) as [->|_]; [contradiction|]. exact IH.
  - rewrite IH. destruct (String.eqb_spec f g) as [->|_]; simpl; [|reflexivity].
    rewrite E. now destruct (existsb (String.eqb g) t).
Qed.

Lemma select_features_names expected row :
  (forall f, In f expected -> exists v, lookup row f = Some v) ->
  map fst (select_features expected row) = expected.
Proof.
  unfold select_features. induction expected as [|g t IH]; intros H; simpl; [reflexivity|].
  destruct (H g (or_introl eq_refl)) as [v ->]. simpl. f_equal.
  apply IH. intros f Hf. apply H. now right.
Qed.

Lemma existsb_In f l : In f l -> existsb (String.eqb f) l = true.
Proof.
  intros H. apply existsb_exists. exists f. split; [exact H|apply String.eqb_refl].
Qed.

(** X20. [_prepare_input] raises exactly when the loaded Random Forest has
    no feature names ([feature_names] is [None]).  Otherwise the frame it
    returns has exactly the expected feature columns, in the expected order
    (the model's own feature names, or the nine default names when no Random
    Forest is loaded): a feature the request does not provide is filled in,
    never dropped. *)
Theorem prepare_input_columns
        (ctx : InputContext) (crop state season : string) (year : Z) (cost : R) :
  (_prepare_input ctx crop state season year cost = None <->
   rf_feature_names ctx = Some None) /\
  (forall expected, expected_features ctx = Some expected ->
     exists row, _prepare_input ctx crop state season year cost = Some row /\
                 map fst row = expected) /\
  (rf_feature_names ctx = None -> expected_features ctx = Some default_features).
Proof.
  split; [|split].
  - unfold _prepare_input, expected_features.
    destruct (rf_feature_names ctx) as [[l|]|]; split; congruence.
  - intros expected He. unfold _prepare_input. rewrite He.
    eexists. split; [reflexivity|].
    apply select_features_names. intros f Hf.
    destruct (add_missing_present expected (base_row crop state season year cost) f Hf)
      as [v Hv].
    now apply encode_row_present with v.
  - unfold expected_features. now intros ->.
Qed.

Lemma existsb_eqb_false v classes :
  existsb (String.eqb v) classes = false -> index_of v classes = None.
Proof.
  intros H. apply index_of_None. intros Hin.
  rewrite (existsb_In v classes Hin) in H. discriminate.
Qed.

Lemma encode_column_code ctx enc crop state season col label :
  encoder ctx = Some enc -> is_fitted enc = true ->
  In (col, label) [ ("Crop"%string, crop); ("State"%string, state);
                    ("Season"%string, season); ("Variety"%string, "Standard"%string) ] ->
  encode_column ctx enc crop state season col (VStr label) = code_of ctx col label.
Proof.
  intros He Hf Hin. unfold code_of, encode_column. rewrite He, Hf.
  destruct (lookup (label_encoders enc) col) as [classes|]; [|reflexivity].
  cbn [transform_one].
  destruct Hin as [H|[H|[H|[H|[]]]]]; injection H as <- <-; cbn [label_known String.eqb
    Ascii.eqb Bool.eqb andb].
  - destruct (existsb (String.eqb crop) classes) eqn:E.
    + now destruct (index_of crop classes).
    + now rewrite (existsb_eqb_false _ _ E).
  - destruct (existsb (String.eqb state) classes) eqn:E.
    + now destruct (index_of state classes).
    + now rewrite (existsb_eqb_false _ _ E).
  - destruct (existsb (String.eqb season) classes) eqn:E.
    + now destruct (index_of season classes).
    + now rewrite (existsb_eqb_false _ _ E).
  - now destruct (index_of "Standard" classes).
Qed.

Lemma categorical_input_lookup expected crop state season year cost col label :
  In (col, label) [ ("Crop"%string, crop); ("State"%string, state);
                    ("Season"%string, season); ("Variety"%string, "Standard"%string) ] ->
  In col expected ->
  lookup (add_missing expected (base_row crop state season year cost)) col
  = Some (VStr label).
Proof.
  intros Hin Hexp. destruct Hin as [H|[H|[H|[H|[]]]]]; injection H as <- <-.
  - now apply add_missing_keep.
  - now apply add_missing_keep.
  - now apply add_missing_keep.
  - now rewrite (add_missing_new expected (base_row crop state season year cost)
                                "Variety" Hexp eq_refl).
Qed.

Lemma prepare_input_lookup ctx crop state season year cost expected row f :
  expected_features ctx = Some expected ->
  _prepare_input ctx crop state season year cost = Some row ->
  In f expected ->
  lookup row f
  = lookup (encode_row ctx crop state season
                       (add_missing expected (base_row crop state season year cost))) f.
Proof.
  intros He Hrow Hf. unfold _prepare_input in Hrow. rewrite He in Hrow.
  injection Hrow as <-. rewrite select_features_lookup.
  now rewrite (existsb_In f expected Hf).
Qed.

(** X21. The categorical columns of the frame built by [_prepare_input].
    For Crop, State, Season (holding the request's values) and Variety
    (holding "Standard"), when the column is an expected feature: without a
    fitted encoder the label is passed on as a string; with a fitted encoder
    that has a [LabelEncoder] for the column, the cell is the position of the
    label in [classes_], and 0 for a label that is not in [classes_] (no
    exception, and the same code as the first class); with a fitted encoder
    that lacks the column, the cell is a hash reduced to 0..999. *)
Theorem prepare_input_categorical
        (ctx : InputContext) (crop state season : string) (year : Z) (cost : R)
        (expected : list string) (row : InputRow) (col label : string) :
  expected_features ctx = Some expected ->
  _prepare_input ctx crop state season year cost = Some row ->
  In (col, label) [ ("Crop"%string, crop); ("State"%string, state);
                    ("Season"%string, season); ("Variety"%string, "Standard"%string) ] ->
  In col expected ->
  lookup row col = Some (code_of ctx col label) /\
  (forall enc, encoder ctx = Some enc -> is_fitted enc = true ->
     (forall classes, lookup (label_encoders enc) col = Some classes ->
        (In label classes ->
         exists i, lookup row col = Some (VInt i) /\ decodes classes label i) /\
        (~ In label classes -> lookup row col = Some (VInt 0))) /\
     (lookup (label_encoders enc) col = None ->
      exists h, lookup row col = Some (VInt h) /\ (0 <= h < 1000)%Z)) /\
  ((encoder ctx = None \/ exists enc, encoder ctx = Some enc /\ is_fitted enc = false) ->
   lookup row col = Some (VStr label)).
Proof.
  intros He Hrow Hpair Hexp.
  assert (Hcode : lookup row col = Some (code_of ctx col label)).
  { rewrite (prepare_input_lookup ctx crop state season year cost expected row col
               He Hrow Hexp).
    pose proof (categorical_input_lookup expected crop state season year cost col label
                  Hpair Hexp) as Hin.
    rewrite encode_row_lookup, Hin.
    destruct (encoder ctx) as [enc|] eqn:Eenc; [|unfold code_of; now rewrite Eenc].
    destruct (is_fitted enc) eqn:Efit;
      [|unfold code_of; now rewrite Eenc, Efit].
    assert (Hcat : existsb (String.eqb col)
                     (filter (has_key (add_missing expected
                                         (base_row crop state season year cost)))
                             ["Crop"; "State"; "Season"; "Variety"]%string) = true).
    { apply existsb_In. apply filter_In. split.
      - destruct Hpair as [H|[H|[H|[H|[]]]]]; injection H as <- _; simpl; tauto.
      - now rewrite has_key_lookup, Hin. }
    rewrite Hcat. cbn [andb]. f_equal.
    now apply encode_column_code. }
  split; [exact Hcode|]. split.
  - intros enc Eenc Efit. split.
    + intros classes Hcl. rewrite Hcode. unfold code_of. rewrite Eenc, Efit, Hcl. split.
      * intros Hin. destruct (index_of_In label classes Hin) as (i & Hi & _).
        rewrite Hi. exists i. split; [reflexivity|]. now apply index_of_Some.
      * intros Hout. now rewrite (proj2 (index_of_None label classes) Hout).
    + intros Hcl. rewrite Hcode. unfold code_of. rewrite Eenc, Efit, Hcl.
      eexists. split; [reflexivity|]. apply Z.mod_pos_bound. lia.
  - intros [Eenc|(enc & Eenc & Efit)]; rewrite Hcode; unfold code_of; rewrite Eenc;
      [reflexivity|now rewrite Efit].
Qed.

(** With an encoder that knows the crops Rice and Wheat and no State
    encoder: the unseen crop Maize is coded 0, the state is coded by its hash
    reduced modulo 1000. *)
Lemma prepare_input_categorical_witness :
  exists row,
    _prepare_input sample_context "Maize" "Punjab" "Kharif" 2024 80000 = Some row /\
    lookup row "Crop" = Some (VInt 0) /\
    lookup row "State" = Some (VInt 567).
Proof.
  eexists. split; [reflexivity|]. split.
  - apply (prepare_input_categorical sample_context "Maize" "Punjab" "Kharif" 2024 80000
             default_features _ "Crop" "Maize" eq_refl eq_refl).
    + now left.
    + now left.
  - apply (prepare_input_categorical sample_context "Maize" "Punjab" "Kharif" 2024 80000
             default_features _ "State" "Punjab" eq_refl eq_refl).
    + right. now left.
    + simpl. tauto.
Defined.

Lemma not_categorical f (input : InputRow) :
  ~ In f ["Crop"; "State"; "Season"; "Variety"]%string ->
  existsb (String.eqb f)
          (filter (has_key input) ["Crop"; "State"; "Season"; "Variety"]%string) = false.
Proof.
  intros H. destruct (existsb _ _) eqn:E; [|reflexivity].
  apply existsb_exists in E. destruct E as (x & Hx & Heq).
  apply String.eqb_eq in Heq. subst x. apply filter_In in Hx. tauto.
Qed.

Lemma lookup_absent {V} (d : list (string * V)) f :
  ~ In f (map fst d) -> lookup d f = None.
Proof.
  induction d as [|[k v] t IH]; simpl; intros H; [reflexivity|].
  destruct (String.eqb_spec k f) as [->|Hne]; [tauto|]. apply IH. tauto.
Qed.

(** X22. The other columns of the frame built by [_prepare_input], when
    they are expected features: Year and Cost carry the request's values,
    Year_Squared is year^2, Cost_per_Unit is cost / 1000, and
    Production_per_Cost is always the constant 0.1; every expected feature
    that is none of the eight columns built from the request nor Variety is
    filled with the integer 0.  The encoder never changes these columns. *)
Theorem prepare_input_numeric
        (ctx : InputContext) (crop state season : string) (year : Z) (cost : R)
        (expected : list string) (row : InputRow) :
  expected_features ctx = Some expected ->
  _prepare_input ctx crop state season year cost = Some row ->
  (forall f v,
     In (f, v) [ ("Year"%string, VInt year); ("Cost"%string, VFloat cost);
                 ("Year_Squared"%string, VInt (year * year));
                 ("Cost_per_Unit"%string, VFloat (cost / 1000));
                 ("Production_per_Cost"%string, VFloat 0.1) ] ->
     In f expected -> lookup row f = Some v) /\
  (forall f,
     In f expected ->
     ~ In f [ "Crop"; "State"; "Season"; "Year"; "Cost"; "Year_Squared";
              "Cost_per_Unit"; "Production_per_Cost"; "Variety" ]%string ->
     lookup row f = Some (VInt 0)).
Proof.
  intros He Hrow. split.
  - intros f v Hpair Hexp.
    rewrite (prepare_input_lookup ctx crop state season year cost expected row f
               He Hrow Hexp).
    assert (Hbase : lookup (base_row crop state season year cost) f = Some v).
    { destruct Hpair as [H|[H|[H|[H|[H|[]]]]]]; injection H as <- <-;
        try reflexivity.
      simpl. do 2 f_equal. lia. }
    assert (Hnc : ~ In f ["Crop"; "State"; "Season"; "Variety"]%string).
    { destruct Hpair as [H|[H|[H|[H|[H|[]]]]]]; injection H as <- _;
        intros [H|[H|[H|[H|[]]]]]; discriminate. }
    rewrite encode_row_lookup, (not_categorical f _ Hnc).
    rewrite (add_missing_keep expected _ f v Hbase).
    destruct (encoder ctx) as [enc|]; [|reflexivity].
    now rewrite andb_false_r.
  - intros f Hexp Hnew.
    rewrite (prepare_input_lookup ctx crop state season year cost expected row f
               He Hrow Hexp).
    assert (Hnc : ~ In f ["Crop"; "State"; "Season"; "Variety"]%string)
      by (simpl in *; tauto).
    rewrite encode_row_lookup, (not_categorical f _ Hnc).
    rewrite (add_missing_new expected _ f Hexp).
    + destruct (String.eqb_spec f "Variety") as [->|_]; [simpl in Hnew; tauto|].
      destruct (encoder ctx) as [enc|]; [|reflexivity].
      now rewrite andb_false_r.
    + apply lookup_absent. simpl in *. tauto.
Qed.

(** For a model trained with an extra feature "Rainfall": the frame carries
    Rainfall = 0 and Production_per_Cost = 0.1. *)
Lemma prepare_input_numeric_witness :
  exists row,
    _prepare_input {| rf_feature_names := Some (Some ["Year"; "Rainfall";
                                                      "Production_per_Cost"]%string);
                      encoder := None;
                      hash_str := fun _ => 0%Z |}
                   "Rice" "Punjab" "Kharif" 2024 80000 = Some row /\
    lookup row "Rainfall" = Some (VInt 0) /\
    lookup row "Production_per_Cost" = Some (VFloat 0.1).
Proof.
  eexists. split; [reflexivity|].
  destruct (prepare_input_numeric
              {| rf_feature_names := Some (Some ["Year"; "Rainfall";
                                                 "Production_per_Cost"]%string);
                 encoder := None; hash_str := fun _ => 0%Z |}
              "Rice" "Punjab" "Kharif" 2024 80000
              ["Year"; "Rainfall"; "Production_per_Cost"]%string _ eq_refl eq_refl)
    as [Hnum Hnew].
  split.
  - apply Hnew; [simpl; tauto|].
    intros H. repeat (destruct H as [H|H]; [discriminate|]). exact H.
  - apply Hnum; simpl; tauto.
Defined.

End PrepareInputProperties.

(* ================================================================== *)
(** * Properties of the cluster-count selection *)
(* ================================================================== *)

Module ClusteringProperties.
Import Data Clustering TrendFacts.

Lemma np_argmax_spec l i m :
  np_argmax l = Some (i, m) ->
  nth_error l i = Some m /\
  Forall (fun x => x <= m) l /\
  (forall j x, (j < i)%nat -> nth_error l j = Some x -> x < m).
Proof.
  revert i m. induction l as [|x t IH]; intros i m H; simpl in H; [discriminate|].
  destruct (np_argmax t) as [[i' m']|] eqn:E.
  - destruct (IH i' m' eq_refl) as (Hn & Hall & Hfirst).
    destruct (Rlt_dec x m') as [Hlt|Hge]; injection H as <- <-.
    + split; [exact Hn|]. split; [constructor; [lra|exact Hall]|].
      intros [|j] y Hj Hy; simpl in Hy.
      * injection Hy as <-. exact Hlt.
      * apply (Hfirst j y); [lia|exact Hy].
    + split; [reflexivity|]. split.
      * constructor; [lra|]. eapply Forall_impl; [|exact Hall]. intros; simpl in *; lra.
      * intros j y Hj. lia.
  - injection H as <- <-. destruct t as [|y t']; [|simpl in E;
      destruct (np_argmax t') as [[? ?]|]; [destruct (Rlt_dec y r)|]; discriminate].
    split; [reflexivity|]. split; [repeat constructor; lra|]. intros j y Hj. lia.
Qed.

Lemma np_argmax_none l : np_argmax l = None <-> l = [].
Proof.
  destruct l as [|x t]; simpl; [tauto|].
  destruct (np_argmax t) as [[i m]|]; [destruct (Rlt_dec x m)|]; split; discriminate.
Qed.

Lemma silhouette_scores_spec silhouette k_range :
  forall scores, silhouette_scores silhouette k_range = Some scores ->
    Forall2 (fun k sc => silhouette k = Some sc) k_range scores.
Proof.
  induction k_range as [|k t IH]; intros scores H; simpl in H.
  - injection H as <-. constructor.
  - destruct (silhouette k) as [sc|] eqn:E; [|discriminate].
    destruct (silhouette_scores silhouette t) as [l|]; [|discriminate].
    injection H as <-. constructor; [exact E|now apply IH].
Qed.

Lemma silhouette_scores_none silhouette k_range :
  silhouette_scores silhouette k_range = None <->
  exists k, In k k_range /\ silhouette k = None.
Proof.
  induction k_range as [|k t IH]; simpl.
  - split; [discriminate|intros (k & [] & _)].
  - destruct (silhouette k) as [sc|] eqn:E.
    + destruct (silhouette_scores silhouette t) as [l|].
      * split; [discriminate|]. intros (k' & [<-|Hin] & Hk'); [congruence|].
        assert (Hx : Some l = None) by (apply IH; eauto). discriminate.
      * split; [|reflexivity]. intros _.
        destruct (proj1 IH eq_refl) as (k' & Hin & Hk'). eauto.
    + split; [|reflexivity]. intros _. exists k. split; [now left|exact E].
Qed.

Lemma Forall2_nth {A B} (P : A -> B -> Prop) l1 l2 :
  Forall2 P l1 l2 ->
  forall i, (forall b, nth_error l2 i = Some b ->
                       exists a, nth_error l1 i = Some a /\ P a b) /\
            (forall a, nth_error l1 i = Some a ->
                       exists b, nth_error l2 i = Some b /\ P a b).
Proof.
  induction 1 as [|a b l1 l2 Hab Hrest IH]; intros [|i]; simpl;
    split; intros ? H; try discriminate.
  - injection H as <-. eauto.
  - injection H as <-. eauto.
  - now apply IH.
  - now apply IH.
Qed.

(** X23. [find_optimal_clusters] returns a k of the sweep
    2 <= k < min(max_clusters + 1, n) whose silhouette score is the largest of
    the sweep, and the smallest such k (every smaller k of the sweep has a
    strictly smaller score).  It raises when the sweep is empty (fewer than 3
    rows, or max_clusters < 2) and when scikit-learn raises for some k of the
    sweep. *)
Theorem find_optimal_clusters_spec
        (silhouette : Z -> option R) (n max_clusters : Z) :
  (forall k, find_optimal_clusters silhouette n max_clusters = Some k ->
     (2 <= k < Z.min (max_clusters + 1) n)%Z /\
     exists best,
       silhouette k = Some best /\
       forall k', (2 <= k' < Z.min (max_clusters + 1) n)%Z ->
                  exists sc, silhouette k' = Some sc /\ sc <= best /\
                             ((k' < k)%Z -> sc < best)) /\
  (find_optimal_clusters silhouette n max_clusters = None <->
   (Z.min (max_clusters + 1) n <= 2)%Z \/
   exists k, (2 <= k < Z.min (max_clusters + 1) n)%Z /\ silhouette k = None).
Proof.
  unfold find_optimal_clusters.
  set (hi := Z.min (max_clusters + 1) n).
  split.
  - intros k H.
    destruct (silhouette_scores silhouette (py_range 2 hi)) as [scores|] eqn:Es;
      [|discriminate].
    destruct (np_argmax scores) as [[i best]|] eqn:Ea; [|discriminate].
    pose proof (silhouette_scores_spec _ _ _ Es) as Hf2.
    destruct (np_argmax_spec _ _ _ Ea) as (Hn & Hall & Hfirst).
    assert (Hk : In k (py_range 2 hi)) by (eapply nth_error_In; exact H).
    apply In_py_range in Hk. split; [exact Hk|].
    exists best. split.
    + destruct (proj1 (Forall2_nth _ _ _ Hf2 i) best Hn) as (k0 & Hk0 & Hs).
      rewrite H in Hk0. now injection Hk0 as <-.
    + intros k' Hk'.
      assert (Hi' : nth_error (py_range 2 hi) (Z.to_nat (k' - 2)) = Some k').
      { unfold py_range. rewrite nth_error_map, nth_error_seq.
        destruct (Nat.ltb_spec (Z.to_nat (k' - 2)) (Z.to_nat (hi - 2))); [|lia].
        cbn [option_map]. f_equal. lia. }
      destruct (proj2 (Forall2_nth _ _ _ Hf2 (Z.to_nat (k' - 2))) k' Hi')
        as (sc & Hsc & Hs).
      exists sc. split; [exact Hs|]. split.
      * rewrite Forall_forall in Hall. apply Hall. eapply nth_error_In; exact Hsc.
      * intros Hlt. apply (Hfirst (Z.to_nat (k' - 2)) sc); [|exact Hsc].
        assert (Hik : nth_error (py_range 2 hi) i = Some (2 + Z.of_nat i)%Z).
        { unfold py_range in *. rewrite nth_error_map in *.
          destruct (nth_error (seq 0 (Z.to_nat (hi - 2))) i) as [j|] eqn:Ej;
            [|discriminate].
          rewrite nth_error_seq in Ej.
          destruct (Nat.ltb_spec i (Z.to_nat (hi - 2))); [|discriminate].
          injection Ej as <-. reflexivity. }
        assert (Hki : k = (2 + Z.of_nat i)%Z) by congruence. lia.
  - split.
    + intros H.
      destruct (silhouette_scores silhouette (py_range 2 hi)) as [scores|] eqn:Es.
      * destruct (np_argmax scores) as [[i best]|] eqn:Ea.
        -- destruct (np_argmax_spec _ _ _ Ea) as (Hn & _).
           pose proof (silhouette_scores_spec _ _ _ Es) as Hf2.
           destruct (proj1 (Forall2_nth _ _ _ Hf2 i) best Hn) as (k0 & Hk0 & _).
           congruence.
        -- left. apply np_argmax_none in Ea. subst scores.
           pose proof (silhouette_scores_spec _ _ _ Es) as Hf2.
           inversion Hf2 as [Hnil|]. symmetry in Hnil.
           destruct (Z_le_gt_dec hi 2) as [Hle|Hgt]; [exact Hle|].
           rewrite ProfitabilityFacts.py_range_cons in Hnil by lia. discriminate.
      * right. apply silhouette_scores_none in Es. destruct Es as (k & Hk & Hs).
        exists k. split; [now apply In_py_range|exact Hs].
    + intros [Hle|(k & Hk & Hs)].
      * rewrite ProfitabilityFacts.py_range_nil by exact Hle. reflexivity.
      * assert (Es : silhouette_scores silhouette (py_range 2 hi) = None).
        { apply silhouette_scores_none. exists k. split; [now apply In_py_range|exact Hs]. }
        now rewrite Es.
Qed.

(** Scores 0.3, 0.6, 0.6, 0.2 for k = 2..5: the first of the two best, k = 3. *)
Example find_optimal_clusters_peaked :
  find_optimal_clusters peaked 10 5 = Some 3%Z.
Proof.
  unfold find_optimal_clusters.
  change (py_range 2 (Z.min (5 + 1) 10)) with [2; 3; 4; 5]%Z.
  change (silhouette_scores peaked [2; 3; 4; 5]%Z) with (Some [0.3; 0.6; 0.6; 0.2]).
  cbn [np_argmax].
  destruct (Rlt_dec 0.6 0.2); [lra|].
  destruct (Rlt_dec 0.6 0.6); [lra|].
  destruct (Rlt_dec 0.3 0.6); [reflexivity|lra].
Qed.

End ClusteringProperties.
